(** * OpenTESArena software renderer: resource pools, frustum clipping and
      per-pixel shading (SoftwareRenderer.cpp)

    A shallow embedding of the parts of the software renderer that the
    specification's testable properties talk about, with the properties
    stated and proved (or refuted at a concrete input) below.

    Conventions.
    - [double] is IEEE binary64.  The code is written once over an interface
      of scalar operations ([DoubleOps]); the instance [double_float] is
      Rocq's primitive binary64 [float] and is the one every evaluation uses.
      The instance [double_real] interprets the same operations over the
      real numbers and is used only where a statement is explicitly about
      exact arithmetic.
    - [int] is modelled by [Z].  Array indices, light levels and counters
      stay far inside the 32-bit range; the sizes that resource creation
      computes from the caller's dimensions do not have to, and are written
      with their 32-bit wrap-around ([int_mul], [int_wrap]).
    - Global scratch arrays are total maps from indices to entries; every
      access the source guards with [DebugAssert] is guarded here too.
    - [DebugAssert] halts the operation: a function that can trip one returns
      an [outcome]. *)

From Stdlib Require Import ZArith List Bool Lia String.
From Stdlib Require Import Floats.
From Stdlib Require Import Reals Lra.
Import ListNotations.

#[local] Open Scope Z_scope.

(* ------------------------------------------------------------------ *)
(** ** Outcomes of operations that can halt                            *)
(* ------------------------------------------------------------------ *)

(** Modelled from the spec: components/debug/Debug.h is not among the
    sources.  [DebugAssert(c)] does nothing when [c] holds and halts the
    program otherwise; [DebugNotImplementedMsg] always halts (a fatal
    error).  The halted run is the outcome [Halted], which carries the text
    of the failed condition or of the message. *)
Inductive outcome (A : Type) : Type :=
| Done (a : A)
| Halted (message : string).
Arguments Done {A} a.
Arguments Halted {A} message.

Definition bind {A B : Type} (m : outcome A) (k : A -> outcome B) : outcome B :=
  match m with
  | Done a => k a
  | Halted c => Halted c
  end.

(** Modelled from the spec: [DebugAssert] of Debug.h, an assertion that
    halts the program when its condition fails. *)
Definition DebugAssert (c : bool) (condition : string) : outcome unit :=
  if c then Done tt else Halted condition.

Declare Scope outcome_scope.
Delimit Scope outcome_scope with outcome.
Notation "x <- m ;; k" := (bind m (fun x => k))
  (at level 61, m at next level, right associativity) : outcome_scope.
Notation "m ;;; k" := (bind m (fun _ => k))
  (at level 61, right associativity) : outcome_scope.

Definition isDone {A : Type} (m : outcome A) : bool :=
  match m with Done _ => true | Halted _ => false end.

Definition halts {A : Type} (m : outcome A) : Prop := isDone m = false.

(** Two runs that end the same way: both halted at the same message, or
    both done with related results. *)
Definition sameOutcome {A : Type} (R : A -> A -> Prop) (m m' : outcome A) : Prop :=
  match m, m' with
  | Done a, Done a' => R a a'
  | Halted c, Halted c' => c = c'
  | _, _ => False
  end.

(* ------------------------------------------------------------------ *)
(** ** Global arrays                                                   *)
(* ------------------------------------------------------------------ *)

(** [a[i] = v]. *)
Definition store {A : Type} (a : Z -> A) (i : Z) (v : A) : Z -> A :=
  fun j => if j =? i then v else a j.

(** Entries [first .. first + count - 1] of an array, in order. *)
Definition slice {A : Type} (a : Z -> A) (first : Z) (count : nat) : list A :=
  map (fun k => a (first + Z.of_nat k)) (seq 0 count).

(** [for (int i = first; i < last; i++) body], as a fold over the state
    the body updates. *)
Fixpoint forLoop {S : Type} (count : nat) (i : Z) (body : Z -> S -> S) (s : S) : S :=
  match count with
  | O => s
  | S remaining => forLoop remaining (i + 1) body (body i s)
  end.

Definition forRange {S : Type} (first last : Z) (body : Z -> S -> S) (s : S) : S :=
  forLoop (Z.to_nat (last - first)) first body s.

(* ------------------------------------------------------------------ *)
(** ** Scalars                                                         *)
(* ------------------------------------------------------------------ *)

Definition INT_MIN : Z := -2147483648.
Definition INT_MAX : Z := 2147483647.

(** The [int] that holds the low 32 bits of [z], read as a two's-complement
    number: [static_cast<int>] of a wider unsigned value, and the result the
    compiled code gives for an [int] product that overflows (C++ itself
    leaves that overflow undefined). *)
Definition int_wrap (z : Z) : Z := ((z - INT_MIN) mod 2 ^ 32) + INT_MIN.

(** [a * b] on two [int]s. *)
Definition int_mul (a b : Z) : Z := int_wrap (a * b).

(** The operations the renderer applies to [double] values. *)
Class DoubleOps (D : Type) : Type := {
  d_zero : D;                      (* 0.0 *)
  d_half : D;                      (* 0.5 *)
  d_one : D;                       (* 1.0 *)
  d_two : D;                       (* 2.0 *)
  dadd : D -> D -> D;
  dsub : D -> D -> D;
  dmul : D -> D -> D;
  ddiv : D -> D -> D;
  dopp : D -> D;
  dsqrt : D -> D;                  (* std::sqrt *)
  dfloor : D -> D;                 (* std::floor *)
  dltb : D -> D -> bool;           (* a < b  *)
  dleb : D -> D -> bool;           (* a <= b *)
  double_of_int : Z -> D;          (* static_cast<double>(int) *)
  int_of_double : D -> Z           (* static_cast<int>(double) *)
}.

Declare Scope double_scope.
Delimit Scope double_scope with D.
Notation "a + b" := (dadd a b) : double_scope.
Notation "a - b" := (dsub a b) : double_scope.
Notation "a * b" := (dmul a b) : double_scope.
Notation "a / b" := (ddiv a b) : double_scope.
Notation "- a" := (dopp a) : double_scope.
Notation "a <? b" := (dltb a b) : double_scope.
Notation "a <=? b" := (dleb a b) : double_scope.
(* C++ writes [a >= b] and [a > b]; they are [b <= a] and [b < a]. *)
Notation "a >=? b" := (dleb b a) (at level 70, no associativity) : double_scope.
Notation "a >? b" := (dltb b a) (at level 70, no associativity) : double_scope.

(** *** The binary64 instance *)

(** Integer part of a finite binary64 value, rounding towards zero. *)
Definition SF_trunc (f : spec_float) : option Z :=
  match f with
  | S754_zero _ => Some 0
  | S754_finite s m e =>
      let a := if 0 <=? e then Zpos m * 2 ^ e else Zpos m / 2 ^ (- e) in
      Some (if s then - a else a)
  | S754_infinity _ | S754_nan => None
  end.

(** [static_cast<int>(d)]: truncation towards zero.  C++ leaves the result
    undefined when the truncated value does not fit an [int] (or [d] is a
    NaN); the model returns [INT_MIN] there, which is what the conversion
    instruction of x86-64 produces.  No proved statement depends on that
    choice. *)
Definition float_to_int (d : float) : Z :=
  match SF_trunc (Prim2SF d) with
  | Some n => if (INT_MIN <=? n) && (n <=? INT_MAX) then n else INT_MIN
  | None => INT_MIN
  end.

(** [static_cast<double>(n)] for a 32-bit [n] (exact). *)
Definition float_of_int (n : Z) : float :=
  if 0 <=? n then PrimFloat.of_uint63 (Uint63.of_Z n)
  else PrimFloat.opp (PrimFloat.of_uint63 (Uint63.of_Z (- n))).

(** [std::floor]: values of magnitude at least 2^52, infinities and NaN are
    their own floor; otherwise the integer below, keeping the sign of a
    zero result of a negative-zero argument. *)
Definition float_floor (d : float) : float :=
  match Prim2SF d with
  | S754_finite s m e =>
      if 0 <=? e then d
      else
        let q := Zpos m / 2 ^ (- e) in
        let exact := Zpos m mod 2 ^ (- e) =? 0 in
        if s then
          PrimFloat.opp (PrimFloat.of_uint63 (Uint63.of_Z (if exact then q else q + 1)))
        else PrimFloat.of_uint63 (Uint63.of_Z q)
  | _ => d
  end.

#[export] Instance double_float : DoubleOps float := {
  d_zero := 0%float;
  d_half := 0.5%float;
  d_one := 1%float;
  d_two := 2%float;
  dadd := PrimFloat.add;
  dsub := PrimFloat.sub;
  dmul := PrimFloat.mul;
  ddiv := PrimFloat.div;
  dopp := PrimFloat.opp;
  dsqrt := PrimFloat.sqrt;
  dfloor := float_floor;
  dltb := PrimFloat.ltb;
  dleb := PrimFloat.leb;
  double_of_int := float_of_int;
  int_of_double := float_to_int
}.

(** *** The exact instance: the same operations over the real numbers *)

Definition R_ltb (a b : R) : bool := if Rlt_dec a b then true else false.
Definition R_leb (a b : R) : bool := if Rle_dec a b then true else false.

(** Truncation towards zero, with the same out-of-range convention as
    [float_to_int]. *)
Definition R_to_int (d : R) : Z :=
  let n := if Rle_dec 0 d then Zfloor d else Zceil d in
  if (INT_MIN <=? n) && (n <=? INT_MAX) then n else INT_MIN.

#[export] Instance double_real : DoubleOps R := {|
  d_zero := 0%R;
  d_half := (/ 2)%R;
  d_one := 1%R;
  d_two := 2%R;
  dadd := Rplus;
  dsub := Rminus;
  dmul := Rmult;
  ddiv := Rdiv;
  dopp := Ropp;
  dsqrt := R_sqrt.sqrt;
  dfloor := fun d => IZR (Zfloor d);
  dltb := R_ltb;
  dleb := R_leb;
  double_of_int := IZR;
  int_of_double := R_to_int
|}.

(* ------------------------------------------------------------------ *)
(** ** Vectors                                                         *)
(* ------------------------------------------------------------------ *)

Section Vectors.
Context {D : Type} `{DoubleOps D}.
#[local] Open Scope double_scope.

Record Double2 : Type := mkDouble2 { x2 : D; y2 : D }.
Record Double3 : Type := mkDouble3 { x3 : D; y3 : D; z3 : D }.
Record Double4 : Type := mkDouble4 { x4 : D; y4 : D; z4 : D; w4 : D }.

(** Modelled from the spec: Vector2.h, Vector3.h and Vector4.h are not
    among the sources.  [lerp] is the linear interpolation the clipper
    applies to positions and texture coordinates with
    [t = insideDiff / (insideDiff - outsideDiff)]; [sub2] and [cross2] are
    the component-wise difference and the 2D cross product behind the
    signed area; [length3] is the Euclidean norm. *)
Definition lerp2 (a b : Double2) (t : D) : Double2 :=
  mkDouble2 (x2 a + ((x2 b - x2 a) * t)) (y2 a + ((y2 b - y2 a) * t)).

(** Modelled from the spec: [Vector4::lerp], the same interpolation on
    the four components of a clip-space position. *)
Definition lerp4 (a b : Double4) (t : D) : Double4 :=
  mkDouble4 (x4 a + ((x4 b - x4 a) * t)) (y4 a + ((y4 b - y4 a) * t))
            (z4 a + ((z4 b - z4 a) * t)) (w4 a + ((w4 b - w4 a) * t)).

(** Modelled from the spec: [Vector2::operator-]. *)
Definition sub2 (a b : Double2) : Double2 :=
  mkDouble2 (x2 a - x2 b) (y2 a - y2 b).

(** Modelled from the spec: [Vector2::cross], the 2D cross product. *)
Definition cross2 (a b : Double2) : D :=
  (x2 a * y2 b) - (x2 b * y2 a).

(** Modelled from the spec: [Vector3::operator-]. *)
Definition sub3 (a b : Double3) : Double3 :=
  mkDouble3 (x3 a - x3 b) (y3 a - y3 b) (z3 a - z3 b).

(** Modelled from the spec: [Vector3::length], the distance a light's
    falloff is computed from. *)
Definition length3 (a : Double3) : D :=
  dsqrt (((x3 a * x3 a) + (y3 a * y3 a)) + (z3 a * z3 a)).
End Vectors.

Arguments Double2 D : clear implicits.
Arguments Double3 D : clear implicits.
Arguments Double4 D : clear implicits.

(* ------------------------------------------------------------------ *)
(** ** swGeometry: clipping a triangle against the frustum planes      *)
(* ------------------------------------------------------------------ *)

Module swGeometry.
Section Clipping.
Context {D : Type} `{DoubleOps D}.
#[local] Open Scope double_scope.

(** One entry of the six parallel arrays that hold a clip-space triangle
    ([...V0s], [...V1s], [...V2s], [...UV0s], [...UV1s], [...UV2s]). *)
Record ClipSpaceTriangle : Type := mkTriangle {
  tv0 : Double4 D; tv1 : Double4 D; tv2 : Double4 D;
  tuv0 : Double2 D; tuv1 : Double2 D; tuv2 : Double2 D
}.

Definition MAX_TRIANGLE_CLIP_RESULTS : Z := 2.

(** The switch at the head of [ProcessClipSpaceTriangle]: the difference
    of one vertex against plane [clipPlaneIndex], and whether that
    difference puts the vertex inside.  [None] is the [default:] case. *)
Definition planeDiff (clipPlaneIndex : Z) (v : Double4 D) : option D :=
  match clipPlaneIndex with
  | 0 => Some (x4 v - (- w4 v))
  | 1 => Some (x4 v - w4 v)
  | 2 => Some (y4 v - (- w4 v))
  | 3 => Some (y4 v - w4 v)
  | 4 => Some (z4 v - (- w4 v))
  | 5 => Some (z4 v - w4 v)
  | _ => None
  end.

Definition planeInside (clipPlaneIndex : Z) (diff : D) : bool :=
  match clipPlaneIndex with
  | 0 | 2 | 4 => diff >=? d_zero
  | _ => diff <=? d_zero
  end.

(** How the switch classifies one vertex against a plane. *)
Definition isVertexInside (clipPlaneIndex : Z) (v : Double4 D) : bool :=
  match planeDiff clipPlaneIndex v with
  | Some diff => planeInside clipPlaneIndex diff
  | None => false
  end.

Definition isVertexOutside (clipPlaneIndex : Z) (v : Double4 D) : bool :=
  match planeDiff clipPlaneIndex v with
  | Some diff => negb (planeInside clipPlaneIndex diff)
  | None => false
  end.

(** [ProcessClipSpaceTriangle]: the triangles written to the
    [g_clipResult...] arrays, in index order; the returned count is the
    length of the list. *)
Definition ProcessClipSpaceTriangle (v0 v1 v2 : Double4 D)
    (uv0 uv1 uv2 : Double2 D) (clipPlaneIndex : Z) : list ClipSpaceTriangle :=
  match planeDiff clipPlaneIndex v0, planeDiff clipPlaneIndex v1,
        planeDiff clipPlaneIndex v2 with
  | Some v0Diff, Some v1Diff, Some v2Diff =>
      let isV0Inside := planeInside clipPlaneIndex v0Diff in
      let isV1Inside := planeInside clipPlaneIndex v1Diff in
      let isV2Inside := planeInside clipPlaneIndex v2Diff in
      (* Determine which two line segments are intersecting the clipping
         plane and generate two new vertices, making sure to keep the
         original winding order. *)
      if isV0Inside then
        if isV1Inside then
          if isV2Inside then
            (* All vertices visible, no clipping needed. *)
            [mkTriangle v0 v1 v2 uv0 uv1 uv2]
          else
            (* Becomes quad.  Inside: V0, V1.  Outside: V2. *)
            let v1v2PointT := v1Diff / (v1Diff - v2Diff) in
            let v2v0PointT := v2Diff / (v2Diff - v0Diff) in
            let v1v2Point := lerp4 v1 v2 v1v2PointT in
            let v2v0Point := lerp4 v2 v0 v2v0PointT in
            let v1v2PointUV := lerp2 uv1 uv2 v1v2PointT in
            let v2v0PointUV := lerp2 uv2 uv0 v2v0PointT in
            [mkTriangle v0 v1 v1v2Point uv0 uv1 v1v2PointUV;
             mkTriangle v1v2Point v2v0Point v0 v1v2PointUV v2v0PointUV uv0]
        else
          if isV2Inside then
            (* Becomes quad.  Inside: V0, V2.  Outside: V1. *)
            let v0v1PointT := v0Diff / (v0Diff - v1Diff) in
            let v1v2PointT := v1Diff / (v1Diff - v2Diff) in
            let v0v1Point := lerp4 v0 v1 v0v1PointT in
            let v1v2Point := lerp4 v1 v2 v1v2PointT in
            let v0v1PointUV := lerp2 uv0 uv1 v0v1PointT in
            let v1v2PointUV := lerp2 uv1 uv2 v1v2PointT in
            [mkTriangle v0 v0v1Point v1v2Point uv0 v0v1PointUV v1v2PointUV;
             mkTriangle v1v2Point v2 v0 v1v2PointUV uv2 uv0]
          else
            (* Becomes smaller triangle.  Inside: V0.  Outside: V1, V2. *)
            let v0v1PointT := v0Diff / (v0Diff - v1Diff) in
            let v2v0PointT := v2Diff / (v2Diff - v0Diff) in
            let v0v1Point := lerp4 v0 v1 v0v1PointT in
            let v2v0Point := lerp4 v2 v0 v2v0PointT in
            let v0v1PointUV := lerp2 uv0 uv1 v0v1PointT in
            let v2v0PointUV := lerp2 uv2 uv0 v2v0PointT in
            [mkTriangle v0 v0v1Point v2v0Point uv0 v0v1PointUV v2v0PointUV]
      else
        if isV1Inside then
          if isV2Inside then
            (* Becomes quad.  Inside: V1, V2.  Outside: V0. *)
            let v0v1PointT := v0Diff / (v0Diff - v1Diff) in
            let v2v0PointT := v2Diff / (v2Diff - v0Diff) in
            let v0v1Point := lerp4 v0 v1 v0v1PointT in
            let v2v0Point := lerp4 v2 v0 v2v0PointT in
            let v0v1PointUV := lerp2 uv0 uv1 v0v1PointT in
            let v2v0PointUV := lerp2 uv2 uv0 v2v0PointT in
            [mkTriangle v0v1Point v1 v2 v0v1PointUV uv1 uv2;
             mkTriangle v2 v2v0Point v0v1Point uv2 v2v0PointUV v0v1PointUV]
          else
            (* Becomes smaller triangle.  Inside: V1.  Outside: V0, V2. *)
            let v0v1PointT := v0Diff / (v0Diff - v1Diff) in
            let v1v2PointT := v1Diff / (v1Diff - v2Diff) in
            let v0v1Point := lerp4 v0 v1 v0v1PointT in
            let v1v2Point := lerp4 v1 v2 v1v2PointT in
            let v0v1PointUV := lerp2 uv0 uv1 v0v1PointT in
            let v1v2PointUV := lerp2 uv1 uv2 v1v2PointT in
            [mkTriangle v0v1Point v1 v1v2Point v0v1PointUV uv1 v1v2PointUV]
        else
          if isV2Inside then
            (* Becomes smaller triangle.  Inside: V2.  Outside: V0, V1. *)
            let v1v2PointT := v1Diff / (v1Diff - v2Diff) in
            let v2v0PointT := v2Diff / (v2Diff - v0Diff) in
            let v1v2Point := lerp4 v1 v2 v1v2PointT in
            let v2v0Point := lerp4 v2 v0 v2v0PointT in
            let v1v2PointUV := lerp2 uv1 uv2 v1v2PointT in
            let v2v0PointUV := lerp2 uv2 uv0 v2v0PointT in
            [mkTriangle v1v2Point v2 v2v0Point v1v2PointUV uv2 v2v0PointUV]
          else
            (* All vertices outside frustum. *)
            []
  | _, _, _ =>
      (* Invalid clip plane case, don't clip anything. *)
      []
  end.

Definition MAX_CLIPPED_MESH_TRIANGLES : Z := 4096.
Definition MAX_CLIPPED_TRIANGLE_TRIANGLES : Z := 64.

(** The [g_clipSpaceTriangle...] arrays together with the two indices the
    clipping loop keeps into them.  Entries at [clipListFrontIndex ..
    clipListSize - 1] are the triangles still to be clipped. *)
Record ClipList : Type := mkClipList {
  g_clipSpaceTriangles : Z -> ClipSpaceTriangle;
  clipListSize : Z;
  clipListFrontIndex : Z
}.

(** The copy loop over [clipResultIndex]: result [clipResultIndex] goes to
    index [clipListSize + clipResultIndex]. *)
Fixpoint copyClipResults (triangles : Z -> ClipSpaceTriangle) (clipListSize : Z)
    (clipResultIndex : Z) (results : list ClipSpaceTriangle)
    : outcome (Z -> ClipSpaceTriangle) :=
  match results with
  | [] => Done triangles
  | r :: rest =>
      let clipResultWriteIndex := (clipListSize + clipResultIndex)%Z in
      (DebugAssert (clipResultWriteIndex <? MAX_CLIPPED_TRIANGLE_TRIANGLES)%Z
         "clipResultWriteIndex < MAX_CLIPPED_TRIANGLE_TRIANGLES" ;;;
       copyClipResults (store triangles clipResultWriteIndex r) clipListSize
         (clipResultIndex + 1)%Z rest)%outcome
  end.

(** One iteration of the loop over [triangleToClip]. *)
Definition clipFrontTriangle (clipPlaneIndex : Z) (l : ClipList) : outcome ClipList :=
  (DebugAssert (clipListFrontIndex l <? MAX_CLIPPED_TRIANGLE_TRIANGLES)%Z
     "clipListFrontIndex < MAX_CLIPPED_TRIANGLE_TRIANGLES" ;;;
   let current := g_clipSpaceTriangles l (clipListFrontIndex l) in
   let results :=
     ProcessClipSpaceTriangle (tv0 current) (tv1 current) (tv2 current)
       (tuv0 current) (tuv1 current) (tuv2 current) clipPlaneIndex in
   let clipResultCount := Z.of_nat (List.length results) in
   triangles <- copyClipResults (g_clipSpaceTriangles l) (clipListSize l) 0 results ;;
   Done (mkClipList triangles (clipListSize l + clipResultCount)%Z
           (clipListFrontIndex l + 1)%Z))%outcome.

Fixpoint clipTriangles (clipPlaneIndex : Z) (triangleToClip : nat) (l : ClipList)
    : outcome ClipList :=
  match triangleToClip with
  | O => Done l
  | S remaining =>
      (l' <- clipFrontTriangle clipPlaneIndex l ;;
       clipTriangles clipPlaneIndex remaining l')%outcome
  end.

(** The body of the loop over [clipPlaneIndex]. *)
Definition clipAgainstPlane (clipPlaneIndex : Z) (l : ClipList) : outcome ClipList :=
  let trianglesToClipCount := (clipListSize l - clipListFrontIndex l)%Z in
  clipTriangles clipPlaneIndex (Z.to_nat trianglesToClipCount) l.

Fixpoint clipAgainstPlanes (clipPlaneIndices : list Z) (l : ClipList) : outcome ClipList :=
  match clipPlaneIndices with
  | [] => Done l
  | clipPlaneIndex :: rest =>
      (l' <- clipAgainstPlane clipPlaneIndex l ;;
       clipAgainstPlanes rest l')%outcome
  end.

Definition clipPlaneCount : Z := 6.
Definition clipPlaneIndices : list Z := [0; 1; 2; 3; 4; 5]%Z.

(** The clipping of one vertex-shaded triangle in
    [ProcessMeshForRasterization]: seed the list with the triangle, clip
    against the six planes, and return the clip list as the loop leaves
    it.  [scratch] is what the arrays held before. *)
Definition clipShadedTriangle (scratch : Z -> ClipSpaceTriangle)
    (shaded : ClipSpaceTriangle) : outcome ClipList :=
  clipAgainstPlanes clipPlaneIndices (mkClipList (store scratch 0 shaded) 1 0).

(** The triangles the loop after the clipping appends to the mesh: the
    entries from the front index up to the list size. *)
Definition resultTriangles (l : ClipList) : list ClipSpaceTriangle :=
  let resultTriangleCount := (clipListSize l - clipListFrontIndex l)%Z in
  slice (g_clipSpaceTriangles l) (clipListFrontIndex l) (Z.to_nat resultTriangleCount).

Definition clippedTriangles (scratch : Z -> ClipSpaceTriangle)
    (shaded : ClipSpaceTriangle) : outcome (list ClipSpaceTriangle) :=
  (l <- clipShadedTriangle scratch shaded ;; Done (resultTriangles l))%outcome.

(** The triangle loop of [ProcessMeshForRasterization] from the
    vertex-shaded triangles on: each triangle's results are appended to
    the [g_clipSpaceMesh...] arrays ([mesh], with its count). *)
Record ClipSpaceMesh : Type := mkMesh {
  g_clipSpaceMeshTriangles : Z -> ClipSpaceTriangle;
  g_clipSpaceMeshTriangleCount : Z
}.

Fixpoint appendToMesh (mesh : Z -> ClipSpaceTriangle) (dstIndex : Z)
    (results : list ClipSpaceTriangle) : Z -> ClipSpaceTriangle :=
  match results with
  | [] => mesh
  | r :: rest => appendToMesh (store mesh dstIndex r) (dstIndex + 1)%Z rest
  end.

Fixpoint processShadedTriangles (scratch : Z -> ClipSpaceTriangle)
    (shadedTriangles : list ClipSpaceTriangle) (mesh : ClipSpaceMesh)
    : outcome ((Z -> ClipSpaceTriangle) * ClipSpaceMesh) :=
  match shadedTriangles with
  | [] => Done (scratch, mesh)
  | shaded :: rest =>
      (l <- clipShadedTriangle scratch shaded ;;
       let results := resultTriangles l in
       let resultTriangleCount := Z.of_nat (List.length results) in
       processShadedTriangles (g_clipSpaceTriangles l) rest
         (mkMesh (appendToMesh (g_clipSpaceMeshTriangles mesh)
                    (g_clipSpaceMeshTriangleCount mesh) results)
                 (g_clipSpaceMeshTriangleCount mesh + resultTriangleCount)%Z))%outcome
  end.

(** All three vertices inside (resp. outside) plane [clipPlaneIndex]. *)
Definition isTriangleInside (clipPlaneIndex : Z) (t : ClipSpaceTriangle) : bool :=
  isVertexInside clipPlaneIndex (tv0 t) && isVertexInside clipPlaneIndex (tv1 t)
  && isVertexInside clipPlaneIndex (tv2 t).

Definition isTriangleOutside (clipPlaneIndex : Z) (t : ClipSpaceTriangle) : bool :=
  isVertexOutside clipPlaneIndex (tv0 t) && isVertexOutside clipPlaneIndex (tv1 t)
  && isVertexOutside clipPlaneIndex (tv2 t).

Definition isTriangleInsideAllPlanes (t : ClipSpaceTriangle) : bool :=
  forallb (fun clipPlaneIndex => isTriangleInside clipPlaneIndex t) clipPlaneIndices.

(** Every triangle still to be clipped satisfies [P]. *)
Definition pendingAll (P : ClipSpaceTriangle -> Prop) (l : ClipList) : Prop :=
  forall i, clipListFrontIndex l <= i < clipListSize l -> P (g_clipSpaceTriangles l i).

(** [ProcessClipSpaceTriangle] applied to a stored triangle. *)
Definition clipTriangleAgainstPlane (t : ClipSpaceTriangle) (clipPlaneIndex : Z)
    : list ClipSpaceTriangle :=
  ProcessClipSpaceTriangle (tv0 t) (tv1 t) (tv2 t) (tuv0 t) (tuv1 t) (tuv2 t)
    clipPlaneIndex.

(** The number of vertices of a triangle that the switch puts inside plane
    [clipPlaneIndex]. *)
Definition insideVertexCount (clipPlaneIndex : Z) (t : ClipSpaceTriangle) : nat :=
  ((if isVertexInside clipPlaneIndex (tv0 t) then 1 else 0)
   + (if isVertexInside clipPlaneIndex (tv1 t) then 1 else 0)
   + (if isVertexInside clipPlaneIndex (tv2 t) then 1 else 0))%nat.

(** A triangle inside each plane of a list. *)
Definition insidePlanes (planes : list Z) (t : ClipSpaceTriangle) : Prop :=
  forall p, In p planes -> isTriangleInside p t = true.

(** Two clip lists with the same two indices whose arrays hold the same
    triangles below the list size; what the arrays hold from the list size
    on is left open. *)
Definition sameClipList (l l' : ClipList) : Prop :=
  clipListSize l' = clipListSize l
  /\ clipListFrontIndex l' = clipListFrontIndex l
  /\ 0 <= clipListFrontIndex l <= clipListSize l
  /\ forall i, 0 <= i < clipListSize l ->
       g_clipSpaceTriangles l' i = g_clipSpaceTriangles l i.

(** The first [count] triangles of the [g_clipSpaceMesh...] arrays. *)
Definition meshTriangles (mesh : ClipSpaceMesh) : list ClipSpaceTriangle :=
  slice (g_clipSpaceMeshTriangles mesh) 0 (Z.to_nat (g_clipSpaceMeshTriangleCount mesh)).
End Clipping.

Arguments ClipSpaceTriangle D : clear implicits.
Arguments ClipList D : clear implicits.
Arguments ClipSpaceMesh D : clear implicits.
End swGeometry.


(* ------------------------------------------------------------------ *)
(** ** <algorithm>                                                     *)
(* ------------------------------------------------------------------ *)

(** [std::clamp(v, lo, hi)], [std::min(a, b)] on [int]. *)
Definition clamp_int (v lo hi : Z) : Z :=
  if v <? lo then lo else if hi <? v then hi else v.

Definition min_int (a b : Z) : Z := if b <? a then b else a.

(** [std::copy(srcBegin, srcEnd, dstBegin)]: the first [srcEnd - srcBegin]
    elements of the destination are overwritten, in order. *)
Definition std_copy {A : Type} (src dst : list A) : list A :=
  src ++ skipn (List.length src) dst.

(** [std::copy(srcBegin, srcEnd, dstBegin + offset)]: the copy lands
    [offset] elements into the destination. *)
Definition std_copy_at {A : Type} (src : list A) (offset : nat) (dst : list A) : list A :=
  firstn offset dst ++ std_copy src (skipn offset dst).

(** [std::clamp(v, lo, hi)] on [double]. *)
Definition clamp_double {D : Type} `{DoubleOps D} (v lo hi : D) : D :=
  if (v <? lo)%D then lo else if (hi <? v)%D then hi else v.

Definition min_double {D : Type} `{DoubleOps D} (a b : D) : D :=
  if (b <? a)%D then b else a.

Definition max_double {D : Type} `{DoubleOps D} (a b : D) : D :=
  if (a <? b)%D then b else a.

(* ------------------------------------------------------------------ *)
(** ** swShader: pixel shaders                                         *)
(* ------------------------------------------------------------------ *)

Inductive TextureSamplingType : Type := Default | ScreenSpaceRepeatY.

Module swShader.
Section PixelShaders.
Context {D : Type} `{DoubleOps D}.

(** ArenaRenderUtils.h is not among the sources: the palette indices with
    a special meaning, and the test for a light-level texel, are taken as
    given. *)
Variable PALETTE_INDEX_TRANSPARENT : Z.
Variable PALETTE_INDEX_LIGHT_LEVEL_LOWEST : Z.
Variable PALETTE_INDEX_LIGHT_LEVEL_SRC1 : Z.
Variable PALETTE_INDEX_LIGHT_LEVEL_SRC2 : Z.
Variable PALETTE_INDEX_LIGHT_LEVEL_DST1 : Z.
Variable PALETTE_INDEX_LIGHT_LEVEL_DST2 : Z.
Variable PALETTE_INDEX_PUDDLE_EVEN_ROW : Z.
Variable isLightLevelTexel : Z -> bool.

Record PixelShaderPerspectiveCorrection : Type := mkPerspective {
  ndcZDepth : D;
  texelPercent : Double2 D
}.

Record PixelShaderTexture : Type := mkTexture {
  texels : Z -> Z;                 (* const uint8_t* *)
  width : Z; height : Z;
  widthMinusOne : Z; heightMinusOne : Z;
  widthReal : D; heightReal : D;
  samplingType : TextureSamplingType
}.

Definition PixelShaderTexture_init (texels : Z -> Z) (width height : Z)
    (samplingType : TextureSamplingType) : PixelShaderTexture :=
  mkTexture texels width height (width - 1) (height - 1)
    (double_of_int width) (double_of_int height) samplingType.

Record PixelShaderPalette : Type := mkPalette {
  palette_colors : Z -> Z;         (* const uint32_t* *)
  palette_count : Z
}.

Record PixelShaderLighting : Type := mkLighting {
  lightTableTexels : Z -> Z;       (* const uint8_t* *)
  lightLevelCount : Z;             (* # of shades from light to dark. *)
  lightLevelCountReal : D;
  texelsPerLightLevel : Z;         (* Should be 256 for 8-bit colors. *)
  lightLevel : Z                   (* The selected row of shades between light and dark. *)
}.

Record PixelShaderHorizonMirror : Type := mkHorizonMirror {
  horizonScreenSpacePoint : Double2 D;
  reflectedPixelIndex : Z;
  isReflectedPixelInFrameBuffer : bool;
  fallbackSkyColor : Z
}.

Record PixelShaderFrameBuffer : Type := mkFrameBuffer {
  colors : Z -> Z;                 (* uint8_t*: the palette index buffer *)
  depth : Z -> D;                  (* double*: the depth buffer *)
  palette : PixelShaderPalette;
  xPercent : D; yPercent : D;
  pixelIndex : Z;
  enableDepthWrite : bool
}.

Definition setColors (fb : PixelShaderFrameBuffer) (c : Z -> Z) : PixelShaderFrameBuffer :=
  mkFrameBuffer c (depth fb) (palette fb) (xPercent fb) (yPercent fb)
    (pixelIndex fb) (enableDepthWrite fb).

Definition setDepth (fb : PixelShaderFrameBuffer) (d : Z -> D) : PixelShaderFrameBuffer :=
  mkFrameBuffer (colors fb) d (palette fb) (xPercent fb) (yPercent fb)
    (pixelIndex fb) (enableDepthWrite fb).

(** The tail every shader shares: store the palette index at the pixel
    and, if enabled, the depth. *)
Definition writePixel (perspective : PixelShaderPerspectiveCorrection)
    (frameBuffer : PixelShaderFrameBuffer) (shadedTexel : Z) : PixelShaderFrameBuffer :=
  let frameBuffer :=
    setColors frameBuffer (store (colors frameBuffer) (pixelIndex frameBuffer) shadedTexel) in
  if enableDepthWrite frameBuffer then
    setDepth frameBuffer (store (depth frameBuffer) (pixelIndex frameBuffer) (ndcZDepth perspective))
  else frameBuffer.

(** [std::clamp(static_cast<int>(percent * sizeReal), 0, sizeMinusOne)]. *)
Definition texelCoord (percent sizeReal : D) (sizeMinusOne : Z) : Z :=
  clamp_int (int_of_double (percent * sizeReal)%D) 0 sizeMinusOne.

(** The texel a shader reads with the perspective-correct coordinates. *)
Definition sampleTexel (texture : PixelShaderTexture) (u v : D) : Z :=
  let texelX := texelCoord u (widthReal texture) (widthMinusOne texture) in
  let texelY := texelCoord v (heightReal texture) (heightMinusOne texture) in
  let texelIndex := texelX + (texelY * width texture) in
  texels texture texelIndex.

(** The texel read with the screen-space coordinates, repeating
    vertically twice over the screen. *)
Definition sampleTexelScreenSpaceRepeatY (texture : PixelShaderTexture)
    (frameBuffer : PixelShaderFrameBuffer) : Z :=
  let texelX := texelCoord (xPercent frameBuffer) (widthReal texture) (widthMinusOne texture) in
  let v := (yPercent frameBuffer * d_two)%D in
  let actualV := if (v >=? d_one)%D then (v - d_one)%D else v in
  let texelY := texelCoord actualV (heightReal texture) (heightMinusOne texture) in
  let texelIndex := texelX + (texelY * width texture) in
  texels texture texelIndex.

Definition shade (lighting : PixelShaderLighting) (texel : Z) : Z :=
  let shadedTexelIndex := texel + (lightLevel lighting * texelsPerLightLevel lighting) in
  lightTableTexels lighting shadedTexelIndex.

Definition PixelShader_Opaque (perspective : PixelShaderPerspectiveCorrection)
    (texture : PixelShaderTexture) (lighting : PixelShaderLighting)
    (frameBuffer : PixelShaderFrameBuffer) : PixelShaderFrameBuffer :=
  let texel :=
    match samplingType texture with
    | Default =>
        sampleTexel texture (x2 (texelPercent perspective)) (y2 (texelPercent perspective))
    | ScreenSpaceRepeatY => sampleTexelScreenSpaceRepeatY texture frameBuffer
    end in
  writePixel perspective frameBuffer (shade lighting texel).

Definition PixelShader_OpaqueWithAlphaTestLayer
    (perspective : PixelShaderPerspectiveCorrection)
    (opaqueTexture alphaTestTexture : PixelShaderTexture)
    (lighting : PixelShaderLighting) (frameBuffer : PixelShaderFrameBuffer)
    : PixelShaderFrameBuffer :=
  let texel :=
    sampleTexel alphaTestTexture (x2 (texelPercent perspective)) (y2 (texelPercent perspective)) in
  let isTransparent := texel =? PALETTE_INDEX_TRANSPARENT in
  let texel :=
    if isTransparent then sampleTexelScreenSpaceRepeatY opaqueTexture frameBuffer
    else texel in
  writePixel perspective frameBuffer (shade lighting texel).

Definition PixelShader_AlphaTested (perspective : PixelShaderPerspectiveCorrection)
    (texture : PixelShaderTexture) (lighting : PixelShaderLighting)
    (frameBuffer : PixelShaderFrameBuffer) : PixelShaderFrameBuffer :=
  let texel :=
    sampleTexel texture (x2 (texelPercent perspective)) (y2 (texelPercent perspective)) in
  let isTransparent := texel =? PALETTE_INDEX_TRANSPARENT in
  if isTransparent then frameBuffer
  else writePixel perspective frameBuffer (shade lighting texel).

(** The texel of the variable-U-minimum shader.  The source multiplies the
    V coordinate by the integer [height], converted to [double]. *)
Definition sampleTexelVariableTexCoordUMin (texture : PixelShaderTexture)
    (perspective : PixelShaderPerspectiveCorrection) (uMin : D) : Z :=
  let u := clamp_double
             (uMin + ((d_one - uMin) * x2 (texelPercent perspective)))%D uMin d_one in
  let texelX := texelCoord u (widthReal texture) (widthMinusOne texture) in
  let texelY := texelCoord (y2 (texelPercent perspective))
                  (double_of_int (height texture)) (heightMinusOne texture) in
  let texelIndex := texelX + (texelY * width texture) in
  texels texture texelIndex.

Definition PixelShader_AlphaTestedWithVariableTexCoordUMin
    (perspective : PixelShaderPerspectiveCorrection) (texture : PixelShaderTexture)
    (uMin : D) (lighting : PixelShaderLighting) (frameBuffer : PixelShaderFrameBuffer)
    : PixelShaderFrameBuffer :=
  let texel := sampleTexelVariableTexCoordUMin texture perspective uMin in
  let isTransparent := texel =? PALETTE_INDEX_TRANSPARENT in
  if isTransparent then frameBuffer
  else writePixel perspective frameBuffer (shade lighting texel).

Definition sampleTexelVariableTexCoordVMin (texture : PixelShaderTexture)
    (perspective : PixelShaderPerspectiveCorrection) (vMin : D) : Z :=
  let texelX := texelCoord (x2 (texelPercent perspective))
                  (widthReal texture) (widthMinusOne texture) in
  let v := clamp_double
             (vMin + ((d_one - vMin) * y2 (texelPercent perspective)))%D vMin d_one in
  let texelY := texelCoord v (heightReal texture) (heightMinusOne texture) in
  let texelIndex := texelX + (texelY * width texture) in
  texels texture texelIndex.

Definition PixelShader_AlphaTestedWithVariableTexCoordVMin
    (perspective : PixelShaderPerspectiveCorrection) (texture : PixelShaderTexture)
    (vMin : D) (lighting : PixelShaderLighting) (frameBuffer : PixelShaderFrameBuffer)
    : PixelShaderFrameBuffer :=
  let texel := sampleTexelVariableTexCoordVMin texture perspective vMin in
  let isTransparent := texel =? PALETTE_INDEX_TRANSPARENT in
  if isTransparent then frameBuffer
  else writePixel perspective frameBuffer (shade lighting texel).

Definition PixelShader_AlphaTestedWithPaletteIndexLookup
    (perspective : PixelShaderPerspectiveCorrection)
    (texture lookupTexture : PixelShaderTexture)
    (lighting : PixelShaderLighting) (frameBuffer : PixelShaderFrameBuffer)
    : PixelShaderFrameBuffer :=
  let texel :=
    sampleTexel texture (x2 (texelPercent perspective)) (y2 (texelPercent perspective)) in
  let isTransparent := texel =? PALETTE_INDEX_TRANSPARENT in
  if isTransparent then frameBuffer
  else
    let replacementTexel := texels lookupTexture texel in
    writePixel perspective frameBuffer (shade lighting replacementTexel).

Definition PixelShader_AlphaTestedWithLightLevelColor
    (perspective : PixelShaderPerspectiveCorrection) (texture : PixelShaderTexture)
    (lighting : PixelShaderLighting) (frameBuffer : PixelShaderFrameBuffer)
    : PixelShaderFrameBuffer :=
  let texel :=
    sampleTexel texture (x2 (texelPercent perspective)) (y2 (texelPercent perspective)) in
  let isTransparent := texel =? PALETTE_INDEX_TRANSPARENT in
  if isTransparent then frameBuffer
  else
    let lightTableTexelIndex := texel + (lightLevel lighting * texelsPerLightLevel lighting) in
    let resultTexel := lightTableTexels lighting lightTableTexelIndex in
    writePixel perspective frameBuffer resultTexel.

Definition PixelShader_AlphaTestedWithLightLevelOpacity
    (perspective : PixelShaderPerspectiveCorrection) (texture : PixelShaderTexture)
    (lighting : PixelShaderLighting) (frameBuffer : PixelShaderFrameBuffer)
    : PixelShaderFrameBuffer :=
  let texel :=
    sampleTexel texture (x2 (texelPercent perspective)) (y2 (texelPercent perspective)) in
  let isTransparent := texel =? PALETTE_INDEX_TRANSPARENT in
  if isTransparent then frameBuffer
  else
    let lightTableTexelIndex :=
      if isLightLevelTexel texel then
        let lightLevel := texel - PALETTE_INDEX_LIGHT_LEVEL_LOWEST in
        let prevFrameBufferPixel := colors frameBuffer (pixelIndex frameBuffer) in
        prevFrameBufferPixel + (lightLevel * texelsPerLightLevel lighting)
      else
        let lightTableOffset := lightLevel lighting * texelsPerLightLevel lighting in
        if texel =? PALETTE_INDEX_LIGHT_LEVEL_SRC1 then
          lightTableOffset + PALETTE_INDEX_LIGHT_LEVEL_DST1
        else if texel =? PALETTE_INDEX_LIGHT_LEVEL_SRC2 then
          lightTableOffset + PALETTE_INDEX_LIGHT_LEVEL_DST2
        else lightTableOffset + texel in
    let resultTexel := lightTableTexels lighting lightTableTexelIndex in
    writePixel perspective frameBuffer resultTexel.

Definition brightnessLimit : Z := 63.                               (* 0x3F *)
Definition brightnessMask : Z := Z.land (Z.lnot brightnessLimit) 255. (* uint8_t *)
Definition brightnessMaskR : Z := Z.shiftl brightnessMask 16.
Definition brightnessMaskG : Z := Z.shiftl brightnessMask 8.
Definition brightnessMaskB : Z := brightnessMask.
Definition brightnessMaskRGB : Z :=
  Z.lor (Z.lor brightnessMaskR brightnessMaskG) brightnessMaskB.

Definition PixelShader_AlphaTestedWithPreviousBrightnessLimit
    (perspective : PixelShaderPerspectiveCorrection) (texture : PixelShaderTexture)
    (frameBuffer : PixelShaderFrameBuffer) : PixelShaderFrameBuffer :=
  let prevFrameBufferPixel := colors frameBuffer (pixelIndex frameBuffer) in
  let prevFrameBufferColor := palette_colors (palette frameBuffer) prevFrameBufferPixel in
  let isDarkEnough := Z.land prevFrameBufferColor brightnessMaskRGB =? 0 in
  if negb isDarkEnough then frameBuffer
  else
    let texel :=
      sampleTexel texture (x2 (texelPercent perspective)) (y2 (texelPercent perspective)) in
    let isTransparent := texel =? PALETTE_INDEX_TRANSPARENT in
    if isTransparent then frameBuffer
    else writePixel perspective frameBuffer texel.

Definition PixelShader_AlphaTestedWithHorizonMirror
    (perspective : PixelShaderPerspectiveCorrection) (texture : PixelShaderTexture)
    (horizon : PixelShaderHorizonMirror) (lighting : PixelShaderLighting)
    (frameBuffer : PixelShaderFrameBuffer) : PixelShaderFrameBuffer :=
  let texel :=
    sampleTexel texture (x2 (texelPercent perspective)) (y2 (texelPercent perspective)) in
  let isTransparent := texel =? PALETTE_INDEX_TRANSPARENT in
  if isTransparent then frameBuffer
  else
    let isReflective := texel =? PALETTE_INDEX_PUDDLE_EVEN_ROW in
    let resultTexel :=
      if isReflective then
        if isReflectedPixelInFrameBuffer horizon then
          colors frameBuffer (reflectedPixelIndex horizon)
        else fallbackSkyColor horizon
      else shade lighting texel in
    writePixel perspective frameBuffer resultTexel.

(** The 8-bit component of a 32-bit colour that starts at bit [shift]: 16
    for red, 8 for green and 0 for blue, the layout the three brightness
    masks assume. *)
Definition colorComponent (color shift : Z) : Z :=
  Z.land (Z.shiftr color shift) 255.

(** Every component of a colour is at most [brightnessLimit]. *)
Definition withinBrightnessLimit (color : Z) : bool :=
  (colorComponent color 16 <=? brightnessLimit)
  && (colorComponent color 8 <=? brightnessLimit)
  && (colorComponent color 0 <=? brightnessLimit).
End PixelShaders.

Arguments PixelShaderPerspectiveCorrection D : clear implicits.
Arguments PixelShaderTexture D : clear implicits.
Arguments PixelShaderLighting D : clear implicits.
Arguments PixelShaderHorizonMirror D : clear implicits.
Arguments PixelShaderFrameBuffer D : clear implicits.
End swShader.

(* ------------------------------------------------------------------ *)
(** ** swRender: per-pixel work of RasterizeTriangles                  *)
(* ------------------------------------------------------------------ *)

Inductive RenderLightingType : Type := PerMesh | PerPixel.

Inductive PixelShaderType : Type :=
| Opaque
| OpaqueWithAlphaTestLayer
| AlphaTested
| AlphaTestedWithVariableTexCoordUMin
| AlphaTestedWithVariableTexCoordVMin
| AlphaTestedWithPaletteIndexLookup
| AlphaTestedWithLightLevelColor
| AlphaTestedWithLightLevelOpacity
| AlphaTestedWithPreviousBrightnessLimit
| AlphaTestedWithHorizonMirror.

(** The shader variants whose name starts with [AlphaTested]. *)
Definition isAlphaTestedVariant (t : PixelShaderType) : bool :=
  match t with
  | Opaque | OpaqueWithAlphaTestLayer => false
  | _ => true
  end.

Module swRender.
Import swShader.

Definition DITHERING_MODE_NONE : Z := 0.
Definition DITHERING_MODE_CLASSIC : Z := 1.
Definition DITHERING_MODE_MODERN : Z := 2.
Definition DITHERING_MODE_MODERN_MASK_COUNT : Z := 4.

Section PerPixel.
Context {D : Type} `{DoubleOps D}.

Variable PALETTE_INDEX_TRANSPARENT : Z.
Variable PALETTE_INDEX_LIGHT_LEVEL_LOWEST : Z.
Variable PALETTE_INDEX_LIGHT_LEVEL_SRC1 : Z.
Variable PALETTE_INDEX_LIGHT_LEVEL_SRC2 : Z.
Variable PALETTE_INDEX_LIGHT_LEVEL_DST1 : Z.
Variable PALETTE_INDEX_LIGHT_LEVEL_DST2 : Z.
Variable PALETTE_INDEX_PUDDLE_EVEN_ROW : Z.
Variable isLightLevelTexel : Z -> bool.

(** [SoftwareRenderer::Light]. *)
Record Light : Type := mkLight {
  worldPoint : Double3 D;
  startRadius : D;
  endRadius : D
}.

(** The intensity one light contributes at distance [lightDistance]. *)
Definition lightIntensityAt (light : Light) (lightDistance : D) : D :=
  if (lightDistance <=? startRadius light)%D then d_one
  else if (lightDistance >=? endRadius light)%D then d_zero
  else
    clamp_double
      (d_one - ((lightDistance - startRadius light)
                / (endRadius light - startRadius light)))%D
      d_zero d_one.

(** The loop over [lightIndex], from the light at the head of [lights]
    on, with its early exit. *)
Fixpoint addLightIntensities (lights : list Light)
    (shaderWorldSpacePointXYZ : Double3 D) (lightIntensitySum : D) : D :=
  match lights with
  | [] => lightIntensitySum
  | light :: rest =>
      let lightPointDiff := sub3 (worldPoint light) shaderWorldSpacePointXYZ in
      let lightDistance := length3 lightPointDiff in
      let lightIntensity := lightIntensityAt light lightDistance in
      let lightIntensitySum := (lightIntensitySum + lightIntensity)%D in
      if (lightIntensitySum >=? d_one)%D then d_one
      else addLightIntensities rest shaderWorldSpacePointXYZ lightIntensitySum
  end.

Definition computeLightIntensitySum (lightingType : RenderLightingType)
    (meshLightPercent ambientPercent : D) (lights : list Light)
    (shaderWorldSpacePointXYZ : Double3 D) : D :=
  match lightingType with
  | PerPixel => addLightIntensities lights shaderWorldSpacePointXYZ ambientPercent
  | PerMesh => meshLightPercent
  end.

(** The light-table row chosen from the intensity. *)
Definition lightLevelOf (lightLevelCount : Z) (lightLevelCountReal : D)
    (lightIntensitySum : D) : Z :=
  let lightLevelReal := (lightIntensitySum * lightLevelCountReal)%D in
  (lightLevelCount - 1)
  - clamp_int (int_of_double lightLevelReal) 0 (lightLevelCount - 1).

Definition shouldDither (ditheringMode : Z) (ditherBufferPtr : Z -> bool)
    (x y frameBufferWidth frameBufferHeight : Z)
    (lightIntensitySum lightLevelReal : D) : bool :=
  if ditheringMode =? DITHERING_MODE_NONE then false
  else if ditheringMode =? DITHERING_MODE_CLASSIC then
    ditherBufferPtr (x + (y * frameBufferWidth))
  else if ditheringMode =? DITHERING_MODE_MODERN then
    if (lightIntensitySum <? d_one)%D then
      let maskCount := DITHERING_MODE_MODERN_MASK_COUNT in
      let lightLevelFraction := (lightLevelReal - dfloor lightLevelReal)%D in
      let maskIndex :=
        clamp_int (int_of_double (double_of_int maskCount * lightLevelFraction)%D)
          0 (maskCount - 1) in
      let ditherBufferIndex :=
        x + (y * frameBufferWidth) + (maskIndex * frameBufferWidth * frameBufferHeight) in
      ditherBufferPtr ditherBufferIndex
    else false
  else false.

(** The light level after the dithering step, which only runs with
    per-pixel lighting. *)
Definition ditherLightLevel (lightingType : RenderLightingType) (ditheringMode : Z)
    (ditherBufferPtr : Z -> bool) (x y frameBufferWidth frameBufferHeight : Z)
    (lightLevelCount : Z) (lightLevelCountReal lightIntensitySum : D)
    (lightLevel : Z) : Z :=
  match lightingType with
  | PerPixel =>
      let lightLevelReal := (lightIntensitySum * lightLevelCountReal)%D in
      if shouldDither ditheringMode ditherBufferPtr x y frameBufferWidth
           frameBufferHeight lightIntensitySum lightLevelReal
      then min_int (lightLevel + 1) (lightLevelCount - 1)
      else lightLevel
  | PerMesh => lightLevel
  end.

(** What [RasterizeTriangles] holds fixed while it walks the pixels of
    one triangle. *)
Record DrawState : Type := mkDrawState {
  frameBufferWidth : Z;
  frameBufferHeight : Z;
  lightingType : RenderLightingType;
  meshLightPercent : D;
  ambientPercent : D;
  lights : list Light;
  pixelShaderType : PixelShaderType;
  pixelShaderParam0 : D;
  enableDepthRead : bool;
  drawEnableDepthWrite : bool;
  shaderTexture0 : PixelShaderTexture D;
  shaderTexture1 : PixelShaderTexture D;
  paletteTexels32Bit : Z -> Z;
  paletteTexelCount : Z;
  lightTableTexels8Bit : Z -> Z;
  lightTableWidth : Z;
  lightTableHeight : Z;
  ditheringMode : Z;
  ditherBufferPtr : Z -> bool;
  drawHorizonScreenSpacePoint : Double2 D;
  drawFallbackSkyColor : Z
}.

(** The buffers and counters the rasterizer mutates. *)
Record FrameState : Type := mkFrameState {
  paletteIndexBuffer : Z -> Z;
  depthBuffer : Z -> D;
  colorBuffer : Z -> Z;
  g_totalDepthTests : Z;
  g_totalColorWrites : Z
}.

(** The light level of the pixel: intensity, mapping to a row, dithering. *)
Definition pixelLightLevel (ds : DrawState) (x y : Z)
    (shaderWorldSpacePointXYZ : Double3 D) : Z :=
  let lightLevelCount := lightTableHeight ds in
  let lightLevelCountReal := double_of_int lightLevelCount in
  let lightIntensitySum :=
    computeLightIntensitySum (lightingType ds) (meshLightPercent ds)
      (ambientPercent ds) (lights ds) shaderWorldSpacePointXYZ in
  let lightLevel := lightLevelOf lightLevelCount lightLevelCountReal lightIntensitySum in
  ditherLightLevel (lightingType ds) (ditheringMode ds) (ditherBufferPtr ds) x y
    (frameBufferWidth ds) (frameBufferHeight ds) lightLevelCount lightLevelCountReal
    lightIntensitySum lightLevel.

Definition pixelHorizonMirror (ds : DrawState) (pixelCenter : Double2 D)
    : PixelShaderHorizonMirror D :=
  let horizon := drawHorizonScreenSpacePoint ds in
  let reflectedScreenSpacePoint :=
    mkDouble2 (x2 pixelCenter) (y2 horizon + (y2 horizon - y2 pixelCenter))%D in
  let reflectedPixelX := int_of_double (x2 reflectedScreenSpacePoint) in
  let reflectedPixelY := int_of_double (y2 reflectedScreenSpacePoint) in
  mkHorizonMirror horizon
    (reflectedPixelX + (reflectedPixelY * frameBufferWidth ds))
    ((0 <=? reflectedPixelX) && (reflectedPixelX <? frameBufferWidth ds)
     && (0 <=? reflectedPixelY) && (reflectedPixelY <? frameBufferHeight ds))
    (drawFallbackSkyColor ds).

(** The [switch (pixelShaderType)]. *)
Definition runPixelShader (ds : DrawState)
    (shaderPerspective : PixelShaderPerspectiveCorrection D)
    (shaderLighting : PixelShaderLighting D)
    (shaderHorizonMirror : PixelShaderHorizonMirror D)
    (shaderFrameBuffer : PixelShaderFrameBuffer D) : PixelShaderFrameBuffer D :=
  match pixelShaderType ds with
  | Opaque =>
      PixelShader_Opaque shaderPerspective (shaderTexture0 ds) shaderLighting
        shaderFrameBuffer
  | OpaqueWithAlphaTestLayer =>
      PixelShader_OpaqueWithAlphaTestLayer PALETTE_INDEX_TRANSPARENT shaderPerspective
        (shaderTexture0 ds) (shaderTexture1 ds) shaderLighting shaderFrameBuffer
  | AlphaTested =>
      PixelShader_AlphaTested PALETTE_INDEX_TRANSPARENT shaderPerspective
        (shaderTexture0 ds) shaderLighting shaderFrameBuffer
  | AlphaTestedWithVariableTexCoordUMin =>
      PixelShader_AlphaTestedWithVariableTexCoordUMin PALETTE_INDEX_TRANSPARENT
        shaderPerspective (shaderTexture0 ds) (pixelShaderParam0 ds) shaderLighting
        shaderFrameBuffer
  | AlphaTestedWithVariableTexCoordVMin =>
      PixelShader_AlphaTestedWithVariableTexCoordVMin PALETTE_INDEX_TRANSPARENT
        shaderPerspective (shaderTexture0 ds) (pixelShaderParam0 ds) shaderLighting
        shaderFrameBuffer
  | AlphaTestedWithPaletteIndexLookup =>
      PixelShader_AlphaTestedWithPaletteIndexLookup PALETTE_INDEX_TRANSPARENT
        shaderPerspective (shaderTexture0 ds) (shaderTexture1 ds) shaderLighting
        shaderFrameBuffer
  | AlphaTestedWithLightLevelColor =>
      PixelShader_AlphaTestedWithLightLevelColor PALETTE_INDEX_TRANSPARENT
        shaderPerspective (shaderTexture0 ds) shaderLighting shaderFrameBuffer
  | AlphaTestedWithLightLevelOpacity =>
      PixelShader_AlphaTestedWithLightLevelOpacity PALETTE_INDEX_TRANSPARENT
        PALETTE_INDEX_LIGHT_LEVEL_LOWEST PALETTE_INDEX_LIGHT_LEVEL_SRC1
        PALETTE_INDEX_LIGHT_LEVEL_SRC2 PALETTE_INDEX_LIGHT_LEVEL_DST1
        PALETTE_INDEX_LIGHT_LEVEL_DST2 isLightLevelTexel
        shaderPerspective (shaderTexture0 ds) shaderLighting shaderFrameBuffer
  | AlphaTestedWithPreviousBrightnessLimit =>
      PixelShader_AlphaTestedWithPreviousBrightnessLimit PALETTE_INDEX_TRANSPARENT
        shaderPerspective (shaderTexture0 ds) shaderFrameBuffer
  | AlphaTestedWithHorizonMirror =>
      PixelShader_AlphaTestedWithHorizonMirror PALETTE_INDEX_TRANSPARENT
        PALETTE_INDEX_PUDDLE_EVEN_ROW shaderPerspective (shaderTexture0 ds)
        shaderHorizonMirror shaderLighting shaderFrameBuffer
  end.

(** The texel the selected shader samples and compares with the
    transparent index. *)
Definition sampledTexel (ds : DrawState)
    (shaderPerspective : PixelShaderPerspectiveCorrection D)
    (shaderFrameBuffer : PixelShaderFrameBuffer D) : Z :=
  let u := x2 (texelPercent shaderPerspective) in
  let v := y2 (texelPercent shaderPerspective) in
  match pixelShaderType ds with
  | Opaque =>
      match samplingType (shaderTexture0 ds) with
      | Default => sampleTexel (shaderTexture0 ds) u v
      | ScreenSpaceRepeatY =>
          sampleTexelScreenSpaceRepeatY (shaderTexture0 ds) shaderFrameBuffer
      end
  | OpaqueWithAlphaTestLayer => sampleTexel (shaderTexture1 ds) u v
  | AlphaTestedWithVariableTexCoordUMin =>
      sampleTexelVariableTexCoordUMin (shaderTexture0 ds) shaderPerspective
        (pixelShaderParam0 ds)
  | AlphaTestedWithVariableTexCoordVMin =>
      sampleTexelVariableTexCoordVMin (shaderTexture0 ds) shaderPerspective
        (pixelShaderParam0 ds)
  | _ => sampleTexel (shaderTexture0 ds) u v
  end.

(** The frame buffer view the shaders receive for pixel [(x, y)]. *)
Definition pixelFrameBuffer (ds : DrawState) (x y : Z) (st : FrameState)
    : PixelShaderFrameBuffer D :=
  let frameBufferWidthReal := double_of_int (frameBufferWidth ds) in
  let frameBufferHeightReal := double_of_int (frameBufferHeight ds) in
  mkFrameBuffer (paletteIndexBuffer st) (depthBuffer st)
    (mkPalette (paletteTexels32Bit ds) (paletteTexelCount ds))
    ((double_of_int x + d_half) / frameBufferWidthReal)%D
    ((double_of_int y + d_half) / frameBufferHeightReal)%D
    (x + (y * frameBufferWidth ds))
    (drawEnableDepthWrite ds).

(** A pixel that passed the depth test: light level, horizon mirror,
    pixel shader, then the write to the final output buffer. *)
Definition shadePixel (ds : DrawState) (x y : Z)
    (shaderPerspective : PixelShaderPerspectiveCorrection D)
    (shaderWorldSpacePointXYZ : Double3 D) (st : FrameState) : FrameState :=
  let shaderFrameBuffer := pixelFrameBuffer ds x y st in
  let pixelCenter :=
    mkDouble2 (xPercent shaderFrameBuffer * double_of_int (frameBufferWidth ds))%D
              (yPercent shaderFrameBuffer * double_of_int (frameBufferHeight ds))%D in
  let shaderLighting :=
    mkLighting (lightTableTexels8Bit ds) (lightTableHeight ds)
      (double_of_int (lightTableHeight ds)) (lightTableWidth ds)
      (pixelLightLevel ds x y shaderWorldSpacePointXYZ) in
  let shaderHorizonMirror := pixelHorizonMirror ds pixelCenter in
  let shaderFrameBuffer :=
    runPixelShader ds shaderPerspective shaderLighting shaderHorizonMirror
      shaderFrameBuffer in
  (* Write pixel shader result to final output buffer. *)
  let writtenPaletteIndex := colors shaderFrameBuffer (pixelIndex shaderFrameBuffer) in
  mkFrameState (colors shaderFrameBuffer) (depth shaderFrameBuffer)
    (store (colorBuffer st) (pixelIndex shaderFrameBuffer)
       (palette_colors (palette shaderFrameBuffer) writtenPaletteIndex))
    (g_totalDepthTests st)
    (g_totalColorWrites st + 1).

(** A pixel whose centre is inside the triangle: depth test, then
    [shadePixel].  The perspective-correct depth, texture coordinates and
    world-space point are the values the source interpolates from the
    barycentric weights. *)
Definition rasterizePixel (ds : DrawState) (x y : Z)
    (shaderPerspective : PixelShaderPerspectiveCorrection D)
    (shaderWorldSpacePointXYZ : Double3 D) (st : FrameState) : FrameState :=
  let pixelIndex := x + (y * frameBufferWidth ds) in
  let st :=
    if enableDepthRead ds then
      mkFrameState (paletteIndexBuffer st) (depthBuffer st) (colorBuffer st)
        (g_totalDepthTests st + 1) (g_totalColorWrites st)
    else st in
  if negb (enableDepthRead ds)
     || (ndcZDepth shaderPerspective <? depthBuffer st pixelIndex)%D
  then shadePixel ds x y shaderPerspective shaderWorldSpacePointXYZ st
  else st.
End PerPixel.

Arguments Light D : clear implicits.
Arguments DrawState D : clear implicits.
Arguments FrameState D : clear implicits.

(** [ClearFrameBuffers]: palette indices 0, depths +infinity, colours 0,
    and both overdraw counters reset. *)
Definition ClearFrameBuffers : FrameState float :=
  mkFrameState (fun _ => 0) (fun _ => PrimFloat.infinity) (fun _ => 0) 0 0.

(** Modelled from the spec: [Buffer3D<bool>] (components/utilities) is not
    among the sources.  [init] allocates [width * height * depth]
    value-initialised elements, [clear] releases them. *)
Record DitherBuffer : Type := mkDitherBuffer {
  ditherPixels : Z -> bool;
  ditherWidth : Z;
  ditherHeight : Z;
  ditherDepth : Z
}.

(** Modelled from the spec: [Buffer3D::init]. *)
Definition Buffer3D_init (width height depth : Z) : DitherBuffer :=
  mkDitherBuffer (fun _ => false) width height depth.

(** Modelled from the spec: [Buffer3D::clear]. *)
Definition Buffer3D_clear : DitherBuffer := mkDitherBuffer (fun _ => false) 0 0 0.

(** [CreateDitherBuffer]: the classic mode fills one mask, the modern mode
    four, any other mode leaves the buffer empty. *)
Definition CreateDitherBuffer (width height ditheringMode : Z) : DitherBuffer :=
  if ditheringMode =? DITHERING_MODE_CLASSIC then
    (* Original game: 2x2, top left + bottom right are darkened. *)
    let ditherBuffer := Buffer3D_init width height 1 in
    let ditherPixels :=
      forRange 0 height
        (fun y ditherPixels =>
           forRange 0 width
             (fun x ditherPixels =>
                let shouldDither := Z.land (x + y) 1 =? 0 in
                let index := x + (y * width) in
                store ditherPixels index shouldDither)
             ditherPixels)
        (ditherPixels ditherBuffer) in
    mkDitherBuffer ditherPixels width height 1
  else if ditheringMode =? DITHERING_MODE_MODERN then
    (* Modern 2x2, four levels of dither depending on percent between two
       light levels. *)
    let ditherBuffer := Buffer3D_init width height DITHERING_MODE_MODERN_MASK_COUNT in
    let ditherPixels :=
      forRange 0 height
        (fun y ditherPixels =>
           forRange 0 width
             (fun x ditherPixels =>
                let shouldDither0 :=
                  (Z.land (x + y) 1 =? 0) || ((Z.rem x 2 =? 1) && (Z.rem y 2 =? 0)) in
                let shouldDither1 := Z.land (x + y) 1 =? 0 in
                let shouldDither2 := (Z.rem x 2 =? 0) && (Z.rem y 2 =? 0) in
                let shouldDither3 := false in
                let index0 := x + (y * width) in
                let index1 := x + (y * width) + (1 * width * height) in
                let index2 := x + (y * width) + (2 * width * height) in
                let index3 := x + (y * width) + (3 * width * height) in
                let ditherPixels := store ditherPixels index0 shouldDither0 in
                let ditherPixels := store ditherPixels index1 shouldDither1 in
                let ditherPixels := store ditherPixels index2 shouldDither2 in
                store ditherPixels index3 shouldDither3)
             ditherPixels)
        (ditherPixels ditherBuffer) in
    mkDitherBuffer ditherPixels width height DITHERING_MODE_MODERN_MASK_COUNT
  else Buffer3D_clear.

(** The index of pixel [(x, y)] in mask [maskIndex] of a dither buffer, as
    the modern mode of [RasterizeTriangles] computes it. *)
Definition ditherBufferIndex (frameBufferWidth frameBufferHeight maskIndex x y : Z) : Z :=
  x + (y * frameBufferWidth) + (maskIndex * frameBufferWidth * frameBufferHeight).

(** The four masks of the modern mode by the parity of the pixel
    coordinates: mask 0 covers three pixels of every 2x2 block (top left,
    bottom right, top right), mask 1 two (top left, bottom right), mask 2
    one (top left) and mask 3 none. *)
Definition modernDitherMask (maskIndex x y : Z) : bool :=
  if maskIndex =? 0 then Z.even (x + y) || (Z.odd x && Z.even y)
  else if maskIndex =? 1 then Z.even (x + y)
  else if maskIndex =? 2 then Z.even x && Z.even y
  else false.

Section Interpolation.
Context {D : Type} `{DoubleOps D}.
#[local] Open Scope double_scope.

(** Modelled from the spec: [Vector2::dot]. *)
Definition dot2 (a b : Double2 D) : D := (x2 a * x2 b) + (y2 a * y2 b).

(** The barycentric weights [u], [v], [w] of a pixel centre. *)
Record BarycentricWeights : Type := mkWeights {
  weightU : D;
  weightV : D;
  weightW : D
}.

(** The [denominator] the weights are divided by. *)
Definition barycentricDenominator (screenSpace0 screenSpace1 screenSpace2 : Double2 D) : D :=
  let screenSpace01 := sub2 screenSpace1 screenSpace0 in
  let ss0 := screenSpace01 in
  let ss1 := sub2 screenSpace2 screenSpace0 in
  let dot00 := dot2 ss0 ss0 in
  let dot01 := dot2 ss0 ss1 in
  let dot11 := dot2 ss1 ss1 in
  (dot00 * dot11) - (dot01 * dot01).

(** The weights of [pixelCenter] in the screen-space triangle. *)
Definition barycentricWeights
    (screenSpace0 screenSpace1 screenSpace2 pixelCenter : Double2 D)
    : BarycentricWeights :=
  let screenSpace01 := sub2 screenSpace1 screenSpace0 in
  let ss0 := screenSpace01 in
  let ss1 := sub2 screenSpace2 screenSpace0 in
  let ss2 := sub2 pixelCenter screenSpace0 in
  let dot00 := dot2 ss0 ss0 in
  let dot01 := dot2 ss0 ss1 in
  let dot11 := dot2 ss1 ss1 in
  let dot20 := dot2 ss2 ss0 in
  let dot21 := dot2 ss2 ss1 in
  let denominator := (dot00 * dot11) - (dot01 * dot01) in
  let v := ((dot11 * dot20) - (dot01 * dot21)) / denominator in
  let w := ((dot00 * dot21) - (dot01 * dot20)) / denominator in
  let u := (d_one - v) - w in
  mkWeights u v w.

(** [shaderPerspective.ndcZDepth]. *)
Definition interpolateNdcZDepth (ndc0 ndc1 ndc2 : Double3 D)
    (weights : BarycentricWeights) : D :=
  let u := weightU weights in
  let v := weightV weights in
  let w := weightW weights in
  ((z3 ndc0 * u) + (z3 ndc1 * v)) + (z3 ndc2 * w).

(** [shaderClipSpacePoint]: the clip-space attributes divided by [w],
    interpolated. *)
Definition shaderClipSpacePoint (clip0 clip1 clip2 : Double4 D)
    (weights : BarycentricWeights) : Double4 D :=
  let u := weightU weights in
  let v := weightV weights in
  let w := weightW weights in
  mkDouble4
    ((((x4 clip0 / w4 clip0) * u) + ((x4 clip1 / w4 clip1) * v))
     + ((x4 clip2 / w4 clip2) * w))
    ((((y4 clip0 / w4 clip0) * u) + ((y4 clip1 / w4 clip1) * v))
     + ((y4 clip2 / w4 clip2) * w))
    ((((z4 clip0 / w4 clip0) * u) + ((z4 clip1 / w4 clip1) * v))
     + ((z4 clip2 / w4 clip2) * w))
    ((((d_one / w4 clip0) * u) + ((d_one / w4 clip1) * v))
     + ((d_one / w4 clip2) * w)).

(** [shaderPerspective.texelPercent]: the perspective-correct texture
    coordinates. *)
Definition perspectiveTexelPercent (clip0 clip1 clip2 : Double4 D)
    (uv0 uv1 uv2 : Double2 D) (weights : BarycentricWeights) : Double2 D :=
  let u := weightU weights in
  let v := weightV weights in
  let w := weightW weights in
  let shaderClipSpacePoint := shaderClipSpacePoint clip0 clip1 clip2 weights in
  mkDouble2
    (((((x2 uv0 / w4 clip0) * u) + ((x2 uv1 / w4 clip1) * v))
      + ((x2 uv2 / w4 clip2) * w)) / w4 shaderClipSpacePoint)
    (((((y2 uv0 / w4 clip0) * u) + ((y2 uv1 / w4 clip1) * v))
      + ((y2 uv2 / w4 clip2) * w)) / w4 shaderClipSpacePoint).
End Interpolation.

Arguments BarycentricWeights D : clear implicits.
End swRender.

(* ------------------------------------------------------------------ *)
(** ** swRender: triangle set-up of RasterizeTriangles                 *)
(* ------------------------------------------------------------------ *)

Module RendererUtils.
Section Projection.
Context {D : Type} `{DoubleOps D}.
#[local] Open Scope double_scope.

(** Modelled from the spec: RendererUtils.h is not among the sources.
    Clip space goes to NDC by the division by [w], and NDC goes to screen
    pixels by [(ndc.xy * 0.5 + 0.5) * framebufferSize], the y axis
    possibly flipped ([flipY]). *)
Definition clipSpaceToNDC (point : Double4 D) : Double3 D :=
  mkDouble3 (x4 point / w4 point) (y4 point / w4 point) (z4 point / w4 point).

(** Modelled from the spec: [RendererUtils::ndcToScreenSpace]. *)
Definition ndcToScreenSpace (flipY : bool) (point : Double3 D)
    (frameWidth frameHeight : D) : Double2 D :=
  mkDouble2 (((x3 point * d_half) + d_half) * frameWidth)
            (if flipY then (d_half - (y3 point * d_half)) * frameHeight
             else ((y3 point * d_half) + d_half) * frameHeight).
End Projection.
End RendererUtils.

Module swRenderSetup.
Import RendererUtils.
Section FrontFacing.
Context {D : Type} `{DoubleOps D}.
#[local] Open Scope double_scope.

(** The sum of the three edge cross products that [RasterizeTriangles]
    compares with zero to discard back-facing triangles. *)
Definition screenSpaceCrossSum (flipY : bool)
    (frameBufferWidthReal frameBufferHeightReal : D)
    (clip0 clip1 clip2 : Double4 D) : D :=
  let ndc0 := clipSpaceToNDC clip0 in
  let ndc1 := clipSpaceToNDC clip1 in
  let ndc2 := clipSpaceToNDC clip2 in
  let screenSpace0 := ndcToScreenSpace flipY ndc0 frameBufferWidthReal frameBufferHeightReal in
  let screenSpace1 := ndcToScreenSpace flipY ndc1 frameBufferWidthReal frameBufferHeightReal in
  let screenSpace2 := ndcToScreenSpace flipY ndc2 frameBufferWidthReal frameBufferHeightReal in
  let screenSpace01 := sub2 screenSpace1 screenSpace0 in
  let screenSpace12 := sub2 screenSpace2 screenSpace1 in
  let screenSpace20 := sub2 screenSpace0 screenSpace2 in
  let screenSpace01Cross12 := cross2 screenSpace12 screenSpace01 in
  let screenSpace12Cross20 := cross2 screenSpace20 screenSpace12 in
  let screenSpace20Cross01 := cross2 screenSpace01 screenSpace20 in
  (screenSpace01Cross12 + screenSpace12Cross20) + screenSpace20Cross01.

Definition isFrontFacing (flipY : bool) (frameBufferWidthReal frameBufferHeightReal : D)
    (clip0 clip1 clip2 : Double4 D) : bool :=
  screenSpaceCrossSum flipY frameBufferWidthReal frameBufferHeightReal clip0 clip1 clip2
  >? d_zero.

(** The sign of a [double]: [Gt] positive, [Lt] negative, [Eq] otherwise. *)
Definition signOf (a : D) : comparison :=
  if a >? d_zero then Gt else if a <? d_zero then Lt else Eq.

Definition triangleCrossSum (flipY : bool) (frameBufferWidthReal frameBufferHeightReal : D)
    (t : swGeometry.ClipSpaceTriangle D) : D :=
  screenSpaceCrossSum flipY frameBufferWidthReal frameBufferHeightReal
    (swGeometry.tv0 t) (swGeometry.tv1 t) (swGeometry.tv2 t).
End FrontFacing.

(** The determinant of the homogeneous screen coordinates [(x, y, w)] of
    three clip-space points, and the factor that relates it to the cross
    sum in exact arithmetic. *)
Definition det3 (a b c : Double4 R) : R :=
  (x4 a * (y4 b * w4 c - y4 c * w4 b)
   - y4 a * (x4 b * w4 c - x4 c * w4 b)
   + w4 a * (x4 b * y4 c - x4 c * y4 b))%R.

Definition crossSumFactor (flipY : bool) (W H : R) : R :=
  ((if flipY then 3 / 4 else - (3 / 4)) * W * H)%R.
End swRenderSetup.

(* ------------------------------------------------------------------ *)
(** ** Resource pools                                                  *)
(* ------------------------------------------------------------------ *)

Module Pool.
Section Pool.
Context {A : Type}.

(** Modelled from the spec: the pool class (components/utilities) is not
    among the sources.  A pool is slot-allocated storage: a fixed number
    of slots, each free or holding an element, addressed by an integer
    handle.  [tryAlloc] takes a free slot, or fails, leaving the pool as
    it is, when the pool is exhausted; [free] returns the slot to the
    pool. *)
Definition t : Type := list (option A).

(** Modelled from the spec: the slot [tryAlloc] takes, the first free
    one. *)
Fixpoint firstFree (p : t) : option nat :=
  match p with
  | [] => None
  | None :: _ => Some O
  | Some _ :: rest => option_map S (firstFree rest)
  end.

(** Modelled from the spec: one slot of the pool replaced; the others
    and the number of slots stay. *)
Fixpoint setSlot (p : t) (i : nat) (v : option A) : t :=
  match p, i with
  | [], _ => []
  | _ :: rest, O => v :: rest
  | s :: rest, S i' => s :: setSlot rest i' v
  end.

(** Modelled from the spec: the pool is exhausted when no slot is
    free. *)
Definition isExhausted (p : t) : bool :=
  match firstFree p with Some _ => false | None => true end.

(** Modelled from the spec: [tryAlloc] hands out the handle of a free
    slot, now holding a default-constructed element, or fails. *)
Definition tryAlloc (fresh : A) (p : t) : option (Z * t) :=
  match firstFree p with
  | Some i => Some (Z.of_nat i, setSlot p i (Some fresh))
  | None => None
  end.

(** Modelled from the spec: the element behind a handle, if the handle
    names a slot in use. *)
Definition tryGet (p : t) (id : Z) : option A :=
  if id <? 0 then None
  else match nth_error p (Z.to_nat id) with
       | Some s => s
       | None => None
       end.

(** Modelled from the spec: writing through the reference [get(id)]
    returns. *)
Definition set (p : t) (id : Z) (v : A) : t :=
  if id <? 0 then p else setSlot p (Z.to_nat id) (Some v).

(** Modelled from the spec: [free] returns the slot to the pool. *)
Definition free (p : t) (id : Z) : t :=
  if id <? 0 then p else setSlot p (Z.to_nat id) None.

(** Modelled from the spec: the number of slots in use. *)
Definition getUsedCount (p : t) : Z :=
  Z.of_nat (List.length (filter (fun s => match s with Some _ => true | None => false end) p)).
End Pool.
Arguments t A : clear implicits.
End Pool.

(* ------------------------------------------------------------------ *)
(** ** SoftwareRenderer: resource creation and population              *)
(* ------------------------------------------------------------------ *)

Module SoftwareRenderer.
Section Resources.
Context {D : Type} `{DoubleOps D}.

(** [Buffer<T>]: [init(count)] allocates [count] value-initialised
    elements; a count that the 32-bit wrap-around has made negative gives
    no element here. *)
Record VertexBuffer : Type := mkVertexBuffer { vertices : list D }.
Record AttributeBuffer : Type := mkAttributeBuffer { attributes : list D }.
Record IndexBuffer : Type := mkIndexBuffer { indices : list Z }.

(** Modelled from the spec: the uniform buffer is declared in
    SoftwareRenderer.h, which is not among the sources.  It is a byte
    blob of [elementCount * sizeOfElement] valid bytes. *)
Record UniformBuffer : Type := mkUniformBuffer {
  uniformBytes : list Z;
  elementCount : Z;
  sizeOfElement : Z;
  alignmentOfElement : Z
}.

(** Modelled from the spec: [UniformBuffer::getValidByteCount]. *)
Definition UniformBuffer_getValidByteCount (b : UniformBuffer) : Z :=
  elementCount b * sizeOfElement b.

Record ObjectTexture : Type := mkObjectTexture {
  textureTexels : list Z;          (* Buffer<std::byte> *)
  has8Bit : bool;                  (* texels8Bit != nullptr *)
  has32Bit : bool;                 (* texels32Bit != nullptr *)
  textureWidth : Z;
  textureHeight : Z;
  textureWidthReal : D;
  textureHeightReal : D;
  texelCount : Z;
  bytesPerTexel : Z
}.

Record Light : Type := mkLight {
  lightWorldPoint : Double3 D;
  lightStartRadius : D;
  lightEndRadius : D
}.

Inductive LogLevel : Type := LogWarning | LogError.

(** A logged message: its level, its fixed text and the numbers spliced
    into it. *)
Record LogEntry : Type := mkLogEntry {
  logLevel : LogLevel;
  logText : string;
  logNumbers : list Z
}.

Record Renderer : Type := mkRenderer {
  vertexBuffers : Pool.t VertexBuffer;
  attributeBuffers : Pool.t AttributeBuffer;
  indexBuffers : Pool.t IndexBuffer;
  uniformBuffers : Pool.t UniformBuffer;
  objectTextures : Pool.t ObjectTexture;
  lights : Pool.t Light;
  debugLog : list LogEntry
}.

Definition DebugLogError (r : Renderer) (text : string) (numbers : list Z) : Renderer :=
  mkRenderer (vertexBuffers r) (attributeBuffers r) (indexBuffers r) (uniformBuffers r)
    (objectTextures r) (lights r) (debugLog r ++ [mkLogEntry LogError text numbers]).

Definition setVertexBuffers (r : Renderer) (p : Pool.t VertexBuffer) : Renderer :=
  mkRenderer p (attributeBuffers r) (indexBuffers r) (uniformBuffers r)
    (objectTextures r) (lights r) (debugLog r).
Definition setAttributeBuffers (r : Renderer) (p : Pool.t AttributeBuffer) : Renderer :=
  mkRenderer (vertexBuffers r) p (indexBuffers r) (uniformBuffers r)
    (objectTextures r) (lights r) (debugLog r).
Definition setIndexBuffers (r : Renderer) (p : Pool.t IndexBuffer) : Renderer :=
  mkRenderer (vertexBuffers r) (attributeBuffers r) p (uniformBuffers r)
    (objectTextures r) (lights r) (debugLog r).
Definition setUniformBuffers (r : Renderer) (p : Pool.t UniformBuffer) : Renderer :=
  mkRenderer (vertexBuffers r) (attributeBuffers r) (indexBuffers r) p
    (objectTextures r) (lights r) (debugLog r).
Definition setObjectTextures (r : Renderer) (p : Pool.t ObjectTexture) : Renderer :=
  mkRenderer (vertexBuffers r) (attributeBuffers r) (indexBuffers r) (uniformBuffers r)
    p (lights r) (debugLog r).
Definition setLights (r : Renderer) (p : Pool.t Light) : Renderer :=
  mkRenderer (vertexBuffers r) (attributeBuffers r) (indexBuffers r) (uniformBuffers r)
    (objectTextures r) p (debugLog r).

(** Default-constructed pool elements. *)
Definition emptyVertexBuffer : VertexBuffer := mkVertexBuffer [].
Definition emptyAttributeBuffer : AttributeBuffer := mkAttributeBuffer [].
Definition emptyIndexBuffer : IndexBuffer := mkIndexBuffer [].
Definition emptyUniformBuffer : UniformBuffer := mkUniformBuffer [] 0 0 0.
Definition emptyObjectTexture : ObjectTexture :=
  mkObjectTexture [] false false 0 0 d_zero d_zero 0 0.
Definition defaultLight : Light :=
  mkLight (mkDouble3 d_zero d_zero d_zero) d_zero d_zero.

Definition VertexBuffer_init (vertexCount componentsPerVertex : Z) : VertexBuffer :=
  let valueCount := int_mul vertexCount componentsPerVertex in
  mkVertexBuffer (repeat d_zero (Z.to_nat valueCount)).

Definition AttributeBuffer_init (vertexCount componentsPerVertex : Z) : AttributeBuffer :=
  let valueCount := int_mul vertexCount componentsPerVertex in
  mkAttributeBuffer (repeat d_zero (Z.to_nat valueCount)).

Definition IndexBuffer_init (indexCount : Z) : IndexBuffer :=
  mkIndexBuffer (repeat 0 (Z.to_nat indexCount)).

(** Modelled from the spec: [UniformBuffer::init], defined in
    SoftwareRenderer.h. *)
Definition UniformBuffer_init (elementCount sizeOfElement alignmentOfElement : Z)
    : UniformBuffer :=
  mkUniformBuffer (repeat 0 (Z.to_nat (elementCount * sizeOfElement)))
    elementCount sizeOfElement alignmentOfElement.

Definition ObjectTexture_init (width height bytesPerTexel : Z) : outcome ObjectTexture :=
  (DebugAssert (0 <? width) "width > 0" ;;;
   DebugAssert (0 <? height) "height > 0" ;;;
   DebugAssert (0 <? bytesPerTexel) "bytesPerTexel > 0" ;;;
   let texelCount := int_mul width height in
   let texels := repeat 0 (Z.to_nat (int_mul texelCount bytesPerTexel)) in
   views <-
     (if bytesPerTexel =? 1 then Done (true, false)
      else if bytesPerTexel =? 4 then Done (false, true)
      else Halted "Not implemented: bytesPerTexel") ;;
   Done (mkObjectTexture texels (fst views) (snd views) width height
           (double_of_int width) (double_of_int height) texelCount bytesPerTexel))%outcome.

(** The result of a [tryCreate...] call that returned: the boolean, the
    handle written through [outID] if any, and the renderer afterwards. *)
Record CreateResult : Type := mkCreateResult {
  returned : bool;
  outID : option Z;
  rendererAfter : Renderer
}.

Definition tryCreateVertexBuffer (r : Renderer) (vertexCount componentsPerVertex : Z)
    : outcome CreateResult :=
  (DebugAssert (0 <? vertexCount) "vertexCount > 0" ;;;
   DebugAssert (2 <=? componentsPerVertex) "componentsPerVertex >= 2" ;;;
   match Pool.tryAlloc emptyVertexBuffer (vertexBuffers r) with
   | None =>
       Done (mkCreateResult false None
               (DebugLogError r "Couldn't allocate vertex buffer ID." []))
   | Some (id, pool) =>
       let buffer := VertexBuffer_init vertexCount componentsPerVertex in
       Done (mkCreateResult true (Some id) (setVertexBuffers r (Pool.set pool id buffer)))
   end)%outcome.

Definition tryCreateAttributeBuffer (r : Renderer) (vertexCount componentsPerVertex : Z)
    : outcome CreateResult :=
  (DebugAssert (0 <? vertexCount) "vertexCount > 0" ;;;
   DebugAssert (2 <=? componentsPerVertex) "componentsPerVertex >= 2" ;;;
   match Pool.tryAlloc emptyAttributeBuffer (attributeBuffers r) with
   | None =>
       Done (mkCreateResult false None
               (DebugLogError r "Couldn't allocate attribute buffer ID." []))
   | Some (id, pool) =>
       let buffer := AttributeBuffer_init vertexCount componentsPerVertex in
       Done (mkCreateResult true (Some id) (setAttributeBuffers r (Pool.set pool id buffer)))
   end)%outcome.

Definition tryCreateIndexBuffer (r : Renderer) (indexCount : Z) : outcome CreateResult :=
  (DebugAssert (0 <? indexCount) "indexCount > 0" ;;;
   DebugAssert (indexCount mod 3 =? 0) "(indexCount % 3) == 0" ;;;
   match Pool.tryAlloc emptyIndexBuffer (indexBuffers r) with
   | None =>
       Done (mkCreateResult false None
               (DebugLogError r "Couldn't allocate index buffer ID." []))
   | Some (id, pool) =>
       let buffer := IndexBuffer_init indexCount in
       Done (mkCreateResult true (Some id) (setIndexBuffers r (Pool.set pool id buffer)))
   end)%outcome.

Definition tryCreateObjectTexture (r : Renderer) (width height bytesPerTexel : Z)
    : outcome CreateResult :=
  match Pool.tryAlloc emptyObjectTexture (objectTextures r) with
  | None =>
      Done (mkCreateResult false None
              (DebugLogError r "Couldn't allocate object texture ID." []))
  | Some (id, pool) =>
      (texture <- ObjectTexture_init width height bytesPerTexel ;;
       Done (mkCreateResult true (Some id)
               (setObjectTextures r (Pool.set pool id texture))))%outcome
  end.

Definition tryCreateUniformBuffer (r : Renderer)
    (elementCount sizeOfElement alignmentOfElement : Z) : outcome CreateResult :=
  (DebugAssert (0 <=? elementCount) "elementCount >= 0" ;;;
   DebugAssert (0 <? sizeOfElement) "sizeOfElement > 0" ;;;
   DebugAssert (0 <? alignmentOfElement) "alignmentOfElement > 0" ;;;
   match Pool.tryAlloc emptyUniformBuffer (uniformBuffers r) with
   | None =>
       Done (mkCreateResult false None
               (DebugLogError r "Couldn't allocate uniform buffer ID." []))
   | Some (id, pool) =>
       let buffer := UniformBuffer_init elementCount sizeOfElement alignmentOfElement in
       Done (mkCreateResult true (Some id) (setUniformBuffers r (Pool.set pool id buffer)))
   end)%outcome.

Definition tryCreateLight (r : Renderer) : outcome CreateResult :=
  match Pool.tryAlloc defaultLight (lights r) with
  | None =>
      Done (mkCreateResult false None
              (DebugLogError r "Couldn't allocate render light ID." []))
  | Some (id, pool) => Done (mkCreateResult true (Some id) (setLights r pool))
  end.

(** [populate...]: [None] when the handle names no allocated slot (the
    use of such a handle is undefined). *)
Definition populateVertexBuffer (r : Renderer) (id : Z) (src : list D) : option Renderer :=
  match Pool.tryGet (vertexBuffers r) id with
  | None => None
  | Some buffer =>
      let srcCount := Z.of_nat (List.length src) in
      let dstCount := Z.of_nat (List.length (vertices buffer)) in
      if negb (srcCount =? dstCount) then
        Some (DebugLogError r "Mismatched vertex buffer sizes for ID" [id; srcCount; dstCount])
      else
        (* std::copy(srcBegin, srcEnd, buffer.vertices.begin()) *)
        Some (setVertexBuffers r
                (Pool.set (vertexBuffers r) id
                   (mkVertexBuffer (std_copy src (vertices buffer)))))
  end.

Definition populateAttributeBuffer (r : Renderer) (id : Z) (src : list D) : option Renderer :=
  match Pool.tryGet (attributeBuffers r) id with
  | None => None
  | Some buffer =>
      let srcCount := Z.of_nat (List.length src) in
      let dstCount := Z.of_nat (List.length (attributes buffer)) in
      if negb (srcCount =? dstCount) then
        Some (DebugLogError r "Mismatched attribute buffer sizes for ID" [id; srcCount; dstCount])
      else
        Some (setAttributeBuffers r
                (Pool.set (attributeBuffers r) id
                   (mkAttributeBuffer (std_copy src (attributes buffer)))))
  end.

Definition populateIndexBuffer (r : Renderer) (id : Z) (src : list Z) : option Renderer :=
  match Pool.tryGet (indexBuffers r) id with
  | None => None
  | Some buffer =>
      let srcCount := Z.of_nat (List.length src) in
      let dstCount := Z.of_nat (List.length (indices buffer)) in
      if negb (srcCount =? dstCount) then
        Some (DebugLogError r "Mismatched index buffer sizes for ID" [id; srcCount; dstCount])
      else
        Some (setIndexBuffers r
                (Pool.set (indexBuffers r) id
                   (mkIndexBuffer (std_copy src (indices buffer)))))
  end.

Definition populateUniformBuffer (r : Renderer) (id : Z) (data : list Z) : option Renderer :=
  match Pool.tryGet (uniformBuffers r) id with
  | None => None
  | Some buffer =>
      let srcCount := Z.of_nat (List.length data) in
      let dstCount := UniformBuffer_getValidByteCount buffer in
      if negb (srcCount =? dstCount) then
        Some (DebugLogError r "Mismatched uniform buffer sizes for ID" [id; srcCount; dstCount])
      else
        Some (setUniformBuffers r
                (Pool.set (uniformBuffers r) id
                   (mkUniformBuffer (std_copy data (uniformBytes buffer))
                      (elementCount buffer) (sizeOfElement buffer)
                      (alignmentOfElement buffer))))
  end.

(** [freeLight]: the slot goes back to its pool. *)
Definition freeLight (r : Renderer) (id : Z) : Renderer :=
  setLights r (Pool.free (lights r) id).

(** [lockObjectTexture]: the texels and the bytes per texel of the
    texture; [None] when the handle names no allocated slot. *)
Definition lockObjectTexture (r : Renderer) (id : Z) : option (list Z * Z) :=
  match Pool.tryGet (objectTextures r) id with
  | None => None
  | Some texture => Some (textureTexels texture, bytesPerTexel texture)
  end.

(** [tryGetObjectTextureDims]: [Int2(texture.width, texture.height)];
    [None] when the handle names no allocated slot. *)
Definition tryGetObjectTextureDims (r : Renderer) (id : Z) : option (Z * Z) :=
  match Pool.tryGet (objectTextures r) id with
  | None => None
  | Some texture => Some (textureWidth texture, textureHeight texture)
  end.

(** [populateUniformAtIndex]: one element of a uniform buffer is
    overwritten.  The element size, a [size_t], is compared and multiplied
    as the [int] that [static_cast<int>] makes of it.  [None] when the
    handle names no allocated slot, or when the element lies outside the
    buffer (the copy would then write past it, which is undefined). *)
Definition populateUniformAtIndex (r : Renderer) (id uniformIndex : Z)
    (uniformData : list Z) : option Renderer :=
  match Pool.tryGet (uniformBuffers r) id with
  | None => None
  | Some buffer =>
      let srcByteCount := Z.of_nat (List.length uniformData) in
      let dstByteCount := int_wrap (sizeOfElement buffer) in
      if negb (srcByteCount =? dstByteCount) then
        Some (DebugLogError r "Mismatched uniform size for uniform buffer ID"
                [id; uniformIndex; srcByteCount; dstByteCount])
      else
        let dstBegin := int_mul dstByteCount uniformIndex in
        if (0 <=? dstBegin)
           && (dstBegin + srcByteCount <=? Z.of_nat (List.length (uniformBytes buffer)))
        then
          Some (setUniformBuffers r
                  (Pool.set (uniformBuffers r) id
                     (mkUniformBuffer
                        (std_copy_at uniformData (Z.to_nat dstBegin) (uniformBytes buffer))
                        (elementCount buffer) (sizeOfElement buffer)
                        (alignmentOfElement buffer))))
        else None
  end.

(** [setLightPosition] and [setLightRadius]: [None] when the handle names
    no allocated slot. *)
Definition setLightPosition (r : Renderer) (id : Z) (worldPoint : Double3 D)
    : option Renderer :=
  match Pool.tryGet (lights r) id with
  | None => None
  | Some light =>
      Some (setLights r
              (Pool.set (lights r) id
                 (mkLight worldPoint (lightStartRadius light) (lightEndRadius light))))
  end.

Definition setLightRadius (r : Renderer) (id : Z) (startRadius endRadius : D)
    : outcome (option Renderer) :=
  (DebugAssert (startRadius >=? d_zero)%D "startRadius >= 0.0" ;;;
   DebugAssert (endRadius >=? startRadius)%D "endRadius >= startRadius" ;;;
   Done match Pool.tryGet (lights r) id with
        | None => None
        | Some light =>
            Some (setLights r
                    (Pool.set (lights r) id
                       (mkLight (lightWorldPoint light) startRadius endRadius)))
        end)%outcome.

(** A handle that was free in [pool] and holds [element] in [pool'], all
    other handles being as before. *)
Definition allocatedFresh {A : Type} (pool pool' : Pool.t A) (id : Z) (element : A) : Prop :=
  Pool.tryGet pool id = None
  /\ Pool.tryGet pool' id = Some element
  /\ forall other, other <> id -> Pool.tryGet pool' other = Pool.tryGet pool other.

(** Every light of the renderer has radii with [0 <= start <= end]. *)
Definition lightRadiiOrdered (r : Renderer) : Prop :=
  forall id light,
    Pool.tryGet (lights r) id = Some light ->
    (lightStartRadius light >=? d_zero)%D = true
    /\ (lightEndRadius light >=? lightStartRadius light)%D = true.

(** The pools of two renderers hold the same slots. *)
Definition samePools (r r' : Renderer) : Prop :=
  vertexBuffers r' = vertexBuffers r
  /\ attributeBuffers r' = attributeBuffers r
  /\ indexBuffers r' = indexBuffers r
  /\ uniformBuffers r' = uniformBuffers r
  /\ objectTextures r' = objectTextures r
  /\ lights r' = lights r.

(** A refused call: nothing changes in any pool, and one error is added to
    the log. *)
Definition refusedWithError (r r' : Renderer) : Prop :=
  samePools r r'
  /\ exists text numbers,
       debugLog r' = debugLog r ++ [mkLogEntry LogError text numbers].

(** What a [tryCreate...] call that returned [res] owes the caller: [false]
    exactly when the pool it allocates from was exhausted; on [false] no
    handle, no change to any pool and one error logged; on [true] a handle
    and nothing logged. *)
Definition reportsExhaustion {A : Type} (r : Renderer) (pool : Pool.t A)
    (res : CreateResult) : Prop :=
  (returned res = false <-> Pool.isExhausted pool = true)
  /\ (returned res = false ->
      outID res = None /\ refusedWithError r (rendererAfter res))
  /\ (returned res = true ->
      (exists id, outID res = Some id) /\ debugLog (rendererAfter res) = debugLog r).

(** An accepted [populate...] call: the slot [id] of the pool now holds
    [element], every other slot of the pool is as before, and nothing is
    logged. *)
Definition slotReplaced {A : Type} (pool pool' : Pool.t A) (id : Z) (element : A)
    (r r' : Renderer) : Prop :=
  Pool.tryGet pool' id = Some element
  /\ (forall other, other <> id -> Pool.tryGet pool' other = Pool.tryGet pool other)
  /\ debugLog r' = debugLog r.
End Resources.

Arguments Renderer D : clear implicits.
Arguments CreateResult D : clear implicits.
Arguments VertexBuffer D : clear implicits.
Arguments AttributeBuffer D : clear implicits.
Arguments ObjectTexture D : clear implicits.
Arguments Light D : clear implicits.
End SoftwareRenderer.

(* ================================================================== *)
(** * Example inputs                                                   *)
(* ================================================================== *)

Module Examples.
Import swGeometry swShader swRender.

Definition vec4 (x y z w : float) : Double4 float := mkDouble4 x y z w.
Definition vec3 (x y z : float) : Double3 float := mkDouble3 x y z.
Definition vec2 (x y : float) : Double2 float := mkDouble2 x y.

Definition triangle (v0 v1 v2 : Double4 float) : ClipSpaceTriangle float :=
  mkTriangle v0 v1 v2 (vec2 0 0) (vec2 1 0) (vec2 0 1).

(** What the zero-initialised global arrays hold at start-up. *)
Definition zeroTriangle : ClipSpaceTriangle float :=
  mkTriangle (vec4 0 0 0 0) (vec4 0 0 0 0) (vec4 0 0 0 0) (vec2 0 0) (vec2 0 0) (vec2 0 0).
Definition zeroScratch : Z -> ClipSpaceTriangle float := fun _ => zeroTriangle.

(** A small triangle in the middle of the view volume. *)
Definition visibleTriangle : ClipSpaceTriangle float :=
  triangle (vec4 0 0 0 1) (vec4 0.5 0 0 1) (vec4 0 0.5 0 1).

(** A triangle to the left of the view volume ([x < -w] at each vertex). *)
Definition leftOfFrustumTriangle : ClipSpaceTriangle float :=
  triangle (vec4 (-2) 0 0 1) (vec4 (-3) 0 0 1) (vec4 (-2) 0.5 0 1).

(** The world-space triangle (-3,-4,-2), (0,-2,-3), (1,2,0) seen through a
    perspective projection with a 90 degree field of view, near plane 1 and
    far plane 3 ([clip = (x, y, -2z - 3, -z)]): it straddles all six
    planes. *)
Definition straddlingTriangle : ClipSpaceTriangle float :=
  triangle (vec4 (-3) (-4) 1 2) (vec4 0 (-2) 3 3) (vec4 1 2 (-3) 0).

(** A triangle just beyond the far plane: [z] exceeds [w] by one unit in
    the last place at each vertex ([z = 1 + 2^-52] for [w = 1],
    [z = 3 + 2^-51] for [w = 3]).  Its second vertex is also left of the
    left plane. *)
Definition beyondFarPlaneTriangle : ClipSpaceTriangle float :=
  triangle (vec4 0 0 0x1.0000000000001p+0 1)
           (vec4 (-4) 0 0x1.8000000000001p+1 3)
           (vec4 0 1 0x1.0000000000001p+0 1).

(** A triangle with two vertices in front of the camera and the third
    behind it ([w = -1]); the third vertex is outside the left plane. *)
Definition behindCameraTriangle : ClipSpaceTriangle float :=
  triangle (vec4 0 (-2) 0 4) (vec4 2 0 0 2) (vec4 (-3) 2 0 (-1)).

(** A sliver in front of the camera ([w] is 1.5, 3 and 1): after the
    division by [w] its third vertex is 2^-30 away from the edge between
    the first two.  The second vertex is above the top plane ([y > w]), the
    other two are inside it. *)
Definition sliverTriangle : ClipSpaceTriangle float :=
  triangle (vec4 (-3) 1.125 0 1.5) (vec4 (-3.75) 5.25 0 3)
           (vec4 (-1.8125) 0x1.fffffff8p-1 0 1).

(** A triangle in front of the camera whose first vertex lies exactly on
    the right plane ([x = w]); the other two vertices are to the right of
    it. *)
Definition onPlaneTriangle : ClipSpaceTriangle float :=
  triangle (vec4 1 0 0 1) (vec4 2 0 0 1) (vec4 2 1 0 1).

(** A triangle over the reals, in front of the camera and inside the left
    plane. *)
Definition exactTriangle : ClipSpaceTriangle R :=
  mkTriangle (mkDouble4 0 0 0 1)%R (mkDouble4 1 0 0 1)%R (mkDouble4 0 1 0 1)%R
    (mkDouble2 0 0)%R (mkDouble2 1 0)%R (mkDouble2 0 1)%R.

(** A triangle over the reals whose second vertex is to the right of the
    right plane ([x > w]); the other two vertices are inside all six
    planes. *)
Definition exactStraddlingTriangle : ClipSpaceTriangle R :=
  mkTriangle (mkDouble4 0 0 0 1)%R (mkDouble4 2 0 0 1)%R (mkDouble4 0 1 0 1)%R
    (mkDouble2 0 0)%R (mkDouble2 1 0)%R (mkDouble2 0 1)%R.

(** Palette indices of ArenaRenderUtils as the shaders of the examples
    receive them; only the transparent index matters to the examples. *)
Definition transparentIndex : Z := 0.

Definition exampleShadePixel :
    DrawState float -> Z -> Z -> PixelShaderPerspectiveCorrection float ->
    Double3 float -> FrameState float -> FrameState float :=
  shadePixel transparentIndex 1 14 15 158 159 30 (fun _ => false).

Definition exampleRasterizePixel :
    DrawState float -> Z -> Z -> PixelShaderPerspectiveCorrection float ->
    Double3 float -> FrameState float -> FrameState float :=
  rasterizePixel transparentIndex 1 14 15 158 159 30 (fun _ => false).

(** A 1x1 texture whose only texel is transparent. *)
Definition transparentTexture : PixelShaderTexture float :=
  PixelShaderTexture_init (fun _ => transparentIndex) 1 1 Default.

(** A palette of opaque colours ([0xFF000000 + index]) and a light table of
    13 rows of 256 texels that maps every texel to itself. *)
Definition opaquePalette : Z -> Z := fun index => 4278190080 + index.
Definition plainLightTable : Z -> Z := fun index => index mod 256.

(** A draw call on a 1x1 frame buffer with the [AlphaTested] shader and
    per-mesh lighting. *)
Definition alphaTestedDraw : DrawState float := {|
  frameBufferWidth := 1;
  frameBufferHeight := 1;
  lightingType := PerMesh;
  meshLightPercent := 1%float;
  ambientPercent := 0%float;
  lights := [];
  pixelShaderType := AlphaTested;
  pixelShaderParam0 := 0%float;
  enableDepthRead := true;
  drawEnableDepthWrite := true;
  shaderTexture0 := transparentTexture;
  shaderTexture1 := transparentTexture;
  paletteTexels32Bit := opaquePalette;
  paletteTexelCount := 256;
  lightTableTexels8Bit := plainLightTable;
  lightTableWidth := 256;
  lightTableHeight := 13;
  ditheringMode := DITHERING_MODE_NONE;
  ditherBufferPtr := fun _ => false;
  drawHorizonScreenSpacePoint := vec2 0 0;
  drawFallbackSkyColor := 0
|}.

Definition centrePerspective : PixelShaderPerspectiveCorrection float :=
  mkPerspective 0.5%float (vec2 0.5 0.5).

(** A 2x2 texture holding the texels 5, 6, 7 and 8, and a draw call like
    [alphaTestedDraw] that shades it with the [Opaque] shader. *)
Definition checkerTexture : PixelShaderTexture float :=
  PixelShaderTexture_init (fun index => 5 + index) 2 2 Default.

Definition opaqueDraw : DrawState float := {|
  frameBufferWidth := 1;
  frameBufferHeight := 1;
  lightingType := PerMesh;
  meshLightPercent := 1%float;
  ambientPercent := 0%float;
  lights := [];
  pixelShaderType := Opaque;
  pixelShaderParam0 := 0%float;
  enableDepthRead := true;
  drawEnableDepthWrite := true;
  shaderTexture0 := checkerTexture;
  shaderTexture1 := checkerTexture;
  paletteTexels32Bit := opaquePalette;
  paletteTexelCount := 256;
  lightTableTexels8Bit := plainLightTable;
  lightTableWidth := 256;
  lightTableHeight := 13;
  ditheringMode := DITHERING_MODE_NONE;
  ditherBufferPtr := fun _ => false;
  drawHorizonScreenSpacePoint := vec2 0 0;
  drawFallbackSkyColor := 0
|}.

(** [opaqueDraw] with a light table of 2 rows of 4 texels, narrower than
    the texels 5 to 8 of the texture.  Outside its 8 entries the array
    holds 99. *)
Definition narrowLightTable : Z -> Z := fun index => if index <? 8 then 0 else 99.

Definition narrowTableDraw : DrawState float := {|
  frameBufferWidth := 1;
  frameBufferHeight := 1;
  lightingType := PerMesh;
  meshLightPercent := 1%float;
  ambientPercent := 0%float;
  lights := [];
  pixelShaderType := Opaque;
  pixelShaderParam0 := 0%float;
  enableDepthRead := true;
  drawEnableDepthWrite := true;
  shaderTexture0 := checkerTexture;
  shaderTexture1 := checkerTexture;
  paletteTexels32Bit := opaquePalette;
  paletteTexelCount := 256;
  lightTableTexels8Bit := narrowLightTable;
  lightTableWidth := 4;
  lightTableHeight := 2;
  ditheringMode := DITHERING_MODE_NONE;
  ditherBufferPtr := fun _ => false;
  drawHorizonScreenSpacePoint := vec2 0 0;
  drawFallbackSkyColor := 0
|}.

(** [opaqueDraw] on a 4x4 frame buffer with depth reads and depth writes
    switched off, as for an overlay. *)
Definition overlayDraw : DrawState float := {|
  frameBufferWidth := 4;
  frameBufferHeight := 4;
  lightingType := PerMesh;
  meshLightPercent := 1%float;
  ambientPercent := 0%float;
  lights := [];
  pixelShaderType := Opaque;
  pixelShaderParam0 := 0%float;
  enableDepthRead := false;
  drawEnableDepthWrite := false;
  shaderTexture0 := checkerTexture;
  shaderTexture1 := checkerTexture;
  paletteTexels32Bit := opaquePalette;
  paletteTexelCount := 256;
  lightTableTexels8Bit := plainLightTable;
  lightTableWidth := 256;
  lightTableHeight := 13;
  ditheringMode := DITHERING_MODE_NONE;
  ditherBufferPtr := fun _ => false;
  drawHorizonScreenSpacePoint := vec2 0 0;
  drawFallbackSkyColor := 0
|}.

(** Lights at the origin. *)
Definition light_2_6 : Light float := mkLight (vec3 0 0 0) 2%float 6%float.
Definition light_2_2 : Light float := mkLight (vec3 0 0 0) 2%float 2%float.

(** A per-pixel lit draw call with classic dithering on a 4x4 frame
    buffer. *)
Definition ditheredDraw : DrawState float := {|
  frameBufferWidth := 4;
  frameBufferHeight := 4;
  lightingType := PerPixel;
  meshLightPercent := 0%float;
  ambientPercent := 0.25%float;
  lights := [light_2_6];
  pixelShaderType := Opaque;
  pixelShaderParam0 := 0%float;
  enableDepthRead := true;
  drawEnableDepthWrite := true;
  shaderTexture0 := transparentTexture;
  shaderTexture1 := transparentTexture;
  paletteTexels32Bit := opaquePalette;
  paletteTexelCount := 256;
  lightTableTexels8Bit := plainLightTable;
  lightTableWidth := 256;
  lightTableHeight := 13;
  ditheringMode := DITHERING_MODE_CLASSIC;
  ditherBufferPtr := fun index => Z.even index;
  drawHorizonScreenSpacePoint := vec2 0 0;
  drawFallbackSkyColor := 0
|}.

Import SoftwareRenderer.

(** A renderer whose pools have two slots each, all free, and one whose
    pools are full. *)
Definition freshRenderer : Renderer float :=
  mkRenderer [None; None] [None; None] [None; None] [None; None] [None; None]
    [None; None] [].

Definition fullRenderer : Renderer float :=
  mkRenderer [Some emptyVertexBuffer] [Some emptyAttributeBuffer] [Some emptyIndexBuffer]
    [Some emptyUniformBuffer] [Some emptyObjectTexture] [Some defaultLight] [].

(** A renderer holding one vertex buffer of three values at handle 0. *)
Definition populatedRenderer : Renderer float :=
  mkRenderer [Some (mkVertexBuffer [1; 2; 3]%float); None] [None] [None] [None] [None]
    [None] [].

(** A renderer holding one uniform buffer of three elements of two bytes
    each at handle 0, and one whose only light has the radii 2 and 6. *)
Definition uniformRenderer : Renderer float :=
  mkRenderer [None] [None] [None] [Some (mkUniformBuffer [0; 0; 0; 0; 0; 0] 3 2 1); None]
    [None] [None] [].

(** A renderer whose uniform buffer of two elements records the element
    size 2^32 + 2, which [static_cast<int>] turns into 2. *)
Definition wideElementRenderer : Renderer float :=
  mkRenderer [None] [None] [None] [Some (mkUniformBuffer [0; 0; 0; 0] 2 4294967298 1); None]
    [None] [None] [].

Definition litRenderer : Renderer float :=
  mkRenderer [None] [None] [None] [None] [None]
    [Some (mkLight (vec3 0 0 0) 2%float 6%float); None] [].
End Examples.

(* ================================================================== *)
(** * Properties                                                       *)
(* ================================================================== *)

(* ------------------------------------------------------------------ *)
(** ** Clipping: single plane                                          *)
(* ------------------------------------------------------------------ *)

Section ClippingFacts.
Import swGeometry.
Context {D : Type} {ops : DoubleOps D}.

Lemma store_same {A : Type} (a : Z -> A) (i : Z) (v : A) : store a i v i = v.
Proof. unfold store. now rewrite Z.eqb_refl. Qed.

Lemma store_other {A : Type} (a : Z -> A) (i j : Z) (v : A) :
  j <> i -> store a i v j = a j.
Proof. intros Hne. unfold store. destruct (Z.eqb_spec j i); congruence. Qed.

Lemma isVertexInside_diff (p : Z) (v : Double4 D) :
  isVertexInside p v = true ->
  exists diff, planeDiff p v = Some diff /\ planeInside p diff = true.
Proof.
  unfold isVertexInside. destruct (planeDiff p v) as [diff|]; [|discriminate].
  intros Hin. now exists diff.
Qed.

Lemma isVertexOutside_diff (p : Z) (v : Double4 D) :
  isVertexOutside p v = true ->
  exists diff, planeDiff p v = Some diff /\ planeInside p diff = false.
Proof.
  unfold isVertexOutside. destruct (planeDiff p v) as [diff|]; [|discriminate].
  intros Hout. exists diff. split; [reflexivity|].
  now apply negb_true_iff.
Qed.

Lemma planeDiff_index (p : Z) (v : Double4 D) (d : D) :
  planeDiff p v = Some d ->
  p = 0 \/ p = 1 \/ p = 2 \/ p = 3 \/ p = 4 \/ p = 5.
Proof.
  destruct p as [|[[p|p|]|[p|p|]|]|p]; try destruct p; cbn; intros;
    try discriminate; auto 10.
Qed.

(** A triangle inside a plane comes back from [ProcessClipSpaceTriangle]
    as it went in. *)
Lemma clip_inside_plane (p : Z) (t : ClipSpaceTriangle D) :
  isTriangleInside p t = true -> clipTriangleAgainstPlane t p = [t].
Proof.
  unfold isTriangleInside. intros Hin.
  apply andb_true_iff in Hin as [Hin H2]. apply andb_true_iff in Hin as [H0 H1].
  apply isVertexInside_diff in H0 as (d0 & E0 & I0).
  apply isVertexInside_diff in H1 as (d1 & E1 & I1).
  apply isVertexInside_diff in H2 as (d2 & E2 & I2).
  unfold clipTriangleAgainstPlane, ProcessClipSpaceTriangle.
  rewrite E0, E1, E2. cbv zeta. rewrite I0, I1, I2.
  now destruct t.
Qed.

(** A triangle outside a plane yields no triangle. *)
Lemma clip_outside_plane (p : Z) (t : ClipSpaceTriangle D) :
  isTriangleOutside p t = true -> clipTriangleAgainstPlane t p = [].
Proof.
  unfold isTriangleOutside. intros Hout.
  apply andb_true_iff in Hout as [Hout H2]. apply andb_true_iff in Hout as [H0 H1].
  apply isVertexOutside_diff in H0 as (d0 & E0 & I0).
  apply isVertexOutside_diff in H1 as (d1 & E1 & I1).
  apply isVertexOutside_diff in H2 as (d2 & E2 & I2).
  unfold clipTriangleAgainstPlane, ProcessClipSpaceTriangle.
  rewrite E0, E1, E2. cbv zeta. now rewrite I0, I1, I2.
Qed.

(** [ProcessClipSpaceTriangle] never yields more than
    [MAX_TRIANGLE_CLIP_RESULTS] triangles. *)
Lemma clip_result_count (p : Z) (t : ClipSpaceTriangle D) :
  (List.length (clipTriangleAgainstPlane t p) <= 2)%nat.
Proof.
  unfold clipTriangleAgainstPlane, ProcessClipSpaceTriangle.
  destruct (planeDiff p (tv0 t)), (planeDiff p (tv1 t)), (planeDiff p (tv2 t));
    cbv zeta; repeat match goal with |- context [if ?b then _ else _] => destruct b end;
    simpl; lia.
Qed.

(** One plane with one pending triangle that lies inside it: the triangle
    is copied to the end of the list and the front index moves past the
    original. *)
Lemma clipAgainstPlane_inside (p n s : Z) (a : Z -> ClipSpaceTriangle D)
      (t : ClipSpaceTriangle D) :
  0 <= n -> s = n + 1 -> s < MAX_CLIPPED_TRIANGLE_TRIANGLES ->
  a n = t -> isTriangleInside p t = true ->
  clipAgainstPlane p (mkClipList a s n)
  = Done (mkClipList (store a s t) (s + 1) s).
Proof.
  intros Hn -> Hcap Ha Hin. unfold MAX_CLIPPED_TRIANGLE_TRIANGLES in Hcap.
  unfold clipAgainstPlane. cbn [clipListSize clipListFrontIndex].
  replace (Z.to_nat (n + 1 - n)) with 1%nat by lia. cbn [clipTriangles].
  unfold clipFrontTriangle. cbn [clipListSize clipListFrontIndex g_clipSpaceTriangles].
  unfold DebugAssert, MAX_CLIPPED_TRIANGLE_TRIANGLES.
  replace (n <? 64) with true by (symmetry; apply Z.ltb_lt; lia).
  cbn [bind]. rewrite Ha.
  fold (clipTriangleAgainstPlane t p). rewrite (clip_inside_plane p t Hin).
  cbn [copyClipResults List.length]. unfold DebugAssert, MAX_CLIPPED_TRIANGLE_TRIANGLES.
  replace (n + 1 + 0 <? 64) with true by (symmetry; apply Z.ltb_lt; lia).
  cbn [bind].
  replace (n + 1 + 0) with (n + 1) by lia.
  replace (n + 1 + Z.of_nat 1) with (n + 1 + 1) by lia.
  reflexivity.
Qed.

Lemma isTriangleInsideAllPlanes_plane (t : ClipSpaceTriangle D) (p : Z) :
  isTriangleInsideAllPlanes t = true -> In p clipPlaneIndices ->
  isTriangleInside p t = true.
Proof.
  unfold isTriangleInsideAllPlanes. rewrite forallb_forall. auto.
Qed.

(** C3.  A clip-space triangle whose three vertices are inside all six
    frustum planes leaves the clipping pass as exactly one triangle, with
    the clip-space vertices and texture coordinates of the input. *)
Theorem clip_fully_inside_triangle_is_kept
    (scratch : Z -> ClipSpaceTriangle D) (t : ClipSpaceTriangle D) :
  isTriangleInsideAllPlanes t = true ->
  clippedTriangles scratch t = Done [t].
Proof.
  intros Hall.
  assert (Hp : forall p, In p clipPlaneIndices -> isTriangleInside p t = true)
    by (intros p; now apply isTriangleInsideAllPlanes_plane).
  unfold clippedTriangles, clipShadedTriangle, clipPlaneIndices.
  cbn [clipAgainstPlanes].
  do 6 (erewrite clipAgainstPlane_inside;
        [ cbn [bind Z.add Pos.add Pos.succ]
        | lia | reflexivity | unfold MAX_CLIPPED_TRIANGLE_TRIANGLES; lia
        | apply store_same | apply Hp; simpl; tauto ]).
  reflexivity.
Qed.

(** *** The work list of the clipping loop *)

Lemma copyClipResults_done (a : Z -> ClipSpaceTriangle D) (s i : Z)
    (results : list (ClipSpaceTriangle D)) :
  s + i + Z.of_nat (List.length results) <= MAX_CLIPPED_TRIANGLE_TRIANGLES ->
  exists a', copyClipResults a s i results = Done a'
             /\ (forall j, j < s + i -> a' j = a j)
             /\ (forall j, s + i <= j < s + i + Z.of_nat (List.length results) ->
                 In (a' j) results).
Proof.
  revert a i. induction results as [|r rest IH]; intros a i Hcap.
  - exists a. cbn. repeat split; intros; lia.
  - cbn [copyClipResults]. cbn [List.length] in Hcap.
    unfold DebugAssert.
    replace (s + i <? MAX_CLIPPED_TRIANGLE_TRIANGLES) with true
      by (symmetry; apply Z.ltb_lt; lia).
    cbn [bind].
    destruct (IH (store a (s + i) r) (i + 1)) as (a' & Hrun & Hold & Hnew); [lia|].
    exists a'. split; [exact Hrun|]. split.
    + intros j Hj. rewrite Hold by lia. apply store_other. lia.
    + intros j Hj. cbn [List.length] in Hj.
      destruct (Z.eq_dec j (s + i)) as [->|Hne].
      * left. rewrite Hold by lia. now rewrite store_same.
      * right. apply Hnew. lia.
Qed.

Lemma clipFrontTriangle_preserves (P : ClipSpaceTriangle D -> Prop) (q : Z) (l : ClipList D) :
  0 <= clipListFrontIndex l < clipListSize l ->
  clipListSize l + 2 <= MAX_CLIPPED_TRIANGLE_TRIANGLES ->
  (forall t, P t -> forall out, In out (clipTriangleAgainstPlane t q) -> P out) ->
  pendingAll P l ->
  exists l', clipFrontTriangle q l = Done l'
             /\ clipListFrontIndex l' = clipListFrontIndex l + 1
             /\ clipListSize l <= clipListSize l' <= clipListSize l + 2
             /\ pendingAll P l'.
Proof.
  intros Hfront Hcap Hpres Hpending.
  unfold clipFrontTriangle, DebugAssert.
  replace (clipListFrontIndex l <? MAX_CLIPPED_TRIANGLE_TRIANGLES) with true
    by (symmetry; apply Z.ltb_lt; lia).
  cbn [bind].
  set (current := g_clipSpaceTriangles l (clipListFrontIndex l)).
  fold (clipTriangleAgainstPlane current q).
  pose proof (clip_result_count q current) as Hcount.
  destruct (copyClipResults_done (g_clipSpaceTriangles l) (clipListSize l) 0
              (clipTriangleAgainstPlane current q)) as (a' & Hrun & Hold & Hnew); [lia|].
  rewrite Hrun. cbn [bind]. eexists. split; [reflexivity|].
  cbn [clipListFrontIndex clipListSize g_clipSpaceTriangles].
  split; [reflexivity|]. split; [lia|].
  intros i Hi. cbn [clipListFrontIndex clipListSize g_clipSpaceTriangles] in Hi |- *.
  destruct (Z.lt_ge_cases i (clipListSize l)) as [Hlt|Hge].
  - rewrite Hold by lia. apply Hpending. lia.
  - apply (Hpres current).
    + apply Hpending. lia.
    + apply Hnew. lia.
Qed.

Lemma clipTriangles_preserves (P : ClipSpaceTriangle D -> Prop) (q : Z) (n : nat)
    (l : ClipList D) :
  0 <= clipListFrontIndex l ->
  clipListFrontIndex l + Z.of_nat n <= clipListSize l ->
  clipListSize l + 2 * Z.of_nat n <= MAX_CLIPPED_TRIANGLE_TRIANGLES ->
  (forall t, P t -> forall out, In out (clipTriangleAgainstPlane t q) -> P out) ->
  pendingAll P l ->
  exists l', clipTriangles q n l = Done l'
             /\ clipListFrontIndex l' = clipListFrontIndex l + Z.of_nat n
             /\ clipListSize l <= clipListSize l' <= clipListSize l + 2 * Z.of_nat n
             /\ pendingAll P l'.
Proof.
  revert l. induction n as [|n IH]; intros l Hfront Hn Hcap Hpres Hpending.
  - exists l. cbn. repeat split; try lia. assumption.
  - cbn [clipTriangles].
    destruct (clipFrontTriangle_preserves P q l) as (l1 & Hrun1 & Hf1 & Hs1 & Hp1);
      try assumption; try lia.
    rewrite Hrun1. cbn [bind].
    destruct (IH l1) as (l' & Hrun & Hf & Hs & Hp); try assumption; try lia.
    exists l'. split; [exact Hrun|]. repeat split; try lia. assumption.
Qed.

Lemma clipAgainstPlane_preserves (P : ClipSpaceTriangle D -> Prop) (q : Z) (l : ClipList D) :
  0 <= clipListFrontIndex l <= clipListSize l ->
  clipListSize l + 2 * (clipListSize l - clipListFrontIndex l)
  <= MAX_CLIPPED_TRIANGLE_TRIANGLES ->
  (forall t, P t -> forall out, In out (clipTriangleAgainstPlane t q) -> P out) ->
  pendingAll P l ->
  exists l', clipAgainstPlane q l = Done l'
             /\ clipListFrontIndex l' = clipListSize l
             /\ clipListSize l <= clipListSize l'
                <= clipListSize l + 2 * (clipListSize l - clipListFrontIndex l)
             /\ pendingAll P l'.
Proof.
  intros Hfront Hcap Hpres Hpending. unfold clipAgainstPlane.
  destruct (clipTriangles_preserves P q
              (Z.to_nat (clipListSize l - clipListFrontIndex l)) l)
    as (l' & Hrun & Hf & Hs & Hp); try assumption; try lia.
  exists l'. split; [exact Hrun|]. repeat split; try lia. assumption.
Qed.

(** A plane that every pending triangle is outside of empties the list. *)
Lemma clipTriangles_outside (p : Z) (n : nat) (l : ClipList D) :
  0 <= clipListFrontIndex l ->
  clipListFrontIndex l + Z.of_nat n <= clipListSize l ->
  clipListSize l <= MAX_CLIPPED_TRIANGLE_TRIANGLES ->
  pendingAll (fun t => isTriangleOutside p t = true) l ->
  clipTriangles p n l
  = Done (mkClipList (g_clipSpaceTriangles l) (clipListSize l)
            (clipListFrontIndex l + Z.of_nat n)).
Proof.
  revert l. induction n as [|n IH]; intros l Hfront Hn Hcap Hpending.
  - cbn. destruct l. cbn. now rewrite Z.add_0_r.
  - cbn [clipTriangles]. unfold clipFrontTriangle, DebugAssert.
    replace (clipListFrontIndex l <? MAX_CLIPPED_TRIANGLE_TRIANGLES) with true
      by (symmetry; apply Z.ltb_lt; lia).
    cbn [bind].
    fold (clipTriangleAgainstPlane (g_clipSpaceTriangles l (clipListFrontIndex l)) p).
    rewrite clip_outside_plane by (apply Hpending; lia).
    cbn [copyClipResults bind List.length].
    rewrite IH; cbn [clipListFrontIndex clipListSize g_clipSpaceTriangles]; try lia.
    + f_equal. f_equal; lia.
    + intros i Hi. cbn [clipListFrontIndex clipListSize g_clipSpaceTriangles] in Hi |- *.
      apply Hpending. lia.
Qed.

Lemma clipAgainstPlane_outside (p : Z) (l : ClipList D) :
  0 <= clipListFrontIndex l <= clipListSize l ->
  clipListSize l <= MAX_CLIPPED_TRIANGLE_TRIANGLES ->
  pendingAll (fun t => isTriangleOutside p t = true) l ->
  clipAgainstPlane p l
  = Done (mkClipList (g_clipSpaceTriangles l) (clipListSize l) (clipListSize l)).
Proof.
  intros Hfront Hcap Hpending. unfold clipAgainstPlane.
  rewrite clipTriangles_outside; try assumption; try lia.
  f_equal. f_equal. lia.
Qed.

Lemma clipAgainstPlane_idle (q : Z) (a : Z -> ClipSpaceTriangle D) (s : Z) :
  clipAgainstPlane q (mkClipList a s s) = Done (mkClipList a s s).
Proof.
  unfold clipAgainstPlane. cbn [clipListFrontIndex clipListSize].
  now rewrite Z.sub_diag.
Qed.

(** A triangle outside plane [p] and inside the planes before it: the
    earlier planes pass it on unchanged, plane [p] drops it, and the later
    planes find nothing to clip. *)
Lemma clip_outside_after_inside (scratch : Z -> ClipSpaceTriangle D)
    (t : ClipSpaceTriangle D) (p : Z) :
  isTriangleOutside p t = true ->
  (forall q, In q clipPlaneIndices -> q < p -> isTriangleInside q t = true) ->
  clippedTriangles scratch t = Done [].
Proof.
  intros Hout Hin.
  assert (Hindex : p = 0 \/ p = 1 \/ p = 2 \/ p = 3 \/ p = 4 \/ p = 5).
  { unfold isTriangleOutside, isVertexOutside in Hout.
    destruct (planeDiff p (tv0 t)) as [d|] eqn:E; [|discriminate].
    exact (planeDiff_index p _ d E). }
  unfold clippedTriangles, clipShadedTriangle, clipPlaneIndices.
  cbn [clipAgainstPlanes].
  destruct Hindex as [-> | [-> | [-> | [-> | [-> | ->]]]]];
    repeat (erewrite clipAgainstPlane_inside;
            [ cbn [bind Z.add Pos.add Pos.succ]
            | lia | reflexivity | unfold MAX_CLIPPED_TRIANGLE_TRIANGLES; lia
            | apply store_same
            | apply Hin; [unfold clipPlaneIndices; simpl; tauto | lia] ]);
    (rewrite clipAgainstPlane_outside;
     [ cbn [bind clipListSize clipListFrontIndex g_clipSpaceTriangles]
     | cbn [clipListSize clipListFrontIndex]; lia
     | unfold MAX_CLIPPED_TRIANGLE_TRIANGLES; cbn [clipListSize]; lia
     | intros i Hi; cbn [clipListSize clipListFrontIndex g_clipSpaceTriangles] in Hi |- *;
       match type of Hi with
       | ?n <= i < _ => replace i with n by lia
       end; now rewrite store_same ]);
    repeat (rewrite clipAgainstPlane_idle; cbn [bind]);
    unfold resultTriangles; cbn [clipListFrontIndex clipListSize];
    now rewrite Z.sub_diag.
Qed.
(** A triangle whose clipping leaves no result leaves the mesh as it is. *)
Lemma processShadedTriangles_no_result (scratch : Z -> ClipSpaceTriangle D)
    (t : ClipSpaceTriangle D) (mesh : ClipSpaceMesh D) :
  clippedTriangles scratch t = Done [] ->
  exists scratch', processShadedTriangles scratch [t] mesh = Done (scratch', mesh).
Proof.
  unfold clippedTriangles. intros Hclip. cbn [processShadedTriangles].
  destruct (clipShadedTriangle scratch t) as [l|message]; [|discriminate].
  cbn [bind] in Hclip |- *. injection Hclip as ->.
  exists (g_clipSpaceTriangles l). destruct mesh. cbn. now rewrite Z.add_0_r.
Qed.
End ClippingFacts.

(* ------------------------------------------------------------------ *)
(** ** Clipping in exact arithmetic                                    *)
(* ------------------------------------------------------------------ *)

Section Exact.
Import swGeometry swRenderSetup RendererUtils.
#[local] Open Scope R_scope.

Lemma R_leb_true (a b : R) : R_leb a b = true <-> a <= b.
Proof. unfold R_leb. destruct (Rle_dec a b); split; intros; try discriminate; tauto. Qed.

Lemma R_leb_false (a b : R) : R_leb a b = false <-> b < a.
Proof.
  unfold R_leb. destruct (Rle_dec a b); split; intros; try discriminate; try lra; tauto.
Qed.

Lemma R_ltb_true (a b : R) : R_ltb a b = true <-> a < b.
Proof. unfold R_ltb. destruct (Rlt_dec a b); split; intros; try discriminate; tauto. Qed.

Lemma R_ltb_false (a b : R) : R_ltb a b = false <-> b <= a.
Proof.
  unfold R_ltb. destruct (Rlt_dec a b); split; intros; try discriminate; try lra; tauto.
Qed.

Lemma screenSpaceCrossSum_det (flipY : bool) (W H : R) (a b c : Double4 R) :
  w4 a <> 0 -> w4 b <> 0 -> w4 c <> 0 ->
  screenSpaceCrossSum flipY W H a b c
  = crossSumFactor flipY W H * det3 a b c / (w4 a * w4 b * w4 c).
Proof.
  intros Ha Hb Hc.
  unfold screenSpaceCrossSum, crossSumFactor, det3, ndcToScreenSpace, clipSpaceToNDC,
    cross2, sub2.
  destruct a, b, c, flipY; cbn in *; field; auto.
Qed.

Lemma lerp_param_bounds (di dj : R) :
  (0 <= di /\ dj < 0) \/ (di <= 0 /\ 0 < dj) \/ (di < 0 /\ 0 <= dj) \/ (0 < di /\ dj <= 0) ->
  0 <= di / (di - dj) <= 1.
Proof.
  intros Hcases.
  assert (Hq : di - dj <> 0) by lra.
  pose proof (Rinv_r (di - dj) Hq) as Hinv.
  unfold Rdiv.
  destruct (Rlt_dec 0 (di - dj)) as [Hpos|Hneg].
  - pose proof (Rinv_0_lt_compat _ Hpos). nra.
  - assert (Hlt : di - dj < 0) by lra.
    pose proof (Rinv_lt_0_compat _ Hlt). nra.
Qed.

(** Over the reals the inside test of a plane is [0 <= diff] for the even
    planes and [diff <= 0] for the odd ones. *)
Lemma planeInside_parity (q : Z) (v : Double4 R) (dv : R) :
  planeDiff q v = Some dv ->
  (forall d, planeInside q d = R_leb 0 d) \/ (forall d, planeInside q d = R_leb d 0).
Proof.
  unfold planeDiff, planeInside.
  repeat match goal with
         | |- context [match ?x with _ => _ end] => destruct x
         end; intros; try discriminate; (now left) || (now right).
Qed.

Lemma mixed_sides_bounds (q : Z) (v : Double4 R) (dv di dj : R) :
  planeDiff q v = Some dv ->
  planeInside q di = negb (planeInside q dj) ->
  0 <= di / (di - dj) <= 1.
Proof.
  intros Hq Hmixed. apply lerp_param_bounds.
  destruct (planeInside_parity q v dv Hq) as [Hpar|Hpar];
    rewrite !Hpar in Hmixed;
    [ destruct (R_leb 0 di) eqn:Ei, (R_leb 0 dj) eqn:Ej
    | destruct (R_leb di 0) eqn:Ei, (R_leb dj 0) eqn:Ej ];
    cbn [negb] in Hmixed; try discriminate;
    repeat match goal with
           | H : R_leb _ _ = true |- _ => apply R_leb_true in H
           | H : R_leb _ _ = false |- _ => apply R_leb_false in H
           end; lra.
Qed.

Lemma lerp4_w_pos (a b : Double4 R) (T : R) :
  0 < w4 a -> 0 < w4 b -> 0 <= T <= 1 -> 0 < w4 (lerp4 a b T).
Proof.
  intros Ha Hb HT. cbn.
  destruct (Rle_dec T (1 / 2)); nra.
Qed.

Lemma screenSpaceCrossSum_scaled (flipY : bool) (W H : R)
    (a b c a' b' c' : Double4 R) (f : R) :
  0 < w4 a -> 0 < w4 b -> 0 < w4 c -> 0 < w4 a' -> 0 < w4 b' -> 0 < w4 c' ->
  0 <= f -> det3 a' b' c' = f * det3 a b c ->
  exists k, 0 <= k
            /\ screenSpaceCrossSum flipY W H a' b' c'
               = k * screenSpaceCrossSum flipY W H a b c.
Proof.
  intros Ha Hb Hc Ha' Hb' Hc' Hf Hdet.
  exists (f * (w4 a * w4 b * w4 c) / (w4 a' * w4 b' * w4 c')). split.
  - apply Rmult_le_pos.
    + apply Rmult_le_pos; [assumption|].
      apply Rlt_le. repeat apply Rmult_lt_0_compat; assumption.
    + apply Rlt_le, Rinv_0_lt_compat. repeat apply Rmult_lt_0_compat; assumption.
  - rewrite !screenSpaceCrossSum_det by lra. rewrite Hdet. field. repeat split; lra.
Qed.

Ltac mixed_bounds E I di dj :=
  first [ assert (0 <= di / (di - dj) <= 1)
            by (apply (mixed_sides_bounds _ _ _ di dj E); now rewrite I)
        | idtac ].

Ltac scaled_by f :=
  apply (screenSpaceCrossSum_scaled _ _ _ _ _ _ _ _ _ f);
  [ assumption | assumption | assumption
  | first [assumption | apply lerp4_w_pos; assumption]
  | first [assumption | apply lerp4_w_pos; assumption]
  | first [assumption | apply lerp4_w_pos; assumption]
  | nra
  | unfold det3, lerp4; cbn; ring ].

Lemma clip_scales_cross_sum (flipY : bool) (W H : R) (t out : ClipSpaceTriangle R) (q : Z) :
  0 < w4 (tv0 t) -> 0 < w4 (tv1 t) -> 0 < w4 (tv2 t) ->
  In out (clipTriangleAgainstPlane t q) ->
  exists k, 0 <= k
            /\ triangleCrossSum flipY W H out = k * triangleCrossSum flipY W H t.
Proof.
  destruct t as [v0 v1 v2 uv0 uv1 uv2].
  unfold clipTriangleAgainstPlane, ProcessClipSpaceTriangle, triangleCrossSum.
  cbn [tv0 tv1 tv2 tuv0 tuv1 tuv2].
  intros H0 H1 H2.
  destruct (planeDiff q v0) as [d0|] eqn:E0; [|intros []].
  destruct (planeDiff q v1) as [d1|] eqn:E1; [|intros []].
  destruct (planeDiff q v2) as [d2|] eqn:E2; [|intros []].
  cbv zeta.
  change (@ddiv R double_real) with Rdiv. change (@dsub R double_real) with Rminus.
  set (T01 := d0 / (d0 - d1)). set (T12 := d1 / (d1 - d2)). set (T20 := d2 / (d2 - d0)).
  destruct (planeInside q d0) eqn:I0, (planeInside q d1) eqn:I1,
    (planeInside q d2) eqn:I2; cbn [In];
    intros Hin; repeat destruct Hin as [<-|Hin]; try contradiction;
    cbn [tv0 tv1 tv2];
    try (assert (B01 : 0 <= T01 <= 1)
          by (apply (mixed_sides_bounds q v0 d0 d0 d1 E0); now rewrite I0, I1));
    try (assert (B12 : 0 <= T12 <= 1)
          by (apply (mixed_sides_bounds q v0 d0 d1 d2 E0); now rewrite I1, I2));
    try (assert (B20 : 0 <= T20 <= 1)
          by (apply (mixed_sides_bounds q v0 d0 d2 d0 E0); now rewrite I2, I0)).
  all: first
         [ scaled_by 1
         | scaled_by T12
         | scaled_by ((1 - T12) * (1 - T20))
         | scaled_by (T01 * T12)
         | scaled_by (1 - T12)
         | scaled_by (T01 * (1 - T20))
         | scaled_by (1 - T01)
         | scaled_by (T20 * T01)
         | scaled_by ((1 - T01) * T12)
         | scaled_by ((1 - T12) * T20) ].
Qed.
End Exact.


Section ExactPipeline.
Import swGeometry.
#[local] Open Scope R_scope.

Lemma negb_R_leb_true (a b : R) : negb (R_leb a b) = true <-> b < a.
Proof. rewrite negb_true_iff. apply R_leb_false. Qed.

(** Over the reals a point interpolated between two points outside a plane
    is outside that plane. *)
Lemma lerp4_outside (p : Z) (a b : Double4 R) (T : R) :
  0 <= T <= 1 ->
  isVertexOutside p a = true -> isVertexOutside p b = true ->
  isVertexOutside p (lerp4 a b T) = true.
Proof.
  intros HT. unfold isVertexOutside.
  destruct (planeDiff p a) as [da|] eqn:Ea; [|discriminate].
  destruct (planeDiff_index p a da Ea) as [-> | [-> | [-> | [-> | [-> | ->]]]]];
    cbn; rewrite !negb_R_leb_true; intros Ha Hb;
    cbn in Ea; injection Ea as <-;
    destruct (Rle_dec T (1 / 2)); nra.
Qed.

Lemma clip_preserves_outside_exact (p q : Z) (t : ClipSpaceTriangle R) :
  isTriangleOutside p t = true ->
  forall out, In out (clipTriangleAgainstPlane t q) -> isTriangleOutside p out = true.
Proof.
  destruct t as [v0 v1 v2 uv0 uv1 uv2].
  unfold isTriangleOutside at 1. cbn [tv0 tv1 tv2].
  intros Hout. apply andb_true_iff in Hout as [Hout O2].
  apply andb_true_iff in Hout as [O0 O1].
  intros out.
  unfold clipTriangleAgainstPlane, ProcessClipSpaceTriangle.
  cbn [tv0 tv1 tv2 tuv0 tuv1 tuv2].
  destruct (planeDiff q v0) as [d0|] eqn:E0; [|intros []].
  destruct (planeDiff q v1) as [d1|] eqn:E1; [|intros []].
  destruct (planeDiff q v2) as [d2|] eqn:E2; [|intros []].
  cbv zeta.
  change (@ddiv R double_real) with Rdiv. change (@dsub R double_real) with Rminus.
  set (T01 := d0 / (d0 - d1)). set (T12 := d1 / (d1 - d2)). set (T20 := d2 / (d2 - d0)).
  destruct (planeInside q d0) eqn:I0, (planeInside q d1) eqn:I1,
    (planeInside q d2) eqn:I2; cbn [In];
    intros Hin; repeat destruct Hin as [<-|Hin]; try contradiction;
    try (assert (B01 : 0 <= T01 <= 1)
          by (apply (mixed_sides_bounds q v0 d0 d0 d1 E0); now rewrite I0, I1));
    try (assert (B12 : 0 <= T12 <= 1)
          by (apply (mixed_sides_bounds q v0 d0 d1 d2 E0); now rewrite I1, I2));
    try (assert (B20 : 0 <= T20 <= 1)
          by (apply (mixed_sides_bounds q v0 d0 d2 d0 E0); now rewrite I2, I0));
    unfold isTriangleOutside; cbn [tv0 tv1 tv2];
    repeat (apply andb_true_iff; split);
    first [assumption | apply lerp4_outside; assumption].
Qed.

Ltac clip_preserving p :=
  match goal with
  | Hp : pendingAll _ ?l |- context [clipAgainstPlane ?q ?l] =>
      let l' := fresh "l" in
      let Hrun := fresh "Hrun" in
      let Hf := fresh "Hf" in
      let Hs := fresh "Hs" in
      let Hp' := fresh "Hp" in
      destruct (clipAgainstPlane_preserves
                  (fun t => isTriangleOutside p t = true) q l)
        as (l' & Hrun & Hf & Hs & Hp');
      [ cbn [clipListFrontIndex clipListSize]; lia
      | unfold MAX_CLIPPED_TRIANGLE_TRIANGLES; cbn [clipListFrontIndex clipListSize]; lia
      | intros ? ? ? ?; eapply clip_preserves_outside_exact; eassumption
      | exact Hp
      | rewrite Hrun; cbn [bind]; cbn [clipListFrontIndex clipListSize] in Hf, Hs;
        clear Hrun Hp ]
  end.

Ltac clip_dropping :=
  match goal with
  | Hp : pendingAll _ ?l |- context [clipAgainstPlane ?q ?l] =>
      rewrite (clipAgainstPlane_outside q l);
      [ cbn [bind]
      | cbn [clipListFrontIndex clipListSize]; lia
      | unfold MAX_CLIPPED_TRIANGLE_TRIANGLES; cbn [clipListFrontIndex clipListSize]; lia
      | exact Hp ]
  end.

Lemma clip_outside_triangle_exact (scratch : Z -> ClipSpaceTriangle R)
    (t : ClipSpaceTriangle R) (p : Z) :
  isTriangleOutside p t = true ->
  clippedTriangles scratch t = Done [].
Proof.
  intros Hout.
  assert (Hindex : (p = 0 \/ p = 1 \/ p = 2 \/ p = 3 \/ p = 4 \/ p = 5)%Z).
  { unfold isTriangleOutside, isVertexOutside in Hout.
    destruct (planeDiff p (tv0 t)) as [d|] eqn:E; [|discriminate].
    exact (planeDiff_index p _ d E). }
  assert (Hp0 : pendingAll (fun t' => isTriangleOutside p t' = true)
                  (mkClipList (store scratch 0%Z t) 1 0)).
  { intros i Hi. cbn [clipListFrontIndex clipListSize g_clipSpaceTriangles] in Hi |- *.
    replace i with 0%Z by lia. now rewrite store_same. }
  unfold clippedTriangles, clipShadedTriangle, clipPlaneIndices.
  cbn [clipAgainstPlanes].
  destruct Hindex as [-> | [-> | [-> | [-> | [-> | ->]]]]].
  - clip_dropping. repeat (rewrite clipAgainstPlane_idle; cbn [bind]).
    unfold resultTriangles. cbn [clipListFrontIndex clipListSize].
    now rewrite Z.sub_diag.
  - clip_preserving 1%Z. clip_dropping. repeat (rewrite clipAgainstPlane_idle; cbn [bind]).
    unfold resultTriangles. cbn [clipListFrontIndex clipListSize].
    now rewrite Z.sub_diag.
  - do 2 clip_preserving 2%Z. clip_dropping. repeat (rewrite clipAgainstPlane_idle; cbn [bind]).
    unfold resultTriangles. cbn [clipListFrontIndex clipListSize].
    now rewrite Z.sub_diag.
  - do 3 clip_preserving 3%Z. clip_dropping. repeat (rewrite clipAgainstPlane_idle; cbn [bind]).
    unfold resultTriangles. cbn [clipListFrontIndex clipListSize].
    now rewrite Z.sub_diag.
  - do 4 clip_preserving 4%Z. clip_dropping. repeat (rewrite clipAgainstPlane_idle; cbn [bind]).
    unfold resultTriangles. cbn [clipListFrontIndex clipListSize].
    now rewrite Z.sub_diag.
  - do 5 clip_preserving 5%Z. clip_dropping. cbn [bind].
    unfold resultTriangles. cbn [clipListFrontIndex clipListSize].
    now rewrite Z.sub_diag.
Qed.
End ExactPipeline.

(* ------------------------------------------------------------------ *)
(** ** Clipping: the testable properties                               *)
(* ------------------------------------------------------------------ *)

Section ClippingClaims.
Import swGeometry swRenderSetup.

(** C3, witness: [visibleTriangle]. *)
Lemma clip_fully_inside_triangle_is_kept_witness :
  isTriangleInsideAllPlanes Examples.visibleTriangle = true
  /\ clippedTriangles Examples.zeroScratch Examples.visibleTriangle
     = Done [Examples.visibleTriangle].
Proof.
  split; [reflexivity|].
  apply (clip_fully_inside_triangle_is_kept Examples.zeroScratch Examples.visibleTriangle).
  reflexivity.
Defined.

(** C4, as amended.  If all three vertices are classified outside a plane,
    [ProcessClipSpaceTriangle] returns no triangle for that plane.  Such a
    triangle contributes no triangle to the clipped mesh when it is inside
    every earlier plane, and, in exact arithmetic, whatever the earlier
    planes do with it. *)
Theorem clip_outside_triangle_is_dropped :
  (forall (D : Type) (ops : DoubleOps D) (t : ClipSpaceTriangle D) (p : Z),
      isTriangleOutside p t = true -> clipTriangleAgainstPlane t p = [])
  /\ (forall (D : Type) (ops : DoubleOps D) (scratch : Z -> ClipSpaceTriangle D)
             (t : ClipSpaceTriangle D) (p : Z),
      isTriangleOutside p t = true ->
      (forall q, In q clipPlaneIndices -> q < p -> isTriangleInside q t = true) ->
      clippedTriangles scratch t = Done [])
  /\ (forall (scratch : Z -> ClipSpaceTriangle R) (t : ClipSpaceTriangle R) (p : Z),
      isTriangleOutside p t = true -> clippedTriangles scratch t = Done []).
Proof.
  split; [|split].
  - intros D ops t p. apply clip_outside_plane.
  - intros D ops scratch t p. apply clip_outside_after_inside.
  - intros scratch t p. apply clip_outside_triangle_exact.
Qed.

(** C4, witness: [leftOfFrustumTriangle] and the left plane. *)
Lemma clip_outside_triangle_is_dropped_witness :
  isTriangleOutside 0 Examples.leftOfFrustumTriangle = true
  /\ clipTriangleAgainstPlane Examples.leftOfFrustumTriangle 0 = []
  /\ clippedTriangles Examples.zeroScratch Examples.leftOfFrustumTriangle = Done [].
Proof.
  split; [reflexivity|]. split.
  - apply (proj1 clip_outside_triangle_is_dropped). reflexivity.
  - apply (proj1 (proj2 clip_outside_triangle_is_dropped) _ _ _ _ 0).
    + reflexivity.
    + intros q Hq Hlt. unfold clipPlaneIndices in Hq. simpl in Hq. lia.
Defined.

(** C4, counterexample.  In binary64 arithmetic the three vertices of
    [beyondFarPlaneTriangle] are all outside the far plane (index 5), yet
    the clipping pass leaves one triangle: the left plane splits the
    triangle first, and the vertex it interpolates rounds onto the far
    plane. *)
Lemma clip_outside_triangle_rounding_counterexample :
  isTriangleOutside 5 Examples.beyondFarPlaneTriangle = true
  /\ clipTriangleAgainstPlane Examples.beyondFarPlaneTriangle 5 = []
  /\ exists remaining,
       clippedTriangles Examples.zeroScratch Examples.beyondFarPlaneTriangle
       = Done [remaining].
Proof.
  split; [reflexivity|]. split; [reflexivity|].
  eexists. vm_compute. reflexivity.
Qed.

(** C5, as amended.  In exact arithmetic, for a triangle whose three
    vertices are in front of the camera ([w > 0]), every triangle that
    [ProcessClipSpaceTriangle] produces has a projected cross-product sum
    that is the input's multiplied by a non-negative factor: its sign is the
    input's, or it is zero (a degenerate triangle); it is never the opposite
    sign.  Each restriction is needed: see the counterexample below for a
    vertex behind the camera, for binary64 rounding and for the zero. *)
Theorem clip_never_flips_winding_exact (flipY : bool) (W H : R)
    (t out : ClipSpaceTriangle R) (clipPlaneIndex : Z) :
  (0 < w4 (tv0 t))%R -> (0 < w4 (tv1 t))%R -> (0 < w4 (tv2 t))%R ->
  In out (clipTriangleAgainstPlane t clipPlaneIndex) ->
  (exists k : R,
      (0 <= k)%R
      /\ triangleCrossSum flipY W H out = (k * triangleCrossSum flipY W H t)%R)
  /\ (signOf (triangleCrossSum flipY W H out) = signOf (triangleCrossSum flipY W H t)
      \/ signOf (triangleCrossSum flipY W H out) = Eq).
Proof.
  intros H0 H1 H2 Hin.
  destruct (clip_scales_cross_sum flipY W H t out clipPlaneIndex H0 H1 H2 Hin)
    as (k & Hk & Hscaled).
  split; [now exists k|]. rewrite Hscaled.
  set (s := triangleCrossSum flipY W H t).
  unfold signOf. cbn [dltb d_zero double_real].
  destruct (R_ltb 0 s) eqn:Epos; [apply R_ltb_true in Epos | apply R_ltb_false in Epos].
  - destruct (R_ltb 0 (k * s)) eqn:Ekpos; [now left|]. apply R_ltb_false in Ekpos.
    right. destruct (R_ltb (k * s) 0) eqn:Ekneg; [|reflexivity].
    apply R_ltb_true in Ekneg. nra.
  - destruct (R_ltb 0 (k * s)) eqn:Ekpos; [apply R_ltb_true in Ekpos; nra|].
    destruct (R_ltb s 0) eqn:Eneg; [apply R_ltb_true in Eneg | apply R_ltb_false in Eneg].
    + destruct (R_ltb (k * s) 0); [now left|now right].
    + right. destruct (R_ltb (k * s) 0) eqn:Ekneg; [|reflexivity].
      apply R_ltb_true in Ekneg. nra.
Qed.

(** The right plane cuts [exactStraddlingTriangle] into two triangles; the
    second vertex of the first one is the point where the edge from the
    first to the second vertex of the input meets the plane. *)
Lemma exactStraddlingTriangle_right_plane :
  exists out rest,
    clipTriangleAgainstPlane Examples.exactStraddlingTriangle 1 = out :: rest
    /\ x4 (tv1 out) = 1%R.
Proof.
  unfold clipTriangleAgainstPlane, ProcessClipSpaceTriangle,
    Examples.exactStraddlingTriangle.
  cbn.
  repeat match goal with
         | |- context [R_leb ?a ?b] =>
             first [ rewrite (proj2 (R_leb_true a b)) by lra
                   | rewrite (proj2 (R_leb_false a b)) by lra ]
         end.
  do 2 eexists. split; [reflexivity|]. cbn. field.
Qed.

(** C5, witness: [exactStraddlingTriangle] and the right plane, which cuts
    off its second vertex ([x = 2]): the first of the two triangles
    produced has a new second vertex, with [x = 1]. *)
Lemma clip_never_flips_winding_exact_witness :
  let t := Examples.exactStraddlingTriangle in
  exists out,
    ((0 < w4 (tv0 t))%R /\ (0 < w4 (tv1 t))%R /\ (0 < w4 (tv2 t))%R)
    /\ In out (clipTriangleAgainstPlane t 1)
    /\ x4 (tv1 out) = 1%R /\ x4 (tv1 t) = 2%R
    /\ (signOf (triangleCrossSum true 320%R 200%R out)
        = signOf (triangleCrossSum true 320%R 200%R t)
        \/ signOf (triangleCrossSum true 320%R 200%R out) = Eq).
Proof.
  destruct exactStraddlingTriangle_right_plane as (out & rest & Hclip & Hcut).
  assert (Hin : In out (clipTriangleAgainstPlane Examples.exactStraddlingTriangle 1))
    by (rewrite Hclip; now left).
  assert (Hw : (0 < 1)%R) by lra.
  exists out. split; [repeat split; exact Hw|]. split; [exact Hin|].
  split; [exact Hcut|]. split; [reflexivity|].
  exact (proj2 (clip_never_flips_winding_exact true 320%R 200%R
                  Examples.exactStraddlingTriangle out 1 Hw Hw Hw Hin)).
Defined.

(** C5, counterexample, in binary64 on a 320x200 frame buffer.
    - The third vertex of [behindCameraTriangle] is behind the camera.
      Clipping against the left plane (index 0) turns the triangle into two
      triangles in front of the camera, and the sign of their projected
      cross-product sum is the opposite of the input's, with either
      orientation of the y axis.  All the arithmetic involved is exact.
    - The three vertices of [sliverTriangle] are in front of the camera, and
      so are the vertices of the two triangles that clipping against the top
      plane (index 3) produces; the cross-product sum of the second one has
      the opposite sign of the input's, because of rounding.
    - The first vertex of [onPlaneTriangle] lies on the right plane (index
      1) and counts as inside.  The triangle produced has its three vertices
      at that point: its cross-product sum is zero, the input's is not.  All
      the arithmetic involved is exact. *)
Lemma clip_winding_not_preserved :
  let crossSum flipY := triangleCrossSum flipY 320%float 200%float in
  let signs flipY t p :=
    map (fun out => signOf (crossSum flipY out)) (clipTriangleAgainstPlane t p) in
  let inFront (t : ClipSpaceTriangle float) :=
    (0 <? w4 (tv0 t))%float && (0 <? w4 (tv1 t))%float && (0 <? w4 (tv2 t))%float in
  (signs true Examples.behindCameraTriangle 0 = [Gt; Gt]
   /\ signOf (crossSum true Examples.behindCameraTriangle) = Lt
   /\ signs false Examples.behindCameraTriangle 0 = [Lt; Lt]
   /\ signOf (crossSum false Examples.behindCameraTriangle) = Gt)
  /\ (inFront Examples.sliverTriangle = true
      /\ forallb inFront (clipTriangleAgainstPlane Examples.sliverTriangle 3) = true
      /\ signs true Examples.sliverTriangle 3 = [Lt; Gt]
      /\ signOf (crossSum true Examples.sliverTriangle) = Lt
      /\ signs false Examples.sliverTriangle 3 = [Gt; Lt]
      /\ signOf (crossSum false Examples.sliverTriangle) = Gt)
  /\ (inFront Examples.onPlaneTriangle = true
      /\ isVertexInside 1 (tv0 Examples.onPlaneTriangle) = true
      /\ signs true Examples.onPlaneTriangle 1 = [Eq]
      /\ signOf (crossSum true Examples.onPlaneTriangle) = Gt).
Proof. vm_compute. repeat split. Qed.

(** C6.  The clip list of [straddlingTriangle] outgrows the 64 entries of
    the scratch arrays: the first five planes leave 49 entries, 20 of them
    still to be clipped against the far plane, and while the far plane is
    processed the [DebugAssert] on [clipResultWriteIndex] fails. *)
Theorem clip_list_overflows_scratch_arrays (scratch : Z -> ClipSpaceTriangle float) :
  (exists l,
      clipAgainstPlanes [0; 1; 2; 3; 4] (mkClipList (store scratch 0 Examples.straddlingTriangle) 1 0)
      = Done l
      /\ clipListSize l = 49 /\ clipListFrontIndex l = 29)
  /\ clipShadedTriangle scratch Examples.straddlingTriangle
     = Halted "clipResultWriteIndex < MAX_CLIPPED_TRIANGLE_TRIANGLES".
Proof.
  split.
  - eexists. split; [vm_compute; reflexivity|]. split; reflexivity.
  - vm_compute. reflexivity.
Qed.
End ClippingClaims.

(* ------------------------------------------------------------------ *)
(** ** Pixel shading                                                   *)
(* ------------------------------------------------------------------ *)

Section AlphaTest.
Import swShader swRender.
Context {D : Type} {ops : DoubleOps D}.
Variable PALETTE_INDEX_TRANSPARENT : Z.
Variable PALETTE_INDEX_LIGHT_LEVEL_LOWEST : Z.
Variable PALETTE_INDEX_LIGHT_LEVEL_SRC1 : Z.
Variable PALETTE_INDEX_LIGHT_LEVEL_SRC2 : Z.
Variable PALETTE_INDEX_LIGHT_LEVEL_DST1 : Z.
Variable PALETTE_INDEX_LIGHT_LEVEL_DST2 : Z.
Variable PALETTE_INDEX_PUDDLE_EVEN_ROW : Z.
Variable isLightLevelTexel : Z -> bool.

(** Every [AlphaTested...] shader returns the frame buffer it was given when
    the texel it samples is the transparent index. *)
Lemma runPixelShader_transparent (ds : DrawState D)
    (shaderPerspective : PixelShaderPerspectiveCorrection D)
    (shaderLighting : PixelShaderLighting D)
    (shaderHorizonMirror : PixelShaderHorizonMirror D)
    (shaderFrameBuffer : PixelShaderFrameBuffer D) :
  isAlphaTestedVariant (pixelShaderType ds) = true ->
  sampledTexel ds shaderPerspective shaderFrameBuffer = PALETTE_INDEX_TRANSPARENT ->
  runPixelShader PALETTE_INDEX_TRANSPARENT PALETTE_INDEX_LIGHT_LEVEL_LOWEST
    PALETTE_INDEX_LIGHT_LEVEL_SRC1 PALETTE_INDEX_LIGHT_LEVEL_SRC2
    PALETTE_INDEX_LIGHT_LEVEL_DST1 PALETTE_INDEX_LIGHT_LEVEL_DST2
    PALETTE_INDEX_PUDDLE_EVEN_ROW isLightLevelTexel
    ds shaderPerspective shaderLighting shaderHorizonMirror shaderFrameBuffer
  = shaderFrameBuffer.
Proof.
  unfold runPixelShader, sampledTexel.
  destruct (pixelShaderType ds); cbn [isAlphaTestedVariant]; try discriminate;
    intros _ Htexel.
  - unfold PixelShader_AlphaTested. now rewrite Htexel, Z.eqb_refl.
  - unfold PixelShader_AlphaTestedWithVariableTexCoordUMin. now rewrite Htexel, Z.eqb_refl.
  - unfold PixelShader_AlphaTestedWithVariableTexCoordVMin. now rewrite Htexel, Z.eqb_refl.
  - unfold PixelShader_AlphaTestedWithPaletteIndexLookup. now rewrite Htexel, Z.eqb_refl.
  - unfold PixelShader_AlphaTestedWithLightLevelColor. now rewrite Htexel, Z.eqb_refl.
  - unfold PixelShader_AlphaTestedWithLightLevelOpacity. now rewrite Htexel, Z.eqb_refl.
  - unfold PixelShader_AlphaTestedWithPreviousBrightnessLimit.
    rewrite Htexel, Z.eqb_refl. now destruct (negb _).
  - unfold PixelShader_AlphaTestedWithHorizonMirror. now rewrite Htexel, Z.eqb_refl.
Qed.

(** C1, as amended.  For a pixel shaded with an [AlphaTested...] variant
    whose sampled texel is the transparent index, the shader writes neither
    a palette index nor a depth: the palette-index buffer and the depth
    buffer are left unchanged.  The rasterizer then still copies the palette
    colour of the unchanged palette index into the colour buffer at that
    pixel and counts one colour write. *)
Theorem alpha_test_transparent_texel_effects
    (ds : DrawState D) (x y : Z)
    (shaderPerspective : PixelShaderPerspectiveCorrection D)
    (shaderWorldSpacePointXYZ : Double3 D) (st : FrameState D) :
  isAlphaTestedVariant (pixelShaderType ds) = true ->
  sampledTexel ds shaderPerspective (pixelFrameBuffer ds x y st)
  = PALETTE_INDEX_TRANSPARENT ->
  let pixelIndex := x + (y * frameBufferWidth ds) in
  let st' :=
    shadePixel PALETTE_INDEX_TRANSPARENT PALETTE_INDEX_LIGHT_LEVEL_LOWEST
      PALETTE_INDEX_LIGHT_LEVEL_SRC1 PALETTE_INDEX_LIGHT_LEVEL_SRC2
      PALETTE_INDEX_LIGHT_LEVEL_DST1 PALETTE_INDEX_LIGHT_LEVEL_DST2
      PALETTE_INDEX_PUDDLE_EVEN_ROW isLightLevelTexel
      ds x y shaderPerspective shaderWorldSpacePointXYZ st in
  paletteIndexBuffer st' = paletteIndexBuffer st
  /\ depthBuffer st' = depthBuffer st
  /\ colorBuffer st'
     = store (colorBuffer st) pixelIndex
         (paletteTexels32Bit ds (paletteIndexBuffer st pixelIndex))
  /\ g_totalColorWrites st' = g_totalColorWrites st + 1.
Proof.
  intros Hvariant Htexel pixelIndex st'. subst st' pixelIndex.
  unfold shadePixel. rewrite runPixelShader_transparent by assumption.
  cbn. repeat split.
Qed.
End AlphaTest.

(* ------------------------------------------------------------------ *)
(** ** Lighting                                                        *)
(* ------------------------------------------------------------------ *)

Lemma clamp_int_range (v lo hi : Z) : lo <= hi -> lo <= clamp_int v lo hi <= hi.
Proof.
  intros Hle. unfold clamp_int.
  destruct (Z.ltb_spec v lo); [lia|]. destruct (Z.ltb_spec hi v); lia.
Qed.


Lemma min_int_range (a b : Z) : min_int a b <= b /\ min_int a b <= a.
Proof. unfold min_int. destruct (Z.ltb_spec b a); lia. Qed.

Section LightLevel.
Import swShader swRender.
Context {D : Type} {ops : DoubleOps D}.

Lemma lightLevelOf_range (lightLevelCount : Z) (lightLevelCountReal lightIntensitySum : D) :
  1 <= lightLevelCount ->
  0 <= lightLevelOf lightLevelCount lightLevelCountReal lightIntensitySum
    <= lightLevelCount - 1.
Proof.
  intros Hcount. unfold lightLevelOf.
  pose proof (clamp_int_range
                (int_of_double (lightIntensitySum * lightLevelCountReal)%D)
                0 (lightLevelCount - 1)). lia.
Qed.

Lemma ditherLightLevel_range (lightingType : RenderLightingType) (ditheringMode : Z)
    (ditherBufferPtr : Z -> bool) (x y frameBufferWidth frameBufferHeight : Z)
    (lightLevelCount : Z) (lightLevelCountReal lightIntensitySum : D) (lightLevel : Z) :
  0 <= lightLevel <= lightLevelCount - 1 ->
  0 <= ditherLightLevel lightingType ditheringMode ditherBufferPtr x y frameBufferWidth
         frameBufferHeight lightLevelCount lightLevelCountReal lightIntensitySum lightLevel
    <= lightLevelCount - 1.
Proof.
  intros Hrange. unfold ditherLightLevel. destruct lightingType; [assumption|].
  destruct (shouldDither _ _ _ _ _ _ _ _); [|assumption].
  unfold min_int. destruct (Z.ltb_spec (lightLevelCount - 1) (lightLevel + 1)); lia.
Qed.

(** C10, as amended.  With a light table of height at least 1, the light
    level lies in [0, lightLevelCount - 1] after the mapping from the
    intensity and after the dithering step, which moves it by at most one
    row.  The index [texel + lightLevel * texelsPerLightLevel] stays inside
    row [lightLevel], and inside the table, for a texel below
    [texelsPerLightLevel], the width of the table; the code does not compare
    the texel with that width. *)
Theorem light_level_stays_in_light_table (ds : DrawState D) (x y : Z)
    (shaderWorldSpacePointXYZ : Double3 D) :
  1 <= lightTableHeight ds ->
  let lightLevelCount := lightTableHeight ds in
  let texelsPerLightLevel := lightTableWidth ds in
  let lightIntensitySum :=
    computeLightIntensitySum (lightingType ds) (meshLightPercent ds) (ambientPercent ds)
      (lights ds) shaderWorldSpacePointXYZ in
  let mapped :=
    lightLevelOf lightLevelCount (double_of_int lightLevelCount) lightIntensitySum in
  let dithered := pixelLightLevel ds x y shaderWorldSpacePointXYZ in
  0 <= mapped <= lightLevelCount - 1
  /\ 0 <= dithered <= lightLevelCount - 1
  /\ (mapped <= dithered <= mapped + 1)
  /\ forall texel, 0 <= texel < texelsPerLightLevel ->
       dithered * texelsPerLightLevel
       <= texel + (dithered * texelsPerLightLevel)
       < (dithered + 1) * texelsPerLightLevel
       /\ 0 <= texel + (dithered * texelsPerLightLevel)
          < lightLevelCount * texelsPerLightLevel.
Proof.
  intros Hcount lightLevelCount texelsPerLightLevel lightIntensitySum mapped dithered.
  assert (Hmapped : 0 <= mapped <= lightLevelCount - 1)
    by (apply lightLevelOf_range; assumption).
  assert (Hdithered : 0 <= dithered <= lightLevelCount - 1).
  { subst dithered. unfold pixelLightLevel. apply ditherLightLevel_range. exact Hmapped. }
  assert (Hstep : mapped <= dithered <= mapped + 1).
  { subst dithered. unfold pixelLightLevel, ditherLightLevel.
    fold lightLevelCount. fold lightIntensitySum. fold mapped.
    destruct (lightingType ds); [lia|].
    destruct (shouldDither _ _ _ _ _ _ _ _); [|lia].
    unfold min_int. destruct (Z.ltb_spec (lightLevelCount - 1) (mapped + 1)); lia. }
  repeat split; try lia; nia.
Qed.
End LightLevel.

Section Falloff.
Import swShader swRender.
Context {D : Type} {ops : DoubleOps D}.

Lemma lightIntensityAt_cases (light : Light D) (lightDistance : D) :
  ((lightDistance <=? startRadius light)%D = true ->
   lightIntensityAt light lightDistance = d_one)
  /\ ((lightDistance <=? startRadius light)%D = false ->
      (lightDistance >=? endRadius light)%D = true ->
      lightIntensityAt light lightDistance = d_zero)
  /\ ((lightDistance <=? startRadius light)%D = false ->
      (lightDistance >=? endRadius light)%D = false ->
      lightIntensityAt light lightDistance
      = clamp_double
          (d_one - ((lightDistance - startRadius light)
                    / (endRadius light - startRadius light)))%D d_zero d_one).
Proof.
  unfold lightIntensityAt. repeat split; intros H1; try intros H2;
    rewrite H1; try rewrite H2; reflexivity.
Qed.

(** The sum leaves the loop over a non-empty list of lights either as
    exactly 1.0 or as a value that failed the test [>= 1.0]. *)
Lemma addLightIntensities_clamped (lights : list (Light D)) (point : Double3 D) (sum : D) :
  lights <> [] ->
  addLightIntensities lights point sum = d_one
  \/ (addLightIntensities lights point sum >=? d_one)%D = false.
Proof.
  revert sum. induction lights as [|light rest IH]; intros sum Hne; [congruence|].
  cbn [addLightIntensities].
  destruct (d_one <=? _)%D eqn:Etest; [now left|].
  destruct rest as [|light' rest'].
  - right. exact Etest.
  - apply IH. discriminate.
Qed.

(** Once the running sum reaches 1.0 the remaining lights are not looked
    at. *)
Lemma addLightIntensities_early_exit (light : Light D) (rest : list (Light D))
    (point : Double3 D) (sum : D) :
  ((sum + lightIntensityAt light (length3 (sub3 (worldPoint light) point)))%D
   >=? d_one)%D = true ->
  addLightIntensities (light :: rest) point sum = d_one.
Proof. intros Htest. cbn [addLightIntensities]. now rewrite Htest. Qed.
End Falloff.


Lemma float_neq (a b : float) : PrimFloat.eqb a b = false -> is_nan a = false -> a <> b.
Proof.
  intros Hneq Hnan Heq. subst b. unfold is_nan in Hnan.
  rewrite Hneq in Hnan. discriminate.
Qed.


(* ------------------------------------------------------------------ *)
(** ** Resource pools                                                  *)
(* ------------------------------------------------------------------ *)

Section PoolFacts.
Context {A : Type}.

Lemma nth_error_setSlot_same (p : Pool.t A) (i : nat) (v : option A) :
  (i < List.length p)%nat -> nth_error (Pool.setSlot p i v) i = Some v.
Proof.
  revert i. induction p as [|s rest IH]; intros [|i] Hlt; simpl in *; try lia.
  - reflexivity.
  - apply IH. lia.
Qed.

Lemma nth_error_setSlot_other (p : Pool.t A) (i j : nat) (v : option A) :
  i <> j -> nth_error (Pool.setSlot p i v) j = nth_error p j.
Proof.
  revert i j. induction p as [|s rest IH]; intros [|i] [|j] Hne; simpl; try reflexivity.
  - congruence.
  - apply IH. congruence.
Qed.

Lemma tryGet_in_range (p : Pool.t A) (id : Z) (a : A) :
  Pool.tryGet p id = Some a -> 0 <= id /\ (Z.to_nat id < List.length p)%nat.
Proof.
  unfold Pool.tryGet. destruct (Z.ltb_spec id 0); [discriminate|].
  destruct (nth_error p (Z.to_nat id)) eqn:E; [|discriminate].
  intros _. split; [assumption|]. apply nth_error_Some. congruence.
Qed.

Lemma tryGet_set_same (p : Pool.t A) (id : Z) (a v : A) :
  Pool.tryGet p id = Some a -> Pool.tryGet (Pool.set p id v) id = Some v.
Proof.
  intros Hget. destruct (tryGet_in_range p id a Hget) as [Hid Hlt].
  unfold Pool.tryGet, Pool.set.
  destruct (Z.ltb_spec id 0); [lia|].
  now rewrite nth_error_setSlot_same.
Qed.

Lemma tryGet_set_other (p : Pool.t A) (id other : Z) (v : A) :
  other <> id -> Pool.tryGet (Pool.set p id v) other = Pool.tryGet p other.
Proof.
  intros Hne. unfold Pool.tryGet, Pool.set.
  destruct (Z.ltb_spec other 0); [reflexivity|].
  destruct (Z.ltb_spec id 0); [reflexivity|].
  rewrite nth_error_setSlot_other; [reflexivity|]. lia.
Qed.

Lemma tryAlloc_exhausted (fresh : A) (p : Pool.t A) :
  Pool.tryAlloc fresh p = None <-> Pool.isExhausted p = true.
Proof.
  unfold Pool.tryAlloc, Pool.isExhausted.
  destruct (Pool.firstFree p); split; intros; congruence.
Qed.
End PoolFacts.

Lemma std_copy_same_count {A : Type} (src dst : list A) :
  List.length src = List.length dst -> std_copy src dst = src.
Proof.
  intros Hlen. unfold std_copy. rewrite Hlen, skipn_all. apply app_nil_r.
Qed.

Section ResourceFacts.
Import SoftwareRenderer.
Context {D : Type} {ops : DoubleOps D}.

Lemma samePools_DebugLogError (r : Renderer D) (text : string) (numbers : list Z) :
  samePools r (DebugLogError r text numbers).
Proof. repeat split. Qed.


Ltac pass_assert :=
  match goal with
  | |- context [DebugAssert ?c _] =>
      replace c with true
        by (symmetry; first [apply Z.ltb_lt | apply Z.leb_le | apply Z.eqb_eq]; lia);
      cbn [DebugAssert bind]
  end.

(** The two ways a [tryCreate...] call returns once its assertions have
    passed. *)
Lemma refused_create_reports {A : Type} (fresh : A) (pool : Pool.t A) (r : Renderer D)
    (text : string) :
  Pool.tryAlloc fresh pool = None ->
  reportsExhaustion r pool (mkCreateResult false None (DebugLogError r text [])).
Proof.
  intros Ealloc. unfold reportsExhaustion. cbn [returned outID rendererAfter].
  split; [|split].
  - split; [intros _; now apply (tryAlloc_exhausted fresh)|reflexivity].
  - intros _. split; [reflexivity|]. split; [apply samePools_DebugLogError|].
    now exists text, [].
  - discriminate.
Qed.

Lemma served_create_reports {A : Type} (fresh : A) (pool pool' : Pool.t A) (id : Z)
    (r r' : Renderer D) :
  Pool.tryAlloc fresh pool = Some (id, pool') ->
  debugLog r' = debugLog r ->
  reportsExhaustion r pool (mkCreateResult true (Some id) r').
Proof.
  intros Ealloc Hlog. unfold reportsExhaustion. cbn [returned outID rendererAfter].
  split; [|split].
  - split; [discriminate|].
    intros Hex. apply (tryAlloc_exhausted fresh) in Hex. congruence.
  - discriminate.
  - intros _. split; [now exists id|exact Hlog].
Qed.

Ltac settle_create fresh pool :=
  destruct (Pool.tryAlloc fresh pool) as [[id pool']|] eqn:Ealloc;
  [ eexists; split; [reflexivity|];
    apply (served_create_reports fresh pool pool' id); [exact Ealloc|reflexivity]
  | eexists; split; [reflexivity|];
    now apply (refused_create_reports fresh) ].

Lemma tryCreateVertexBuffer_reports (r : Renderer D) (vertexCount componentsPerVertex : Z) :
  0 < vertexCount /\ 2 <= componentsPerVertex ->
  exists res,
    tryCreateVertexBuffer r vertexCount componentsPerVertex = Done res
    /\ reportsExhaustion r (vertexBuffers r) res.
Proof.
  intros Hvalid. unfold tryCreateVertexBuffer. do 2 pass_assert.
  settle_create (@emptyVertexBuffer D) (vertexBuffers r).
Qed.

Lemma tryCreateAttributeBuffer_reports (r : Renderer D) (vertexCount componentsPerVertex : Z) :
  0 < vertexCount /\ 2 <= componentsPerVertex ->
  exists res,
    tryCreateAttributeBuffer r vertexCount componentsPerVertex = Done res
    /\ reportsExhaustion r (attributeBuffers r) res.
Proof.
  intros Hvalid. unfold tryCreateAttributeBuffer. do 2 pass_assert.
  settle_create (@emptyAttributeBuffer D) (attributeBuffers r).
Qed.

Lemma tryCreateIndexBuffer_reports (r : Renderer D) (indexCount : Z) :
  0 < indexCount /\ indexCount mod 3 = 0 ->
  exists res,
    tryCreateIndexBuffer r indexCount = Done res
    /\ reportsExhaustion r (indexBuffers r) res.
Proof.
  intros Hvalid. unfold tryCreateIndexBuffer. do 2 pass_assert.
  settle_create emptyIndexBuffer (indexBuffers r).
Qed.

Lemma ObjectTexture_init_valid (width height bytesPerTexel : Z) :
  0 < width /\ 0 < height /\ (bytesPerTexel = 1 \/ bytesPerTexel = 4) ->
  exists texture : ObjectTexture D,
    ObjectTexture_init width height bytesPerTexel = Done texture.
Proof.
  intros (Hwidth & Hheight & Hbytes). unfold ObjectTexture_init. do 3 pass_assert.
  destruct Hbytes as [-> | ->]; cbn [Z.eqb Pos.eqb bind]; eexists; reflexivity.
Qed.

(** [tryCreateObjectTexture] looks at the dimensions only after it has
    taken the slot: from an exhausted pool it returns [false] whatever the
    dimensions are. *)
Lemma tryCreateObjectTexture_reports (r : Renderer D) (width height bytesPerTexel : Z) :
  Pool.isExhausted (objectTextures r) = true
  \/ (0 < width /\ 0 < height /\ (bytesPerTexel = 1 \/ bytesPerTexel = 4)) ->
  exists res,
    tryCreateObjectTexture r width height bytesPerTexel = Done res
    /\ reportsExhaustion r (objectTextures r) res.
Proof.
  intros Hreturns. unfold tryCreateObjectTexture.
  destruct (Pool.tryAlloc emptyObjectTexture (objectTextures r)) as [[id pool']|] eqn:Ealloc.
  - destruct Hreturns as [Hex|Hvalid].
    + apply (tryAlloc_exhausted (@emptyObjectTexture D ops)) in Hex. congruence.
    + destruct (ObjectTexture_init_valid width height bytesPerTexel Hvalid)
        as [texture ->].
      cbn [bind]. eexists. split; [reflexivity|].
      apply (served_create_reports (@emptyObjectTexture D ops) _ pool' id);
        [exact Ealloc|reflexivity].
  - eexists. split; [reflexivity|].
    now apply (refused_create_reports (@emptyObjectTexture D ops)).
Qed.

Lemma tryCreateUniformBuffer_reports (r : Renderer D)
    (elementCount sizeOfElement alignmentOfElement : Z) :
  0 <= elementCount /\ 0 < sizeOfElement /\ 0 < alignmentOfElement ->
  exists res,
    tryCreateUniformBuffer r elementCount sizeOfElement alignmentOfElement = Done res
    /\ reportsExhaustion r (uniformBuffers r) res.
Proof.
  intros Hvalid. unfold tryCreateUniformBuffer. do 3 pass_assert.
  settle_create emptyUniformBuffer (uniformBuffers r).
Qed.

Lemma tryCreateLight_reports (r : Renderer D) :
  exists res, tryCreateLight r = Done res /\ reportsExhaustion r (lights r) res.
Proof. unfold tryCreateLight. settle_create (@defaultLight D ops) (lights r). Qed.

(** Invalid dimensions halt the call at a [DebugAssert]. *)
Lemma tryCreateVertexBuffer_invalid (r : Renderer D) (vertexCount componentsPerVertex : Z) :
  vertexCount <= 0 \/ componentsPerVertex < 2 ->
  halts (tryCreateVertexBuffer r vertexCount componentsPerVertex).
Proof.
  intros Hinvalid. unfold halts, tryCreateVertexBuffer, DebugAssert.
  destruct (Z.ltb_spec 0 vertexCount); cbn [bind isDone]; [|reflexivity].
  destruct (Z.leb_spec 2 componentsPerVertex); cbn [bind isDone]; [lia|reflexivity].
Qed.

Lemma tryCreateAttributeBuffer_invalid (r : Renderer D) (vertexCount componentsPerVertex : Z) :
  vertexCount <= 0 \/ componentsPerVertex < 2 ->
  halts (tryCreateAttributeBuffer r vertexCount componentsPerVertex).
Proof.
  intros Hinvalid. unfold halts, tryCreateAttributeBuffer, DebugAssert.
  destruct (Z.ltb_spec 0 vertexCount); cbn [bind isDone]; [|reflexivity].
  destruct (Z.leb_spec 2 componentsPerVertex); cbn [bind isDone]; [lia|reflexivity].
Qed.

Lemma tryCreateIndexBuffer_invalid (r : Renderer D) (indexCount : Z) :
  indexCount <= 0 \/ indexCount mod 3 <> 0 ->
  halts (tryCreateIndexBuffer r indexCount).
Proof.
  intros Hinvalid. unfold halts, tryCreateIndexBuffer, DebugAssert.
  destruct (Z.ltb_spec 0 indexCount); cbn [bind isDone]; [|reflexivity].
  destruct (Z.eqb_spec (indexCount mod 3) 0); cbn [bind isDone]; [lia|reflexivity].
Qed.

Lemma ObjectTexture_init_invalid (width height bytesPerTexel : Z) :
  width <= 0 \/ height <= 0 \/ (bytesPerTexel <> 1 /\ bytesPerTexel <> 4) ->
  halts (@ObjectTexture_init D ops width height bytesPerTexel).
Proof.
  intros Hinvalid. unfold halts, ObjectTexture_init, DebugAssert.
  destruct (Z.ltb_spec 0 width); cbn [bind isDone]; [|reflexivity].
  destruct (Z.ltb_spec 0 height); cbn [bind isDone]; [|reflexivity].
  destruct (Z.ltb_spec 0 bytesPerTexel); cbn [bind isDone]; [|reflexivity].
  destruct (Z.eqb_spec bytesPerTexel 1); [lia|].
  destruct (Z.eqb_spec bytesPerTexel 4); [lia|]. reflexivity.
Qed.

(** [tryCreateObjectTexture] checks the dimensions only after it has taken
    the slot: with invalid dimensions it returns [false] when the pool is
    exhausted and halts otherwise. *)
Lemma tryCreateObjectTexture_invalid (r : Renderer D) (width height bytesPerTexel : Z) :
  Pool.isExhausted (objectTextures r) = false ->
  width <= 0 \/ height <= 0 \/ (bytesPerTexel <> 1 /\ bytesPerTexel <> 4) ->
  halts (tryCreateObjectTexture r width height bytesPerTexel).
Proof.
  intros Hfree Hinvalid. unfold halts, tryCreateObjectTexture.
  destruct (Pool.tryAlloc emptyObjectTexture (objectTextures r)) as [[id pool']|] eqn:Ealloc.
  - pose proof (ObjectTexture_init_invalid width height bytesPerTexel Hinvalid) as Hinit.
    unfold halts in Hinit.
    destruct (ObjectTexture_init width height bytesPerTexel); [discriminate|reflexivity].
  - apply (tryAlloc_exhausted (@emptyObjectTexture D ops)) in Ealloc. congruence.
Qed.

Lemma tryCreateUniformBuffer_invalid (r : Renderer D)
    (elementCount sizeOfElement alignmentOfElement : Z) :
  elementCount < 0 \/ sizeOfElement <= 0 \/ alignmentOfElement <= 0 ->
  halts (tryCreateUniformBuffer r elementCount sizeOfElement alignmentOfElement).
Proof.
  intros Hinvalid. unfold halts, tryCreateUniformBuffer, DebugAssert.
  destruct (Z.leb_spec 0 elementCount); cbn [bind isDone]; [|reflexivity].
  destruct (Z.ltb_spec 0 sizeOfElement); cbn [bind isDone]; [|reflexivity].
  destruct (Z.ltb_spec 0 alignmentOfElement); cbn [bind isDone]; [lia|reflexivity].
Qed.

(** C2, as amended.  A [tryCreate...] call returns exactly when its
    dimensions pass the assertions, and a call that returns, returns
    [false] exactly when the pool it allocates from is exhausted; on [false]
    it hands out no handle, leaves every pool as it was and logs one error,
    on [true] it hands out a handle and logs nothing.  Invalid dimensions
    are not answered with [false]: they halt the call at a [DebugAssert],
    before the allocation in the buffer functions and after it in
    [tryCreateObjectTexture], which therefore still returns [false] from an
    exhausted pool.  An element count of 0 is a valid dimension of a uniform
    buffer; [tryCreateLight] takes no dimensions and always returns. *)
Theorem tryCreate_false_iff_pool_exhausted (r : Renderer D) :
  (forall vertexCount componentsPerVertex,
      (0 < vertexCount /\ 2 <= componentsPerVertex ->
       exists res,
         tryCreateVertexBuffer r vertexCount componentsPerVertex = Done res
         /\ reportsExhaustion r (vertexBuffers r) res)
      /\ (vertexCount <= 0 \/ componentsPerVertex < 2 ->
          halts (tryCreateVertexBuffer r vertexCount componentsPerVertex)))
  /\ (forall vertexCount componentsPerVertex,
      (0 < vertexCount /\ 2 <= componentsPerVertex ->
       exists res,
         tryCreateAttributeBuffer r vertexCount componentsPerVertex = Done res
         /\ reportsExhaustion r (attributeBuffers r) res)
      /\ (vertexCount <= 0 \/ componentsPerVertex < 2 ->
          halts (tryCreateAttributeBuffer r vertexCount componentsPerVertex)))
  /\ (forall indexCount,
      (0 < indexCount /\ indexCount mod 3 = 0 ->
       exists res,
         tryCreateIndexBuffer r indexCount = Done res
         /\ reportsExhaustion r (indexBuffers r) res)
      /\ (indexCount <= 0 \/ indexCount mod 3 <> 0 ->
          halts (tryCreateIndexBuffer r indexCount)))
  /\ (forall width height bytesPerTexel,
      (Pool.isExhausted (objectTextures r) = true
       \/ (0 < width /\ 0 < height /\ (bytesPerTexel = 1 \/ bytesPerTexel = 4)) ->
       exists res,
         tryCreateObjectTexture r width height bytesPerTexel = Done res
         /\ reportsExhaustion r (objectTextures r) res)
      /\ (Pool.isExhausted (objectTextures r) = false ->
          width <= 0 \/ height <= 0 \/ (bytesPerTexel <> 1 /\ bytesPerTexel <> 4) ->
          halts (tryCreateObjectTexture r width height bytesPerTexel)))
  /\ (forall elementCount sizeOfElement alignmentOfElement,
      (0 <= elementCount /\ 0 < sizeOfElement /\ 0 < alignmentOfElement ->
       exists res,
         tryCreateUniformBuffer r elementCount sizeOfElement alignmentOfElement = Done res
         /\ reportsExhaustion r (uniformBuffers r) res)
      /\ (elementCount < 0 \/ sizeOfElement <= 0 \/ alignmentOfElement <= 0 ->
          halts (tryCreateUniformBuffer r elementCount sizeOfElement alignmentOfElement)))
  /\ (exists res, tryCreateLight r = Done res /\ reportsExhaustion r (lights r) res).
Proof.
  repeat apply conj; intros; try split;
    auto using tryCreateVertexBuffer_reports, tryCreateAttributeBuffer_reports,
      tryCreateIndexBuffer_reports, tryCreateObjectTexture_reports,
      tryCreateUniformBuffer_reports, tryCreateLight_reports,
      tryCreateVertexBuffer_invalid, tryCreateAttributeBuffer_invalid,
      tryCreateIndexBuffer_invalid, tryCreateObjectTexture_invalid,
      tryCreateUniformBuffer_invalid.
Qed.

Lemma count_mismatch (n m : nat) :
  n <> m -> negb (Z.of_nat n =? Z.of_nat m) = true.
Proof. intros Hne. apply negb_true_iff, Z.eqb_neq. lia. Qed.

Lemma count_match (n m : nat) :
  n = m -> negb (Z.of_nat n =? Z.of_nat m) = false.
Proof. intros ->. apply negb_false_iff, Z.eqb_refl. Qed.

Lemma populateVertexBuffer_contract (r : Renderer D) (id : Z)
    (buffer : VertexBuffer D) (src : list D) :
  Pool.tryGet (vertexBuffers r) id = Some buffer ->
  (List.length src <> List.length (vertices buffer) ->
   exists r', populateVertexBuffer r id src = Some r'
              /\ refusedWithError r r'
              /\ Pool.tryGet (vertexBuffers r') id = Some buffer)
  /\ (List.length src = List.length (vertices buffer) ->
      exists r', populateVertexBuffer r id src = Some r'
                 /\ slotReplaced (vertexBuffers r) (vertexBuffers r') id
                      (mkVertexBuffer src) r r').
Proof.
  intros Hget. unfold populateVertexBuffer. rewrite Hget. split; intros Hlen.
  - rewrite count_mismatch by assumption. eexists. split; [reflexivity|].
    split; [|exact Hget]. split; [apply samePools_DebugLogError|].
    now eexists _, _.
  - rewrite count_match by assumption. eexists. split; [reflexivity|].
    rewrite std_copy_same_count by assumption.
    repeat split; cbn.
    + now apply (tryGet_set_same _ _ buffer).
    + intros other Hne. now apply tryGet_set_other.
Qed.

Lemma populateAttributeBuffer_contract (r : Renderer D) (id : Z)
    (buffer : AttributeBuffer D) (src : list D) :
  Pool.tryGet (attributeBuffers r) id = Some buffer ->
  (List.length src <> List.length (attributes buffer) ->
   exists r', populateAttributeBuffer r id src = Some r'
              /\ refusedWithError r r'
              /\ Pool.tryGet (attributeBuffers r') id = Some buffer)
  /\ (List.length src = List.length (attributes buffer) ->
      exists r', populateAttributeBuffer r id src = Some r'
                 /\ slotReplaced (attributeBuffers r) (attributeBuffers r') id
                      (mkAttributeBuffer src) r r').
Proof.
  intros Hget. unfold populateAttributeBuffer. rewrite Hget. split; intros Hlen.
  - rewrite count_mismatch by assumption. eexists. split; [reflexivity|].
    split; [|exact Hget]. split; [apply samePools_DebugLogError|].
    now eexists _, _.
  - rewrite count_match by assumption. eexists. split; [reflexivity|].
    rewrite std_copy_same_count by assumption.
    repeat split; cbn.
    + now apply (tryGet_set_same _ _ buffer).
    + intros other Hne. now apply tryGet_set_other.
Qed.

Lemma populateIndexBuffer_contract (r : Renderer D) (id : Z)
    (buffer : IndexBuffer) (src : list Z) :
  Pool.tryGet (indexBuffers r) id = Some buffer ->
  (List.length src <> List.length (indices buffer) ->
   exists r', populateIndexBuffer r id src = Some r'
              /\ refusedWithError r r'
              /\ Pool.tryGet (indexBuffers r') id = Some buffer)
  /\ (List.length src = List.length (indices buffer) ->
      exists r', populateIndexBuffer r id src = Some r'
                 /\ slotReplaced (indexBuffers r) (indexBuffers r') id
                      (mkIndexBuffer src) r r').
Proof.
  intros Hget. unfold populateIndexBuffer. rewrite Hget. split; intros Hlen.
  - rewrite count_mismatch by assumption. eexists. split; [reflexivity|].
    split; [|exact Hget]. split; [apply samePools_DebugLogError|].
    now eexists _, _.
  - rewrite count_match by assumption. eexists. split; [reflexivity|].
    rewrite std_copy_same_count by assumption.
    repeat split; cbn.
    + now apply (tryGet_set_same _ _ buffer).
    + intros other Hne. now apply tryGet_set_other.
Qed.

(** The allocated size of a uniform buffer is its valid byte count, which
    [init] makes the number of bytes it holds. *)
Lemma populateUniformBuffer_contract (r : Renderer D) (id : Z)
    (buffer : UniformBuffer) (data : list Z) :
  Pool.tryGet (uniformBuffers r) id = Some buffer ->
  Z.of_nat (List.length (uniformBytes buffer)) = UniformBuffer_getValidByteCount buffer ->
  (List.length data <> List.length (uniformBytes buffer) ->
   exists r', populateUniformBuffer r id data = Some r'
              /\ refusedWithError r r'
              /\ Pool.tryGet (uniformBuffers r') id = Some buffer)
  /\ (List.length data = List.length (uniformBytes buffer) ->
      exists r', populateUniformBuffer r id data = Some r'
                 /\ slotReplaced (uniformBuffers r) (uniformBuffers r') id
                      (mkUniformBuffer data (elementCount buffer) (sizeOfElement buffer)
                         (alignmentOfElement buffer)) r r').
Proof.
  intros Hget Hvalid. unfold populateUniformBuffer. rewrite Hget, <- Hvalid.
  split; intros Hlen.
  - rewrite count_mismatch by assumption. eexists. split; [reflexivity|].
    split; [|exact Hget]. split; [apply samePools_DebugLogError|].
    now eexists _, _.
  - rewrite count_match by assumption. eexists. split; [reflexivity|].
    rewrite std_copy_same_count by assumption.
    repeat split; cbn.
    + now apply (tryGet_set_same _ _ buffer).
    + intros other Hne. now apply tryGet_set_other.
Qed.

(** C9.  A [populate...] call on a valid handle whose element count differs
    from the allocated count logs an error, copies nothing and leaves the
    buffer (and every pool) as it was; when the counts match, the buffer
    holds exactly the incoming elements, in order. *)
Theorem populate_strict_size_contract (r : Renderer D) (id : Z) :
  (forall (buffer : VertexBuffer D) (src : list D),
      Pool.tryGet (vertexBuffers r) id = Some buffer ->
      (List.length src <> List.length (vertices buffer) ->
       exists r', populateVertexBuffer r id src = Some r'
                  /\ refusedWithError r r'
                  /\ Pool.tryGet (vertexBuffers r') id = Some buffer)
      /\ (List.length src = List.length (vertices buffer) ->
          exists r', populateVertexBuffer r id src = Some r'
                     /\ slotReplaced (vertexBuffers r) (vertexBuffers r') id
                          (mkVertexBuffer src) r r'))
  /\ (forall (buffer : AttributeBuffer D) (src : list D),
      Pool.tryGet (attributeBuffers r) id = Some buffer ->
      (List.length src <> List.length (attributes buffer) ->
       exists r', populateAttributeBuffer r id src = Some r'
                  /\ refusedWithError r r'
                  /\ Pool.tryGet (attributeBuffers r') id = Some buffer)
      /\ (List.length src = List.length (attributes buffer) ->
          exists r', populateAttributeBuffer r id src = Some r'
                     /\ slotReplaced (attributeBuffers r) (attributeBuffers r') id
                          (mkAttributeBuffer src) r r'))
  /\ (forall (buffer : IndexBuffer) (src : list Z),
      Pool.tryGet (indexBuffers r) id = Some buffer ->
      (List.length src <> List.length (indices buffer) ->
       exists r', populateIndexBuffer r id src = Some r'
                  /\ refusedWithError r r'
                  /\ Pool.tryGet (indexBuffers r') id = Some buffer)
      /\ (List.length src = List.length (indices buffer) ->
          exists r', populateIndexBuffer r id src = Some r'
                     /\ slotReplaced (indexBuffers r) (indexBuffers r') id
                          (mkIndexBuffer src) r r'))
  /\ (forall (buffer : UniformBuffer) (data : list Z),
      Pool.tryGet (uniformBuffers r) id = Some buffer ->
      Z.of_nat (List.length (uniformBytes buffer)) = UniformBuffer_getValidByteCount buffer ->
      (List.length data <> List.length (uniformBytes buffer) ->
       exists r', populateUniformBuffer r id data = Some r'
                  /\ refusedWithError r r'
                  /\ Pool.tryGet (uniformBuffers r') id = Some buffer)
      /\ (List.length data = List.length (uniformBytes buffer) ->
          exists r', populateUniformBuffer r id data = Some r'
                     /\ slotReplaced (uniformBuffers r) (uniformBuffers r') id
                          (mkUniformBuffer data (elementCount buffer)
                             (sizeOfElement buffer) (alignmentOfElement buffer)) r r')).
Proof.
  repeat apply conj; intros.
  - now apply populateVertexBuffer_contract.
  - now apply populateAttributeBuffer_contract.
  - now apply populateIndexBuffer_contract.
  - now apply populateUniformBuffer_contract.
Qed.

(** [init] gives a uniform buffer as many bytes as its valid byte count. *)
Lemma UniformBuffer_init_valid (elementCount sizeOfElement alignmentOfElement : Z) :
  0 <= elementCount * sizeOfElement ->
  let buffer := UniformBuffer_init elementCount sizeOfElement alignmentOfElement in
  Z.of_nat (List.length (uniformBytes buffer)) = UniformBuffer_getValidByteCount buffer.
Proof.
  intros Hsize. cbn. unfold UniformBuffer_getValidByteCount. cbn.
  rewrite repeat_length. lia.
Qed.
End ResourceFacts.

(* ------------------------------------------------------------------ *)
(** ** Shading, lighting and resources: the testable properties        *)
(* ------------------------------------------------------------------ *)

Section ShadingClaims.
Import swShader swRender Examples.

(** C1, witness: the one pixel of [alphaTestedDraw] on cleared buffers. *)
Lemma alpha_test_transparent_texel_effects_witness :
  let st := ClearFrameBuffers in
  let st' := exampleShadePixel alphaTestedDraw 0 0 centrePerspective (vec3 0 0 0) st in
  (isAlphaTestedVariant (pixelShaderType alphaTestedDraw) = true
   /\ sampledTexel alphaTestedDraw centrePerspective (pixelFrameBuffer alphaTestedDraw 0 0 st)
      = transparentIndex)
  /\ paletteIndexBuffer st' = paletteIndexBuffer st
  /\ depthBuffer st' = depthBuffer st
  /\ colorBuffer st' = store (colorBuffer st) 0 (opaquePalette 0)
  /\ g_totalColorWrites st' = g_totalColorWrites st + 1.
Proof.
  assert (Hvariant : isAlphaTestedVariant (pixelShaderType alphaTestedDraw) = true)
    by reflexivity.
  assert (Htexel : sampledTexel alphaTestedDraw centrePerspective
                     (pixelFrameBuffer alphaTestedDraw 0 0 ClearFrameBuffers)
                   = transparentIndex) by reflexivity.
  split; [split; [exact Hvariant|exact Htexel]|].
  exact (alpha_test_transparent_texel_effects transparentIndex 1 14 15 158 159 30
           (fun _ => false) alphaTestedDraw 0 0 centrePerspective (vec3 0 0 0)
           ClearFrameBuffers Hvariant Htexel).
Defined.

(** C1, counterexample.  On freshly cleared buffers, the one pixel of a
    draw call with the [AlphaTested] shader samples a transparent texel;
    afterwards the colour buffer entry of the pixel has changed from 0 to
    the palette colour of index 0, and one colour write has been counted. *)
Lemma alpha_test_transparent_texel_still_counted :
  let st := ClearFrameBuffers in
  let st' := exampleShadePixel alphaTestedDraw 0 0 centrePerspective (vec3 0 0 0) st in
  isAlphaTestedVariant (pixelShaderType alphaTestedDraw) = true
  /\ sampledTexel alphaTestedDraw centrePerspective (pixelFrameBuffer alphaTestedDraw 0 0 st)
     = transparentIndex
  /\ colorBuffer st 0 = 0 /\ colorBuffer st' 0 = 4278190080
  /\ g_totalColorWrites st = 0 /\ g_totalColorWrites st' = 1.
Proof. vm_compute. repeat split. Qed.

(** C10, witness: a dithered pixel of [ditheredDraw]. *)
Lemma light_level_stays_in_light_table_witness :
  1 <= lightTableHeight ditheredDraw
  /\ 0 <= pixelLightLevel ditheredDraw 0 0 (vec3 0 5 0) <= 12.
Proof.
  assert (Hheight : 1 <= lightTableHeight ditheredDraw) by (cbn; lia).
  split; [exact Hheight|].
  exact (proj1 (proj2 (light_level_stays_in_light_table ditheredDraw 0 0 (vec3 0 5 0)
                         Hheight))).
Defined.

(** C10, counterexample.  The light table of [narrowTableDraw] has 2 rows
    of 4 texels.  The pixel is lit at level 0, which is inside the table,
    and its texel is 8: the lookup index 8 is past the 8 entries of the
    table, and the shader stores what the array holds there. *)
Lemma light_table_lookup_leaves_narrow_table :
  let ds := narrowTableDraw in
  let lightLevel := pixelLightLevel ds 0 0 (vec3 0 0 0) in
  let texel :=
    sampleTexel (shaderTexture0 ds) (x2 (texelPercent centrePerspective))
      (y2 (texelPercent centrePerspective)) in
  let shadedTexelIndex := texel + (lightLevel * lightTableWidth ds) in
  let st := exampleRasterizePixel ds 0 0 centrePerspective (vec3 0 0 0) ClearFrameBuffers in
  1 <= lightTableHeight ds
  /\ 0 <= lightLevel <= lightTableHeight ds - 1
  /\ texel = 8
  /\ lightTableHeight ds * lightTableWidth ds <= shadedTexelIndex
  /\ paletteIndexBuffer st 0 = lightTableTexels8Bit ds shadedTexelIndex
  /\ paletteIndexBuffer st 0 = 99.
Proof. vm_compute. repeat split; discriminate. Qed.

(** The rows a 13-row light table gives: full intensity selects row 0, no
    intensity row 12, half intensity row 6; classic dithering pushes the
    pixels of its mask one row darker. *)
Lemma lightLevelOf_examples :
  lightLevelOf 13 (double_of_int 13) 1%float = 0
  /\ lightLevelOf 13 (double_of_int 13) 0.5%float = 6
  /\ lightLevelOf 13 (double_of_int 13) 0.0625%float = 12
  /\ lightLevelOf 13 (double_of_int 13) 0%float = 12
  /\ pixelLightLevel ditheredDraw 1 0 (vec3 0 5 0) = 6
  /\ pixelLightLevel ditheredDraw 0 0 (vec3 0 5 0) = 7.
Proof. vm_compute. repeat split. Qed.
End ShadingClaims.

Section LightingClaims.
Import swShader swRender.




(** No binary64 value is both at least 6 and at most 2. *)
Lemma float_ge_6_not_le_2 (d : float) :
  (6 <=? d)%float = true -> (d <=? 2)%float = false.
Proof.
  rewrite !leb_spec.
  replace (Prim2SF 6) with (S754_finite false 6755399441055744 (-50))
    by (vm_compute; reflexivity).
  replace (Prim2SF 2) with (S754_finite false 4503599627370496 (-51))
    by (vm_compute; reflexivity).
  destruct (Prim2SF d) as [s|s| |s m e]; unfold SFleb, SFcompare;
    try destruct s; try discriminate; try reflexivity.
  destruct (Z.compare_spec (-50) e) as [<-|Hlt|Hgt]; try discriminate.
  - intros _. reflexivity.
  - intros _. destruct (Z.compare_spec e (-51)) as [->|Hlt'|Hgt'];
      first [lia | reflexivity].
Qed.

(** Over the reals the ramp between the two radii lies in [0, 1], so the
    clamp leaves it as it is. *)
Lemma lightIntensityAt_ramp_exact (light : Light R) (lightDistance : R) :
  (startRadius light < lightDistance < endRadius light)%R ->
  lightIntensityAt light lightDistance
  = (1 - (lightDistance - startRadius light)
         / (endRadius light - startRadius light))%R.
Proof.
  intros [Hstart Hend]. unfold lightIntensityAt, clamp_double.
  cbn [dleb dltb dsub ddiv d_one d_zero double_real].
  assert (Hwidth : (0 < endRadius light - startRadius light)%R) by lra.
  assert (Hratio : (0 <= (lightDistance - startRadius light)
                         / (endRadius light - startRadius light) <= 1)%R).
  { pose proof (Rinv_0_lt_compat _ Hwidth) as Hinv.
    pose proof (Rinv_r (endRadius light - startRadius light)) as Hone.
    unfold Rdiv. nra. }
  replace (R_leb lightDistance (startRadius light)) with false
    by (symmetry; apply R_leb_false; lra).
  replace (R_leb (endRadius light) lightDistance) with false
    by (symmetry; apply R_leb_false; lra).
  replace (R_ltb _ 0) with false by (symmetry; apply R_ltb_false; lra).
  replace (R_ltb 1 _) with false by (symmetry; apply R_ltb_false; lra).
  reflexivity.
Qed.

(** C7, as amended.  A light contributes exactly 1.0 at a distance that is
    at most its start radius; otherwise exactly 0.0 at a distance that is at
    least its end radius; otherwise the linear ramp
    [1 - (distance - startRadius) / (endRadius - startRadius)], clamped to
    [0, 1] (in exact arithmetic the clamp changes nothing between the two
    radii).  With start radius 2 and end radius 6 this is 1.0 at every
    distance up to 2, 0.0 at every distance from 6 on, and exactly 0.5 at
    distance 4.  The sum of the ambient term and the lights' intensities is
    set to exactly 1.0, and the loop left, as soon as it reaches 1.0 after a
    light has been added. *)
Theorem light_falloff_piecewise :
  (forall (D : Type) (ops : DoubleOps D) (light : Light D) (lightDistance : D),
      ((lightDistance <=? startRadius light)%D = true ->
       lightIntensityAt light lightDistance = d_one)
      /\ ((lightDistance <=? startRadius light)%D = false ->
          (lightDistance >=? endRadius light)%D = true ->
          lightIntensityAt light lightDistance = d_zero)
      /\ ((lightDistance <=? startRadius light)%D = false ->
          (lightDistance >=? endRadius light)%D = false ->
          lightIntensityAt light lightDistance
          = clamp_double
              (d_one - ((lightDistance - startRadius light)
                        / (endRadius light - startRadius light)))%D d_zero d_one))
  /\ (forall (worldPoint : Double3 float) (lightDistance : float),
      let light := mkLight worldPoint 2%float 6%float in
      ((lightDistance <=? 2)%float = true -> lightIntensityAt light lightDistance = 1%float)
      /\ ((6 <=? lightDistance)%float = true -> lightIntensityAt light lightDistance = 0%float)
      /\ lightIntensityAt light 4%float = 0.5%float)
  /\ (forall (light : Light R) (lightDistance : R),
      (startRadius light < lightDistance < endRadius light)%R ->
      lightIntensityAt light lightDistance
      = (1 - (lightDistance - startRadius light)
             / (endRadius light - startRadius light))%R)
  /\ (forall (D : Type) (ops : DoubleOps D) (lights : list (Light D))
             (shaderWorldSpacePointXYZ : Double3 D) (ambientPercent : D),
      lights <> [] ->
      addLightIntensities lights shaderWorldSpacePointXYZ ambientPercent = d_one
      \/ (addLightIntensities lights shaderWorldSpacePointXYZ ambientPercent >=? d_one)%D
         = false)
  /\ (forall (D : Type) (ops : DoubleOps D) (light : Light D) (rest : list (Light D))
             (shaderWorldSpacePointXYZ : Double3 D) (lightIntensitySum : D),
      ((lightIntensitySum
        + lightIntensityAt light
            (length3 (sub3 (worldPoint light) shaderWorldSpacePointXYZ)))%D
       >=? d_one)%D = true ->
      addLightIntensities (light :: rest) shaderWorldSpacePointXYZ lightIntensitySum
      = d_one).
Proof.
  split; [|split; [|split; [|split]]].
  - intros D ops light lightDistance. apply lightIntensityAt_cases.
  - intros worldPoint lightDistance light. split; [|split].
    + intros Hnear. unfold lightIntensityAt, light. cbn [startRadius].
      change (@dleb float double_float) with PrimFloat.leb. now rewrite Hnear.
    + intros Hfar. unfold lightIntensityAt, light. cbn [startRadius endRadius].
      change (@dleb float double_float) with PrimFloat.leb.
      now rewrite (float_ge_6_not_le_2 lightDistance Hfar), Hfar.
    + reflexivity.
  - intros light lightDistance Hbetween. apply lightIntensityAt_ramp_exact. exact Hbetween.
  - intros D ops lights point sum. apply addLightIntensities_clamped.
  - intros D ops light rest point sum. apply addLightIntensities_early_exit.
Qed.

(** C7, witness: [light_2_6] contributes 1.0 at distance 1 and 0.0 at
    distance 7; over the reals the same light contributes
    [1 - (4 - 2) / (6 - 2)] at distance 4; and with an ambient term of 0.25
    the sum at distance 1 is 1.0. *)
Lemma light_falloff_piecewise_witness :
  ((1 <=? 2)%float = true /\ lightIntensityAt Examples.light_2_6 1%float = 1%float)
  /\ ((6 <=? 7)%float = true /\ lightIntensityAt Examples.light_2_6 7%float = 0%float)
  /\ ((2 < 4 < 6)%R
      /\ lightIntensityAt (mkLight (mkDouble3 0 0 0) 2 6)%R 4%R
         = (1 - (4 - 2) / (6 - 2))%R)
  /\ (((0.25%float + lightIntensityAt Examples.light_2_6
                       (length3 (sub3 (worldPoint Examples.light_2_6)
                                   (Examples.vec3 0 1 0))))%D
       >=? d_one)%D = true
      /\ addLightIntensities [Examples.light_2_6] (Examples.vec3 0 1 0) 0.25%float
         = 1%float).
Proof.
  assert (Hnear : (1 <=? 2)%float = true) by reflexivity.
  assert (Hfar : (6 <=? 7)%float = true) by reflexivity.
  assert (Hbetween : (2 < 4 < 6)%R) by lra.
  assert (Hsum : ((0.25%float + lightIntensityAt Examples.light_2_6
                                 (length3 (sub3 (worldPoint Examples.light_2_6)
                                             (Examples.vec3 0 1 0))))%D
                  >=? d_one)%D = true) by reflexivity.
  split; [split; [exact Hnear|] | split; [split; [exact Hfar|] | split]].
  3: split; [exact Hbetween|].
  4: split; [exact Hsum|].
  - exact (proj1 (proj1 (proj2 light_falloff_piecewise) (Examples.vec3 0 0 0) 1%float) Hnear).
  - exact (proj1 (proj2 (proj1 (proj2 light_falloff_piecewise) (Examples.vec3 0 0 0) 7%float))
             Hfar).
  - exact (proj1 (proj2 (proj2 light_falloff_piecewise))
             (mkLight (mkDouble3 0 0 0) 2 6)%R 4%R Hbetween).
  - exact (proj2 (proj2 (proj2 (proj2 light_falloff_piecewise))) float double_float
             Examples.light_2_6 [] (Examples.vec3 0 1 0) 0.25%float Hsum).
Defined.

(** C7, counterexample.  A light whose start and end radius are both 2
    contributes 1.0, not 0.0, at distance 2, although that distance is at
    least the end radius: the test against the start radius comes first. *)
Lemma light_falloff_equal_radii :
  (2%float >=? endRadius Examples.light_2_2)%D = true
  /\ lightIntensityAt Examples.light_2_2 2%float = 1%float
  /\ lightIntensityAt Examples.light_2_2 2%float <> 0%float.
Proof.
  split; [reflexivity|]. split; [reflexivity|].
  apply float_neq; reflexivity.
Qed.

(** The sum is not clamped when there is no light to add: an ambient term
    above 1.0 comes back as it is. *)
Lemma addLightIntensities_no_light :
  addLightIntensities [] (Examples.vec3 0 0 0) 1.5%float = 1.5%float.
Proof. reflexivity. Qed.
End LightingClaims.

Section ResourceClaims.
Import SoftwareRenderer Examples.

(** C2, witness: a vertex buffer requested from a full and from a fresh
    pool, and a uniform buffer of no element. *)
Lemma tryCreate_false_iff_pool_exhausted_witness :
  (exists res,
      tryCreateVertexBuffer fullRenderer 3 3 = Done res
      /\ reportsExhaustion fullRenderer (vertexBuffers fullRenderer) res
      /\ returned res = false
      /\ debugLog (rendererAfter res)
         = [mkLogEntry LogError "Couldn't allocate vertex buffer ID." []])
  /\ (exists res,
         tryCreateVertexBuffer freshRenderer 3 3 = Done res
         /\ reportsExhaustion freshRenderer (vertexBuffers freshRenderer) res
         /\ returned res = true /\ outID res = Some 0)
  /\ (exists res,
         tryCreateUniformBuffer freshRenderer 0 4 4 = Done res
         /\ reportsExhaustion freshRenderer (uniformBuffers freshRenderer) res
         /\ returned res = true).
Proof.
  assert (Hthree : 0 < 3 /\ 2 <= 3) by lia.
  assert (Hnone : 0 <= 0 /\ 0 < 4 /\ 0 < 4) by lia.
  split; [|split].
  - destruct (proj1 (proj1 (tryCreate_false_iff_pool_exhausted fullRenderer) 3 3) Hthree)
      as (res & Hrun & Hreports).
    exists res. split; [exact Hrun|]. split; [exact Hreports|].
    assert (Hvalue : tryCreateVertexBuffer fullRenderer 3 3
                     = Done (mkCreateResult false None
                               (DebugLogError fullRenderer
                                  "Couldn't allocate vertex buffer ID." [])))
      by reflexivity.
    rewrite Hvalue in Hrun. injection Hrun as <-. split; reflexivity.
  - destruct (proj1 (proj1 (tryCreate_false_iff_pool_exhausted freshRenderer) 3 3) Hthree)
      as (res & Hrun & Hreports).
    exists res. split; [exact Hrun|]. split; [exact Hreports|].
    assert (Hfree : Pool.isExhausted (vertexBuffers freshRenderer) = false) by reflexivity.
    destruct (returned res) eqn:Hreturned.
    + split; [reflexivity|].
      assert (Hvalue : exists r', tryCreateVertexBuffer freshRenderer 3 3
                                  = Done (mkCreateResult true (Some 0) r'))
        by (eexists; reflexivity).
      destruct Hvalue as (r' & Hvalue). rewrite Hvalue in Hrun.
      injection Hrun as <-. reflexivity.
    + apply (proj1 Hreports) in Hreturned. congruence.
  - destruct (proj1 (proj1 (proj2 (proj2 (proj2 (proj2
               (tryCreate_false_iff_pool_exhausted freshRenderer))))) 0 4 4) Hnone)
      as (res & Hrun & Hreports).
    exists res. split; [exact Hrun|]. split; [exact Hreports|].
    assert (Hfree : Pool.isExhausted (uniformBuffers freshRenderer) = false) by reflexivity.
    destruct (returned res) eqn:Hreturned; [reflexivity|].
    apply (proj1 Hreports) in Hreturned. congruence.
Defined.

(** C2, counterexample.  With free slots in every pool: a uniform buffer of
    zero elements is created and [true] returned; a vertex count of zero, an
    index count that is not a multiple of 3 and a zero texture width halt
    the call instead of returning [false]. *)
Lemma tryCreate_invalid_dimensions_not_false :
  (exists res,
      tryCreateUniformBuffer freshRenderer 0 4 4 = Done res
      /\ returned res = true /\ outID res = Some 0)
  /\ tryCreateVertexBuffer freshRenderer 0 3 = Halted "vertexCount > 0"
  /\ tryCreateIndexBuffer freshRenderer 4 = Halted "(indexCount % 3) == 0"
  /\ tryCreateObjectTexture freshRenderer 0 16 1 = Halted "width > 0".
Proof.
  split; [eexists; split; [reflexivity|split; reflexivity]|].
  repeat split.
Qed.

(** C9, witness: two and three values offered to a vertex buffer of three. *)
Lemma populate_strict_size_contract_witness :
  (exists r',
      populateVertexBuffer populatedRenderer 0 [4; 5]%float = Some r'
      /\ refusedWithError populatedRenderer r'
      /\ Pool.tryGet (vertexBuffers r') 0 = Some (mkVertexBuffer [1; 2; 3]%float))
  /\ (exists r',
         populateVertexBuffer populatedRenderer 0 [4; 5; 6]%float = Some r'
         /\ slotReplaced (vertexBuffers populatedRenderer) (vertexBuffers r') 0
              (mkVertexBuffer [4; 5; 6]%float) populatedRenderer r').
Proof.
  assert (Hget : Pool.tryGet (vertexBuffers populatedRenderer) 0
                 = Some (mkVertexBuffer [1; 2; 3]%float)) by reflexivity.
  pose proof (proj1 (populate_strict_size_contract populatedRenderer 0)) as Hcontract.
  split.
  - apply (proj1 (Hcontract _ [4; 5]%float Hget)). cbn. lia.
  - apply (proj2 (Hcontract _ [4; 5; 6]%float Hget)). reflexivity.
Defined.
End ResourceClaims.

(* ------------------------------------------------------------------ *)
(** ** The clip list: what a completed pass guarantees                 *)
(* ------------------------------------------------------------------ *)

Lemma slice_cons {A : Type} (a : Z -> A) (first : Z) (count : nat) :
  slice a first (S count) = a first :: slice a (first + 1) count.
Proof.
  unfold slice. cbn [seq map]. rewrite Z.add_0_r. f_equal.
  rewrite <- seq_shift, map_map. apply map_ext. intros k. f_equal. lia.
Qed.

Lemma slice_length {A : Type} (a : Z -> A) (first : Z) (count : nat) :
  List.length (slice a first count) = count.
Proof. unfold slice. now rewrite length_map, length_seq. Qed.

Lemma slice_In {A : Type} (a : Z -> A) (first : Z) (count : nat) (j : Z) :
  first <= j < first + Z.of_nat count -> In (a j) (slice a first count).
Proof.
  intros Hj. unfold slice. apply in_map_iff. exists (Z.to_nat (j - first)). split.
  - f_equal. lia.
  - apply in_seq. lia.
Qed.

Lemma In_slice {A : Type} (a : Z -> A) (first : Z) (count : nat) (x : A) :
  In x (slice a first count) ->
  exists j, first <= j < first + Z.of_nat count /\ a j = x.
Proof.
  unfold slice. intros Hin. apply in_map_iff in Hin as (k & <- & Hk).
  apply in_seq in Hk. exists (first + Z.of_nat k). split; [lia|reflexivity].
Qed.

Lemma slice_ext {A : Type} (a b : Z -> A) (first : Z) (count : nat) :
  (forall j, first <= j < first + Z.of_nat count -> b j = a j) ->
  slice b first count = slice a first count.
Proof.
  intros Hsame. unfold slice. apply map_ext_in. intros k Hk.
  apply in_seq in Hk. apply Hsame. lia.
Qed.

Lemma slice_app {A : Type} (a : Z -> A) (first : Z) (n m : nat) :
  slice a first (n + m) = slice a first n ++ slice a (first + Z.of_nat n) m.
Proof.
  revert first. induction n as [|n IH]; intros first.
  - cbn [Nat.add]. unfold slice at 2. cbn. now rewrite Z.add_0_r.
  - cbn [Nat.add]. rewrite !slice_cons, IH. cbn [app].
    replace (first + Z.of_nat (S n)) with (first + 1 + Z.of_nat n) by lia. reflexivity.
Qed.

Section ClipWorkList.
Import swGeometry.
Context {D : Type} {ops : DoubleOps D}.

Lemma copyClipResults_inv (a a' : Z -> ClipSpaceTriangle D) (s i : Z)
    (results : list (ClipSpaceTriangle D)) :
  copyClipResults a s i results = Done a' ->
  (forall j, j < s + i -> a' j = a j)
  /\ slice a' (s + i) (List.length results) = results
  /\ (results <> [] ->
      s + i + Z.of_nat (List.length results) <= MAX_CLIPPED_TRIANGLE_TRIANGLES).
Proof.
  revert a i. induction results as [|r rest IH]; intros a i.
  - cbn. intros [= <-]. repeat split; congruence.
  - cbn [copyClipResults]. unfold DebugAssert.
    destruct (Z.ltb_spec (s + i) MAX_CLIPPED_TRIANGLE_TRIANGLES) as [Hlt|Hge];
      [|discriminate].
    cbn [bind]. intros Hrun. apply IH in Hrun as (Hold & Hnew & Hcap).
    split; [|split].
    + intros j Hj. rewrite Hold by lia. apply store_other. lia.
    + cbn [List.length]. rewrite slice_cons.
      replace (s + i + 1) with (s + (i + 1)) by lia. rewrite Hnew.
      f_equal. rewrite Hold by lia. apply store_same.
    + intros _. cbn [List.length]. destruct rest as [|r' rest'].
      * cbn. lia.
      * assert (r' :: rest' <> []) as Hne by discriminate.
        specialize (Hcap Hne). lia.
Qed.

Lemma clipFrontTriangle_inv (q : Z) (l l' : ClipList D) :
  clipFrontTriangle q l = Done l' ->
  let results :=
    clipTriangleAgainstPlane (g_clipSpaceTriangles l (clipListFrontIndex l)) q in
  clipListFrontIndex l < MAX_CLIPPED_TRIANGLE_TRIANGLES
  /\ clipListFrontIndex l' = clipListFrontIndex l + 1
  /\ clipListSize l' = clipListSize l + Z.of_nat (List.length results)
  /\ (forall j, j < clipListSize l ->
      g_clipSpaceTriangles l' j = g_clipSpaceTriangles l j)
  /\ slice (g_clipSpaceTriangles l') (clipListSize l) (List.length results) = results
  /\ (results <> [] -> clipListSize l' <= MAX_CLIPPED_TRIANGLE_TRIANGLES).
Proof.
  unfold clipFrontTriangle, DebugAssert.
  destruct (Z.ltb_spec (clipListFrontIndex l) MAX_CLIPPED_TRIANGLE_TRIANGLES)
    as [Hlt|Hge]; [|discriminate].
  cbn [bind].
  fold (clipTriangleAgainstPlane (g_clipSpaceTriangles l (clipListFrontIndex l)) q).
  destruct (copyClipResults _ _ _ _) as [a'|message] eqn:Hcopy; [|discriminate].
  cbn [bind]. intros [= <-]. cbv zeta.
  apply copyClipResults_inv in Hcopy as (Hold & Hnew & Hcap).
  rewrite Z.add_0_r in Hold, Hnew, Hcap.
  cbn [clipListFrontIndex clipListSize g_clipSpaceTriangles].
  repeat split; try assumption; try reflexivity.
Qed.

(** The loop over [triangleToClip], started with [n] triangles to clip that
    lie below [s0] and satisfy [P]: when it completes, the entries from
    [s0] on satisfy [Q], a property every result of clipping a [P] triangle
    against the plane has. *)
Lemma clipTriangles_inv (P Q : ClipSpaceTriangle D -> Prop) (q : Z) (n : nat) (s0 : Z)
    (l l' : ClipList D) :
  (forall t out, P t -> In out (clipTriangleAgainstPlane t q) -> Q out) ->
  clipListFrontIndex l + Z.of_nat n <= s0 <= clipListSize l ->
  (forall i, clipListFrontIndex l <= i < s0 -> P (g_clipSpaceTriangles l i)) ->
  (forall i, s0 <= i < clipListSize l -> Q (g_clipSpaceTriangles l i)) ->
  clipTriangles q n l = Done l' ->
  clipListFrontIndex l' = clipListFrontIndex l + Z.of_nat n
  /\ clipListSize l <= clipListSize l' <= clipListSize l + 2 * Z.of_nat n
  /\ (clipListSize l <= MAX_CLIPPED_TRIANGLE_TRIANGLES ->
      clipListSize l' <= MAX_CLIPPED_TRIANGLE_TRIANGLES)
  /\ (forall j, j < clipListSize l ->
      g_clipSpaceTriangles l' j = g_clipSpaceTriangles l j)
  /\ (forall i, s0 <= i < clipListSize l' -> Q (g_clipSpaceTriangles l' i)).
Proof.
  intros Hrel. revert l. induction n as [|n IH]; intros l Hn HP HQ.
  - cbn. intros [= <-]. repeat split; try lia; auto.
  - cbn [clipTriangles].
    destruct (clipFrontTriangle q l) as [l1|message] eqn:Hfront; [|discriminate].
    cbn [bind]. intros Hrun.
    apply clipFrontTriangle_inv in Hfront. cbv zeta in Hfront.
    destruct Hfront as (_ & Hf1 & Hs1 & Hold1 & Hnew1 & Hcap1).
    set (results := clipTriangleAgainstPlane
                      (g_clipSpaceTriangles l (clipListFrontIndex l)) q) in *.
    pose proof (clip_result_count q (g_clipSpaceTriangles l (clipListFrontIndex l)))
      as Hcount. fold results in Hcount.
    apply IH in Hrun as (Hf & Hs & Hcap & Hold & HQ').
    + repeat split; try lia.
      * intros Hle. apply Hcap. destruct results; [cbn in Hs1; lia|].
        apply Hcap1. discriminate.
      * intros j Hj. rewrite Hold by lia. apply Hold1. lia.
      * assumption.
    + lia.
    + intros i Hi. rewrite Hold1 by lia. apply HP. lia.
    + intros i Hi. destruct (Z.lt_ge_cases i (clipListSize l)) as [Hlt|Hge].
      * rewrite Hold1 by lia. apply HQ. lia.
      * apply (Hrel (g_clipSpaceTriangles l (clipListFrontIndex l))).
        -- apply HP. lia.
        -- fold results. rewrite <- Hnew1. apply slice_In. lia.
Qed.

Lemma clipAgainstPlane_inv (P Q : ClipSpaceTriangle D -> Prop) (q : Z)
    (l l' : ClipList D) :
  (forall t out, P t -> In out (clipTriangleAgainstPlane t q) -> Q out) ->
  0 <= clipListFrontIndex l <= clipListSize l ->
  pendingAll P l ->
  clipAgainstPlane q l = Done l' ->
  clipListFrontIndex l' = clipListSize l
  /\ clipListSize l <= clipListSize l'
     <= clipListSize l + 2 * (clipListSize l - clipListFrontIndex l)
  /\ (clipListSize l <= MAX_CLIPPED_TRIANGLE_TRIANGLES ->
      clipListSize l' <= MAX_CLIPPED_TRIANGLE_TRIANGLES)
  /\ (forall j, j < clipListSize l ->
      g_clipSpaceTriangles l' j = g_clipSpaceTriangles l j)
  /\ pendingAll Q l'.
Proof.
  intros Hrel Hfront HP. unfold clipAgainstPlane. intros Hrun.
  apply (clipTriangles_inv P Q q _ (clipListSize l)) in Hrun
    as (Hf & Hs & Hcap & Hold & HQ); try assumption; try lia.
  repeat split; try lia; try assumption.
  intros i Hi. apply HQ. lia.
Qed.
End ClipWorkList.

Section ClipOutcomes.
Import swGeometry.
Context {D : Type} {ops : DoubleOps D}.

Lemma clipAgainstPlanes_app (planes planes' : list Z) (l : ClipList D) :
  clipAgainstPlanes (planes ++ planes') l
  = bind (clipAgainstPlanes planes l) (clipAgainstPlanes planes').
Proof.
  revert l. induction planes as [|q rest IH]; intros l; [reflexivity|].
  cbn [app clipAgainstPlanes].
  destruct (clipAgainstPlane q l) as [l1|message]; cbn [bind]; [apply IH|reflexivity].
Qed.

Ltac clip_any_plane :=
  match goal with
  | |- context [clipAgainstPlane ?q ?l] =>
      let l' := fresh "l" in
      let Hrun := fresh "Hrun" in
      let Hf := fresh "Hf" in
      let Hs := fresh "Hs" in
      destruct (clipAgainstPlane_preserves (fun _ => True) q l)
        as (l' & Hrun & Hf & Hs & _);
      [ cbn [clipListFrontIndex clipListSize]; lia
      | unfold MAX_CLIPPED_TRIANGLE_TRIANGLES; cbn [clipListFrontIndex clipListSize]; lia
      | trivial
      | intros ? ?; exact I
      | rewrite Hrun; cbn [bind]; cbn [clipListFrontIndex clipListSize] in Hf, Hs;
        clear Hrun ]
  end.

(** The first five planes: at most 1, 2, 4, 8 and 16 triangles are clipped,
    so the list cannot outgrow the arrays. *)
Lemma clipAgainstPlanes_first_five (scratch : Z -> ClipSpaceTriangle D)
    (t : ClipSpaceTriangle D) :
  exists l,
    clipAgainstPlanes [0; 1; 2; 3; 4] (mkClipList (store scratch 0 t) 1 0) = Done l
    /\ 1 <= clipListFrontIndex l <= clipListSize l
    /\ clipListSize l <= 63
    /\ clipListSize l - clipListFrontIndex l <= 32.
Proof.
  cbn [clipAgainstPlanes].
  do 5 clip_any_plane.
  eexists. split; [reflexivity|]. lia.
Qed.

Lemma copyClipResults_outcome (a : Z -> ClipSpaceTriangle D) (s i : Z)
    (results : list (ClipSpaceTriangle D)) :
  (exists a', copyClipResults a s i results = Done a')
  \/ copyClipResults a s i results
     = Halted "clipResultWriteIndex < MAX_CLIPPED_TRIANGLE_TRIANGLES".
Proof.
  revert a i. induction results as [|r rest IH]; intros a i.
  - left. now exists a.
  - cbn [copyClipResults]. unfold DebugAssert.
    destruct (s + i <? MAX_CLIPPED_TRIANGLE_TRIANGLES); cbn [bind]; [apply IH|now right].
Qed.

Lemma clipTriangles_outcome (q : Z) (n : nat) (l : ClipList D) :
  0 <= clipListFrontIndex l ->
  clipListFrontIndex l + Z.of_nat n <= clipListSize l ->
  clipListSize l <= MAX_CLIPPED_TRIANGLE_TRIANGLES ->
  (exists l', clipTriangles q n l = Done l')
  \/ clipTriangles q n l = Halted "clipResultWriteIndex < MAX_CLIPPED_TRIANGLE_TRIANGLES".
Proof.
  revert l. induction n as [|n IH]; intros l Hfront Hn Hcap.
  - left. now exists l.
  - cbn [clipTriangles].
    destruct (clipFrontTriangle q l) as [l1|message] eqn:Hstep; cbn [bind].
    + apply clipFrontTriangle_inv in Hstep. cbv zeta in Hstep.
      destruct Hstep as (_ & Hf1 & Hs1 & _ & _ & Hcap1).
      apply IH; try lia.
      destruct (clipTriangleAgainstPlane _ q) as [|r rest] eqn:Hresults.
      * cbn in Hs1. lia.
      * apply Hcap1. discriminate.
    + right. f_equal. revert Hstep. unfold clipFrontTriangle, DebugAssert.
      replace (clipListFrontIndex l <? MAX_CLIPPED_TRIANGLE_TRIANGLES) with true
        by (symmetry; apply Z.ltb_lt; lia).
      cbn [bind].
      destruct (copyClipResults_outcome (g_clipSpaceTriangles l) (clipListSize l) 0
                  (ProcessClipSpaceTriangle
                     (tv0 (g_clipSpaceTriangles l (clipListFrontIndex l)))
                     (tv1 (g_clipSpaceTriangles l (clipListFrontIndex l)))
                     (tv2 (g_clipSpaceTriangles l (clipListFrontIndex l)))
                     (tuv0 (g_clipSpaceTriangles l (clipListFrontIndex l)))
                     (tuv1 (g_clipSpaceTriangles l (clipListFrontIndex l)))
                     (tuv2 (g_clipSpaceTriangles l (clipListFrontIndex l))) q))
        as [(a' & ->)| ->]; cbn [bind]; congruence.
Qed.

(** *** Two runs of the loop on arrays that differ only beyond the list *)

Lemma sameOutcome_weaken {A : Type} (R R' : A -> A -> Prop) (m m' : outcome A) :
  (forall a a', R a a' -> R' a a') -> sameOutcome R m m' -> sameOutcome R' m m'.
Proof. intros Himpl. destruct m, m'; cbn; auto. Qed.

Lemma sameOutcome_bind {A B : Type} (R : A -> A -> Prop) (R' : B -> B -> Prop)
    (m m' : outcome A) (k k' : A -> outcome B) :
  sameOutcome R m m' ->
  (forall a a', R a a' -> sameOutcome R' (k a) (k' a')) ->
  sameOutcome R' (bind m k) (bind m' k').
Proof. destruct m, m'; cbn; intros Hm Hk; auto; contradiction. Qed.

Lemma copyClipResults_same (a b : Z -> ClipSpaceTriangle D) (s i : Z)
    (results : list (ClipSpaceTriangle D)) :
  (forall j, 0 <= j < s + i -> b j = a j) ->
  sameOutcome
    (fun a' b' =>
       forall j, 0 <= j < s + i + Z.of_nat (List.length results) -> b' j = a' j)
    (copyClipResults a s i results) (copyClipResults b s i results).
Proof.
  revert a b i. induction results as [|r rest IH]; intros a b i Hsame.
  - cbn. intros j Hj. apply Hsame. lia.
  - cbn [copyClipResults]. unfold DebugAssert.
    destruct (s + i <? MAX_CLIPPED_TRIANGLE_TRIANGLES); cbn [bind]; [|reflexivity].
    eapply sameOutcome_weaken; [|apply IH].
    + cbn beta. intros a' b' Hrel j Hj. apply Hrel. cbn [List.length] in Hj. lia.
    + intros j Hj. unfold store. destruct (j =? s + i) eqn:E; [reflexivity|].
      apply Hsame. apply Z.eqb_neq in E. lia.
Qed.

Lemma clipFrontTriangle_same (q : Z) (l l' : ClipList D) :
  sameClipList l l' -> clipListFrontIndex l < clipListSize l ->
  sameOutcome sameClipList (clipFrontTriangle q l) (clipFrontTriangle q l').
Proof.
  intros (Hsize & Hfront & Hrange & Hsame) Hpending.
  unfold clipFrontTriangle. rewrite Hsize, Hfront, (Hsame (clipListFrontIndex l)) by lia.
  unfold DebugAssert.
  destruct (clipListFrontIndex l <? MAX_CLIPPED_TRIANGLE_TRIANGLES); cbn [bind];
    [|reflexivity].
  eapply sameOutcome_bind.
  - apply copyClipResults_same. intros j Hj. apply Hsame. lia.
  - cbn beta. intros a' b' Hrel. cbn.
    unfold sameClipList. cbn [clipListSize clipListFrontIndex g_clipSpaceTriangles].
    repeat split; try lia. intros j Hj. apply Hrel. lia.
Qed.

Lemma clipTriangles_same (q : Z) (n : nat) (l l' : ClipList D) :
  sameClipList l l' ->
  clipListFrontIndex l + Z.of_nat n <= clipListSize l ->
  sameOutcome sameClipList (clipTriangles q n l) (clipTriangles q n l').
Proof.
  revert l l'. induction n as [|n IH]; intros l l' Hsame Hn; [exact Hsame|].
  cbn [clipTriangles].
  pose proof (clipFrontTriangle_same q l l' Hsame) as Hstep.
  destruct (clipFrontTriangle q l) as [l1|message] eqn:Hrun,
           (clipFrontTriangle q l') as [l1'|message'];
    cbn [bind]; cbn in Hstep;
    try (apply Hstep; lia); try (exfalso; apply Hstep; lia).
  apply IH; [apply Hstep; lia|].
  apply clipFrontTriangle_inv in Hrun. cbv zeta in Hrun. lia.
Qed.

Lemma clipAgainstPlanes_same (planes : list Z) (l l' : ClipList D) :
  sameClipList l l' ->
  sameOutcome sameClipList (clipAgainstPlanes planes l) (clipAgainstPlanes planes l').
Proof.
  revert l l'. induction planes as [|q rest IH]; intros l l' Hsame; [exact Hsame|].
  cbn [clipAgainstPlanes]. eapply sameOutcome_bind; [|exact IH].
  unfold clipAgainstPlane.
  destruct Hsame as (Hsize & Hfront & Hrange & Hsame).
  rewrite Hsize, Hfront.
  apply clipTriangles_same; [now repeat split|lia].
Qed.

(** What the arrays held before a triangle is clipped has no influence on
    the triangles passed on, nor on whether the pass completes. *)
Lemma clippedTriangles_scratch (scratch scratch' : Z -> ClipSpaceTriangle D)
    (t : ClipSpaceTriangle D) :
  clippedTriangles scratch' t = clippedTriangles scratch t.
Proof.
  unfold clippedTriangles, clipShadedTriangle.
  pose proof (clipAgainstPlanes_same clipPlaneIndices
                (mkClipList (store scratch 0 t) 1 0)
                (mkClipList (store scratch' 0 t) 1 0)) as Hsame.
  destruct (clipAgainstPlanes clipPlaneIndices (mkClipList (store scratch 0 t) 1 0))
    as [l|message],
    (clipAgainstPlanes clipPlaneIndices (mkClipList (store scratch' 0 t) 1 0))
    as [l'|message']; cbn in Hsame |- *.
  - destruct Hsame as (Hsize & Hfront & Hrange & Hsame).
    + unfold sameClipList. cbn [clipListSize clipListFrontIndex g_clipSpaceTriangles].
      repeat split; try lia. intros i Hi. replace i with 0 by lia.
      now rewrite !store_same.
    + f_equal. unfold resultTriangles. rewrite Hsize, Hfront.
      apply slice_ext. intros j Hj. apply Hsame. lia.
  - exfalso. apply Hsame. unfold sameClipList.
    cbn [clipListSize clipListFrontIndex g_clipSpaceTriangles].
    repeat split; try lia. intros i Hi. replace i with 0 by lia. now rewrite !store_same.
  - exfalso. apply Hsame. unfold sameClipList.
    cbn [clipListSize clipListFrontIndex g_clipSpaceTriangles].
    repeat split; try lia. intros i Hi. replace i with 0 by lia. now rewrite !store_same.
  - f_equal. symmetry. apply Hsame. unfold sameClipList.
    cbn [clipListSize clipListFrontIndex g_clipSpaceTriangles].
    repeat split; try lia. intros i Hi. replace i with 0 by lia. now rewrite !store_same.
Qed.
End ClipOutcomes.

Section ExactFrustum.
Import swGeometry.
#[local] Open Scope R_scope.

Lemma convex_nonneg (da db T : R) :
  0 <= T <= 1 -> 0 <= da -> 0 <= db -> 0 <= da + (db - da) * T.
Proof.
  intros HT Ha Hb. replace (da + (db - da) * T) with ((1 - T) * da + T * db) by ring.
  apply Rplus_le_le_0_compat; apply Rmult_le_pos; lra.
Qed.

Lemma convex_nonpos (da db T : R) :
  0 <= T <= 1 -> da <= 0 -> db <= 0 -> da + (db - da) * T <= 0.
Proof.
  intros HT Ha Hb. pose proof (convex_nonneg (- da) (- db) T HT). lra.
Qed.

(** Over the reals a point interpolated between two points inside a plane
    is inside that plane. *)
Lemma lerp4_inside (p : Z) (a b : Double4 R) (T : R) :
  0 <= T <= 1 ->
  isVertexInside p a = true -> isVertexInside p b = true ->
  isVertexInside p (lerp4 a b T) = true.
Proof.
  intros HT. unfold isVertexInside.
  destruct (planeDiff p a) as [da|] eqn:Ea; [|discriminate].
  destruct (planeDiff_index p a da Ea) as [-> | [-> | [-> | [-> | [-> | ->]]]]];
    cbn; rewrite !R_leb_true; intros Ha Hb;
    cbn in Ea; injection Ea as <-;
    match goal with
    | Ha : 0 <= ?x, Hb : 0 <= ?y |- 0 <= ?e =>
        replace e with (x + (y - x) * T) by ring; now apply convex_nonneg
    | Ha : ?x <= 0, Hb : ?y <= 0 |- ?e <= 0 =>
        replace e with (x + (y - x) * T) by ring; now apply convex_nonpos
    end.
Qed.

(** Over the reals the point the clipper interpolates between a vertex on
    one side of a plane and a vertex on the other side lies on the plane. *)
Lemma lerp4_on_plane (q : Z) (a b : Double4 R) (da db : R) :
  planeDiff q a = Some da -> planeDiff q b = Some db -> da <> db ->
  isVertexInside q (lerp4 a b (da / (da - db))) = true.
Proof.
  intros Ea Eb Hne. unfold isVertexInside.
  destruct (planeDiff_index q a da Ea) as [-> | [-> | [-> | [-> | [-> | ->]]]]];
    cbn in Ea, Eb |- *; injection Ea as <-; injection Eb as <-;
    rewrite R_leb_true;
    match goal with
    | |- 0 <= ?e => replace e with 0 by (field; lra)
    | |- ?e <= 0 => replace e with 0 by (field; lra)
    end; lra.
Qed.

Lemma mixed_sides_differ (q : Z) (di dj : R) :
  planeInside q di = negb (planeInside q dj) -> di <> dj.
Proof. intros Hmixed ->. now destruct (planeInside q dj). Qed.

Lemma isVertexInside_of_diff (q : Z) (v : Double4 R) (d : R) :
  planeDiff q v = Some d -> planeInside q d = true -> isVertexInside q v = true.
Proof. intros E I. unfold isVertexInside. now rewrite E. Qed.

(** Over the reals every triangle [ProcessClipSpaceTriangle] produces for a
    plane is inside that plane. *)
Lemma clip_results_inside_plane (q : Z) (t out : ClipSpaceTriangle R) :
  In out (clipTriangleAgainstPlane t q) -> isTriangleInside q out = true.
Proof.
  destruct t as [v0 v1 v2 uv0 uv1 uv2].
  unfold clipTriangleAgainstPlane, ProcessClipSpaceTriangle.
  cbn [tv0 tv1 tv2 tuv0 tuv1 tuv2].
  destruct (planeDiff q v0) as [d0|] eqn:E0; [|intros []].
  destruct (planeDiff q v1) as [d1|] eqn:E1; [|intros []].
  destruct (planeDiff q v2) as [d2|] eqn:E2; [|intros []].
  cbv zeta.
  change (@ddiv R double_real) with Rdiv. change (@dsub R double_real) with Rminus.
  destruct (planeInside q d0) eqn:I0, (planeInside q d1) eqn:I1,
    (planeInside q d2) eqn:I2; cbn [In];
    intros Hin; repeat destruct Hin as [<-|Hin]; try contradiction;
    unfold isTriangleInside; cbn [tv0 tv1 tv2];
    repeat (apply andb_true_iff; split);
    first [ eapply isVertexInside_of_diff; eassumption
          | apply lerp4_on_plane; try assumption;
            apply (mixed_sides_differ q); rewrite ?I0, ?I1, ?I2; reflexivity ].
Qed.

(** Over the reals clipping against one plane keeps a triangle inside any
    plane it was inside of. *)
Lemma clip_preserves_inside_exact (p q : Z) (t : ClipSpaceTriangle R) :
  isTriangleInside p t = true ->
  forall out, In out (clipTriangleAgainstPlane t q) -> isTriangleInside p out = true.
Proof.
  destruct t as [v0 v1 v2 uv0 uv1 uv2].
  unfold isTriangleInside at 1. cbn [tv0 tv1 tv2].
  intros Hinside. apply andb_true_iff in Hinside as [Hinside O2].
  apply andb_true_iff in Hinside as [O0 O1].
  intros out.
  unfold clipTriangleAgainstPlane, ProcessClipSpaceTriangle.
  cbn [tv0 tv1 tv2 tuv0 tuv1 tuv2].
  destruct (planeDiff q v0) as [d0|] eqn:E0; [|intros []].
  destruct (planeDiff q v1) as [d1|] eqn:E1; [|intros []].
  destruct (planeDiff q v2) as [d2|] eqn:E2; [|intros []].
  cbv zeta.
  change (@ddiv R double_real) with Rdiv. change (@dsub R double_real) with Rminus.
  set (T01 := d0 / (d0 - d1)). set (T12 := d1 / (d1 - d2)). set (T20 := d2 / (d2 - d0)).
  destruct (planeInside q d0) eqn:I0, (planeInside q d1) eqn:I1,
    (planeInside q d2) eqn:I2; cbn [In];
    intros Hin; repeat destruct Hin as [<-|Hin]; try contradiction;
    try (assert (B01 : 0 <= T01 <= 1)
          by (apply (mixed_sides_bounds q v0 d0 d0 d1 E0); now rewrite I0, I1));
    try (assert (B12 : 0 <= T12 <= 1)
          by (apply (mixed_sides_bounds q v0 d0 d1 d2 E0); now rewrite I1, I2));
    try (assert (B20 : 0 <= T20 <= 1)
          by (apply (mixed_sides_bounds q v0 d0 d2 d0 E0); now rewrite I2, I0));
    unfold isTriangleInside; cbn [tv0 tv1 tv2];
    repeat (apply andb_true_iff; split);
    first [assumption | apply lerp4_inside; assumption].
Qed.

Lemma clipAgainstPlanes_inside_exact (planes finished : list Z)
    (l l' : ClipList R) :
  (0 <= clipListFrontIndex l <= clipListSize l)%Z ->
  pendingAll (insidePlanes finished) l ->
  clipAgainstPlanes planes l = Done l' ->
  (0 <= clipListFrontIndex l' <= clipListSize l')%Z
  /\ pendingAll (fun t => forall p, In p planes \/ In p finished ->
                                    isTriangleInside p t = true) l'.
Proof.
  revert finished l. induction planes as [|q rest IH]; intros finished l Hfront Hpending.
  - cbn. intros [= <-]. split; [assumption|].
    intros i Hi p [[]|Hp]. now apply Hpending.
  - cbn [clipAgainstPlanes].
    destruct (clipAgainstPlane q l) as [l1|message] eqn:Hplane; [|discriminate].
    cbn [bind]. intros Hrun.
    apply (clipAgainstPlane_inv (insidePlanes finished) (insidePlanes (q :: finished)))
      in Hplane as (Hf & Hs & _ & _ & Hpending1); try assumption.
    + apply (IH (q :: finished)) in Hrun as [Hfront' Hpending']; try assumption; [|lia].
      split; [assumption|].
      intros i Hi p Hp. apply (Hpending' i Hi).
      cbn [In] in Hp |- *. tauto.
    + intros t out Ht Hout p [<-|Hp].
      * now apply (clip_results_inside_plane q t).
      * apply (clip_preserves_inside_exact p q t); [now apply Ht|assumption].
Qed.

(** The triangles a completed clipping pass passes on are inside all six
    planes (exact arithmetic). *)
Lemma clippedTriangles_inside_exact (scratch : Z -> ClipSpaceTriangle R)
    (t : ClipSpaceTriangle R) (results : list (ClipSpaceTriangle R)) :
  clippedTriangles scratch t = Done results ->
  forall out, In out results -> isTriangleInsideAllPlanes out = true.
Proof.
  unfold clippedTriangles, clipShadedTriangle.
  destruct (clipAgainstPlanes _ _) as [l|message] eqn:Hrun; [|discriminate].
  cbn [bind]. intros [= <-] out Hout.
  apply (clipAgainstPlanes_inside_exact clipPlaneIndices []) in Hrun
    as [Hfront Hpending].
  - apply In_slice in Hout as (j & Hj & <-).
    unfold isTriangleInsideAllPlanes. apply forallb_forall. intros p Hp.
    apply (Hpending j); [lia|]. now left.
  - cbn. lia.
  - intros i Hi p [].
Qed.
End ExactFrustum.

Section MeshFacts.
Import swGeometry.
Context {D : Type} {ops : DoubleOps D}.

Lemma appendToMesh_inv (mesh : Z -> ClipSpaceTriangle D) (dstIndex : Z)
    (results : list (ClipSpaceTriangle D)) :
  (forall j, j < dstIndex -> appendToMesh mesh dstIndex results j = mesh j)
  /\ slice (appendToMesh mesh dstIndex results) dstIndex (List.length results) = results.
Proof.
  revert mesh dstIndex. induction results as [|r rest IH]; intros mesh dstIndex.
  - split; reflexivity.
  - cbn [appendToMesh List.length].
    destruct (IH (store mesh dstIndex r) (dstIndex + 1)) as [Hold Hnew].
    split.
    + intros j Hj. rewrite Hold by lia. apply store_other. lia.
    + rewrite slice_cons, Hnew. f_equal. rewrite Hold by lia. apply store_same.
Qed.

Lemma meshTriangles_append (mesh : ClipSpaceMesh D)
    (results : list (ClipSpaceTriangle D)) :
  0 <= g_clipSpaceMeshTriangleCount mesh ->
  meshTriangles
    (mkMesh (appendToMesh (g_clipSpaceMeshTriangles mesh)
               (g_clipSpaceMeshTriangleCount mesh) results)
            (g_clipSpaceMeshTriangleCount mesh + Z.of_nat (List.length results)))
  = meshTriangles mesh ++ results.
Proof.
  intros Hcount. unfold meshTriangles.
  cbn [g_clipSpaceMeshTriangles g_clipSpaceMeshTriangleCount].
  destruct (appendToMesh_inv (g_clipSpaceMeshTriangles mesh)
              (g_clipSpaceMeshTriangleCount mesh) results) as [Hold Hnew].
  replace (Z.to_nat (g_clipSpaceMeshTriangleCount mesh + Z.of_nat (List.length results)))
    with (Z.to_nat (g_clipSpaceMeshTriangleCount mesh) + List.length results)%nat by lia.
  rewrite slice_app. f_equal.
  - apply slice_ext. intros j Hj. apply Hold. lia.
  - rewrite Z2Nat.id by lia. exact Hnew.
Qed.

Lemma processShadedTriangles_mesh (scratch scratch' : Z -> ClipSpaceTriangle D)
    (shadedTriangles : list (ClipSpaceTriangle D)) (mesh mesh' : ClipSpaceMesh D) :
  0 <= g_clipSpaceMeshTriangleCount mesh ->
  processShadedTriangles scratch shadedTriangles mesh = Done (scratch', mesh') ->
  exists results,
    Forall2 (fun t r => clippedTriangles scratch t = Done r) shadedTriangles results
    /\ meshTriangles mesh' = meshTriangles mesh ++ List.concat results
    /\ g_clipSpaceMeshTriangleCount mesh'
       = g_clipSpaceMeshTriangleCount mesh + Z.of_nat (List.length (List.concat results)).
Proof.
  revert scratch mesh. induction shadedTriangles as [|t rest IH]; intros scratch mesh Hcount.
  - cbn. intros [= <- <-]. exists []. cbn. rewrite app_nil_r, Z.add_0_r. now repeat split.
  - cbn [processShadedTriangles].
    destruct (clipShadedTriangle scratch t) as [l|message] eqn:Hclip; [|discriminate].
    cbn [bind]. intros Hrun.
    apply IH in Hrun as (results & Hall & Hmesh & Hcount').
    + exists (resultTriangles l :: results). split; [|split].
      * constructor.
        -- unfold clippedTriangles. now rewrite Hclip.
        -- eapply Forall2_impl; [|exact Hall]. cbn beta. intros t' r' <-.
           apply clippedTriangles_scratch.
      * rewrite Hmesh, meshTriangles_append by assumption.
        cbn [List.concat]. now rewrite app_assoc.
      * rewrite Hcount'. cbn [g_clipSpaceMeshTriangleCount List.concat].
        rewrite length_app. lia.
    + cbn [g_clipSpaceMeshTriangleCount]. lia.
Qed.
End MeshFacts.

(* ------------------------------------------------------------------ *)
(** ** Clipping: further properties                                    *)
(* ------------------------------------------------------------------ *)

Section ClippingCoverage.
Import swGeometry.

Lemma planeDiff_none (D : Type) (ops : DoubleOps D) (p : Z) (v : Double4 D) :
  planeDiff p v = None -> (0 <=? p) && (p <=? 5) = false.
Proof.
  intros Hnone. destruct ((0 <=? p) && (p <=? 5)) eqn:Hrange; [|reflexivity].
  apply andb_true_iff in Hrange as [Hlow Hhigh].
  apply Z.leb_le in Hlow, Hhigh.
  assert (Hp : p = 0 \/ p = 1 \/ p = 2 \/ p = 3 \/ p = 4 \/ p = 5) by lia.
  destruct Hp as [-> | [-> | [-> | [-> | [-> | ->]]]]]; discriminate.
Qed.

Lemma planeDiff_total (D : Type) (ops : DoubleOps D) (p : Z) (v v' : Double4 D) (d : D) :
  planeDiff p v = Some d -> exists d', planeDiff p v' = Some d'.
Proof.
  intros Hsome.
  destruct (planeDiff_index p v d Hsome) as [-> | [-> | [-> | [-> | [-> | ->]]]]];
    eexists; reflexivity.
Qed.

(** X1.  [ProcessClipSpaceTriangle] returns one triangle when all three
    vertices are inside the plane, two when exactly two are, one when
    exactly one is and none when none is; it returns none for a plane index
    outside 0..5.  The count never exceeds [MAX_TRIANGLE_CLIP_RESULTS], the
    size of the [g_clipResult...] arrays. *)
Theorem clip_result_count_by_inside_vertices (D : Type) (ops : DoubleOps D)
    (t : ClipSpaceTriangle D) (clipPlaneIndex : Z) :
  let clipResultCount := List.length (clipTriangleAgainstPlane t clipPlaneIndex) in
  Z.of_nat clipResultCount <= MAX_TRIANGLE_CLIP_RESULTS
  /\ clipResultCount
     = if (0 <=? clipPlaneIndex) && (clipPlaneIndex <=? 5)
       then match insideVertexCount clipPlaneIndex t with
            | O => 0%nat
            | S O => 1%nat
            | S (S O) => 2%nat
            | _ => 1%nat
            end
       else 0%nat.
Proof.
  cbv zeta. split.
  - pose proof (clip_result_count clipPlaneIndex t).
    unfold MAX_TRIANGLE_CLIP_RESULTS. lia.
  - destruct t as [v0 v1 v2 uv0 uv1 uv2].
    unfold clipTriangleAgainstPlane, ProcessClipSpaceTriangle, insideVertexCount,
      isVertexInside.
    cbn [tv0 tv1 tv2 tuv0 tuv1 tuv2].
    destruct (planeDiff clipPlaneIndex v0) as [d0|] eqn:E0.
    + destruct (planeDiff_total D ops clipPlaneIndex v0 v1 d0 E0) as [d1 E1].
      destruct (planeDiff_total D ops clipPlaneIndex v0 v2 d0 E0) as [d2 E2].
      rewrite E1, E2. cbv zeta.
      replace ((0 <=? clipPlaneIndex) && (clipPlaneIndex <=? 5)) with true.
      * destruct (planeInside clipPlaneIndex d0), (planeInside clipPlaneIndex d1),
          (planeInside clipPlaneIndex d2); reflexivity.
      * symmetry.
        destruct (planeDiff_index clipPlaneIndex v0 d0 E0)
          as [-> | [-> | [-> | [-> | [-> | ->]]]]]; reflexivity.
    + now rewrite (planeDiff_none D ops clipPlaneIndex v0 E0).
Qed.

(** X2.  In exact arithmetic every triangle [ProcessClipSpaceTriangle]
    produces for a plane has its three vertices inside that plane: a kept
    vertex was inside, and an interpolated vertex lies on the plane. *)
Theorem clip_results_lie_inside_plane_exact (clipPlaneIndex : Z)
    (t out : ClipSpaceTriangle R) :
  In out (clipTriangleAgainstPlane t clipPlaneIndex) ->
  isTriangleInside clipPlaneIndex out = true.
Proof. apply clip_results_inside_plane. Qed.

Lemma exactStraddlingTriangle_clipped :
  exists out rest,
    clipTriangleAgainstPlane Examples.exactStraddlingTriangle 1 = out :: rest
    /\ isTriangleInside 1 Examples.exactStraddlingTriangle = false.
Proof.
  unfold clipTriangleAgainstPlane, ProcessClipSpaceTriangle, isTriangleInside,
    isVertexInside, Examples.exactStraddlingTriangle.
  cbn.
  repeat match goal with
         | |- context [R_leb ?a ?b] =>
             first [ rewrite (proj2 (R_leb_true a b)) by lra
                   | rewrite (proj2 (R_leb_false a b)) by lra ]
         end.
  do 2 eexists. split; reflexivity.
Qed.

(** X2, witness: [exactStraddlingTriangle], which the right plane cuts. *)
Lemma clip_results_lie_inside_plane_exact_witness :
  exists out,
    In out (clipTriangleAgainstPlane Examples.exactStraddlingTriangle 1)
    /\ isTriangleInside 1 out = true.
Proof.
  destruct exactStraddlingTriangle_clipped as (out & rest & Hclip & _).
  assert (Hin : In out (clipTriangleAgainstPlane Examples.exactStraddlingTriangle 1))
    by (rewrite Hclip; now left).
  exists out. split; [exact Hin|].
  exact (clip_results_lie_inside_plane_exact 1 Examples.exactStraddlingTriangle out Hin).
Defined.

(** X3.  Clipping against the first five planes never fails an assertion,
    whatever the triangle: at most 1, 2, 4, 8 and 16 triangles are clipped,
    so the list then holds at most 63 entries, at most 32 of them still to
    be clipped against the last plane. *)
Theorem clip_first_five_planes_never_overflow (D : Type) (ops : DoubleOps D)
    (scratch : Z -> ClipSpaceTriangle D) (t : ClipSpaceTriangle D) :
  exists l,
    clipAgainstPlanes [0; 1; 2; 3; 4] (mkClipList (store scratch 0 t) 1 0) = Done l
    /\ 1 <= clipListFrontIndex l <= clipListSize l
    /\ clipListSize l <= 63
    /\ clipListSize l - clipListFrontIndex l <= 32.
Proof. apply clipAgainstPlanes_first_five. Qed.

(** X4.  The clipping of a triangle either completes, with a list of at
    most 64 entries and at most 63 triangles passed on, or stops at the
    assertion on [clipResultWriteIndex]; the assertion on
    [clipListFrontIndex] never fails. *)
Theorem clip_pass_completes_or_fails_write_assert (D : Type) (ops : DoubleOps D)
    (scratch : Z -> ClipSpaceTriangle D) (t : ClipSpaceTriangle D) :
  (exists l,
      clipShadedTriangle scratch t = Done l
      /\ 1 <= clipListFrontIndex l <= clipListSize l
      /\ clipListSize l <= MAX_CLIPPED_TRIANGLE_TRIANGLES
      /\ (List.length (resultTriangles l) <= 63)%nat)
  \/ clipShadedTriangle scratch t
     = Halted "clipResultWriteIndex < MAX_CLIPPED_TRIANGLE_TRIANGLES".
Proof.
  unfold clipShadedTriangle, clipPlaneIndices.
  change [0; 1; 2; 3; 4; 5] with ([0; 1; 2; 3; 4] ++ [5]).
  rewrite clipAgainstPlanes_app.
  destruct (clipAgainstPlanes_first_five scratch t) as (l5 & -> & Hfront & Hsize & _).
  cbn [bind clipAgainstPlanes].
  destruct (clipAgainstPlane 5 l5) as [l|message] eqn:Hplane; cbn [bind].
  - left. exists l. split; [reflexivity|].
    apply (clipAgainstPlane_inv (fun _ => True) (fun _ => True)) in Hplane
      as (Hf & Hs & Hcap & _ & _); try easy; try lia.
    unfold MAX_CLIPPED_TRIANGLE_TRIANGLES in *.
    unfold resultTriangles. rewrite slice_length. lia.
  - right. unfold clipAgainstPlane in Hplane.
    destruct (clipTriangles_outcome 5
                (Z.to_nat (clipListSize l5 - clipListFrontIndex l5)) l5)
      as [(l & Hdone)|Hhalt];
      try (unfold MAX_CLIPPED_TRIANGLE_TRIANGLES; lia); congruence.
Qed.

(** X5.  In exact arithmetic every triangle that a completed clipping pass
    passes on to the mesh has its three vertices inside all six planes. *)
Theorem clip_pass_results_inside_frustum_exact
    (scratch : Z -> ClipSpaceTriangle R) (t : ClipSpaceTriangle R)
    (results : list (ClipSpaceTriangle R)) :
  clippedTriangles scratch t = Done results ->
  forall out, In out results -> isTriangleInsideAllPlanes out = true.
Proof. apply clippedTriangles_inside_exact. Qed.

Lemma exactTriangle_inside_all_planes (p : Z) :
  In p clipPlaneIndices -> isTriangleInside p Examples.exactTriangle = true.
Proof.
  unfold clipPlaneIndices. cbn [In].
  intros [<- | [<- | [<- | [<- | [<- | [<- | []]]]]]];
    unfold isTriangleInside, isVertexInside; cbn;
    rewrite !andb_true_iff; repeat split; apply R_leb_true; lra.
Qed.

Lemma exactTriangle_clipped (scratch : Z -> ClipSpaceTriangle R) :
  clippedTriangles scratch Examples.exactTriangle = Done [Examples.exactTriangle].
Proof.
  unfold clippedTriangles, clipShadedTriangle, clipPlaneIndices.
  cbn [clipAgainstPlanes].
  do 6 (erewrite clipAgainstPlane_inside;
        [ cbn [bind Z.add Pos.add Pos.succ]
        | lia | reflexivity | unfold MAX_CLIPPED_TRIANGLE_TRIANGLES; lia
        | apply store_same
        | apply exactTriangle_inside_all_planes; unfold clipPlaneIndices; simpl; tauto ]).
  reflexivity.
Qed.

(** X5, witness: [exactTriangle], which the pass hands on as it is. *)
Lemma clip_pass_results_inside_frustum_exact_witness :
  clippedTriangles (fun _ => Examples.exactTriangle) Examples.exactTriangle
  = Done [Examples.exactTriangle]
  /\ isTriangleInsideAllPlanes Examples.exactTriangle = true.
Proof.
  pose proof (exactTriangle_clipped (fun _ => Examples.exactTriangle)) as Hrun.
  split; [exact Hrun|].
  apply (clip_pass_results_inside_frustum_exact _ _ _ Hrun). now left.
Defined.

(** X6.  What the [g_clipSpaceTriangle...] arrays hold before a triangle is
    clipped (they are not cleared between triangles) has no influence on the
    triangles passed on, nor on whether the pass completes. *)
Theorem clip_results_ignore_stale_scratch (D : Type) (ops : DoubleOps D)
    (scratch scratch' : Z -> ClipSpaceTriangle D) (t : ClipSpaceTriangle D) :
  clippedTriangles scratch' t = clippedTriangles scratch t.
Proof. apply clippedTriangles_scratch. Qed.

(** X7.  The front-index bookkeeping of one plane: when the loop over the
    triangles to clip completes, the front index stands where the list
    ended before, no entry that was in the list has been overwritten, and
    every entry now pending is a result of clipping, against this plane, a
    triangle that was pending before. *)
Theorem clip_plane_front_index_bookkeeping (D : Type) (ops : DoubleOps D)
    (clipPlaneIndex : Z) (l l' : ClipList D) :
  0 <= clipListFrontIndex l <= clipListSize l ->
  clipAgainstPlane clipPlaneIndex l = Done l' ->
  clipListFrontIndex l' = clipListSize l
  /\ clipListSize l <= clipListSize l'
  /\ (forall i, i < clipListSize l ->
      g_clipSpaceTriangles l' i = g_clipSpaceTriangles l i)
  /\ forall i, clipListFrontIndex l' <= i < clipListSize l' ->
       exists j, clipListFrontIndex l <= j < clipListSize l
                 /\ In (g_clipSpaceTriangles l' i)
                      (clipTriangleAgainstPlane (g_clipSpaceTriangles l j)
                         clipPlaneIndex).
Proof.
  intros Hfront Hrun.
  apply (clipAgainstPlane_inv
           (fun t => exists j, clipListFrontIndex l <= j < clipListSize l
                               /\ g_clipSpaceTriangles l j = t)
           (fun out => exists j, clipListFrontIndex l <= j < clipListSize l
                                 /\ In out (clipTriangleAgainstPlane
                                              (g_clipSpaceTriangles l j) clipPlaneIndex)))
    in Hrun as (Hf & Hs & _ & Hold & Hpending); try assumption.
  - repeat split; try lia; try assumption.
  - intros t out (j & Hj & <-) Hout. now exists j.
  - intros i Hi. now exists i.
Qed.

(** X7, witness: the list seeded with [visibleTriangle], clipped against
    the left plane. *)
Lemma clip_plane_front_index_bookkeeping_witness :
  let l := mkClipList (store Examples.zeroScratch 0 Examples.visibleTriangle) 1 0 in
  exists l',
    clipAgainstPlane 0 l = Done l'
    /\ clipListFrontIndex l' = 1
    /\ 1 <= clipListSize l'
    /\ g_clipSpaceTriangles l' 0 = Examples.visibleTriangle.
Proof.
  cbv zeta.
  set (l := mkClipList (store Examples.zeroScratch 0 Examples.visibleTriangle) 1 0).
  assert (Hfront : 0 <= clipListFrontIndex l <= clipListSize l) by (cbn; lia).
  assert (Hrun : clipAgainstPlane 0 l
                 = Done (mkClipList (store (g_clipSpaceTriangles l) 1
                                       Examples.visibleTriangle) 2 1)).
  { apply (clipAgainstPlane_inside 0 0 1); first [reflexivity | lia]. }
  eexists. split; [exact Hrun|].
  destruct (clip_plane_front_index_bookkeeping float double_float 0 l _ Hfront Hrun)
    as (Hf & Hs & Hold & _).
  split; [exact Hf|]. split; [exact Hs|].
  rewrite Hold by (cbn; lia). reflexivity.
Defined.

(** X8.  [ProcessMeshForRasterization] appends, for each vertex-shaded
    triangle in turn, the triangles its clipping passes on: when the loop
    completes without overrunning the [g_clipSpaceMesh...] arrays, the mesh
    holds what it held before followed by the clip results of the
    triangles, in order, and its triangle count has grown by their
    number. *)
Theorem mesh_receives_clip_results_in_order (D : Type) (ops : DoubleOps D)
    (scratch scratch' : Z -> ClipSpaceTriangle D)
    (shadedTriangles : list (ClipSpaceTriangle D)) (mesh mesh' : ClipSpaceMesh D) :
  0 <= g_clipSpaceMeshTriangleCount mesh ->
  processShadedTriangles scratch shadedTriangles mesh = Done (scratch', mesh') ->
  g_clipSpaceMeshTriangleCount mesh' <= MAX_CLIPPED_MESH_TRIANGLES ->
  exists results,
    Forall2 (fun t r => clippedTriangles scratch t = Done r) shadedTriangles results
    /\ meshTriangles mesh' = meshTriangles mesh ++ List.concat results
    /\ g_clipSpaceMeshTriangleCount mesh'
       = g_clipSpaceMeshTriangleCount mesh + Z.of_nat (List.length (List.concat results)).
Proof. intros Hcount Hrun _. now apply (processShadedTriangles_mesh scratch scratch'). Qed.

(** X8, witness: a mesh of two triangles, [visibleTriangle] and
    [leftOfFrustumTriangle], on an empty clip-space mesh: the mesh receives
    the first triangle and nothing for the second. *)
Lemma mesh_receives_clip_results_in_order_witness :
  let mesh := mkMesh Examples.zeroScratch 0 in
  let shadedTriangles := [Examples.visibleTriangle; Examples.leftOfFrustumTriangle] in
  exists scratch' mesh',
    processShadedTriangles Examples.zeroScratch shadedTriangles mesh
    = Done (scratch', mesh')
    /\ meshTriangles mesh' = [Examples.visibleTriangle]
    /\ g_clipSpaceMeshTriangleCount mesh' = 1.
Proof.
  cbv zeta.
  destruct (processShadedTriangles Examples.zeroScratch
              [Examples.visibleTriangle; Examples.leftOfFrustumTriangle]
              (mkMesh Examples.zeroScratch 0)) as [[scratch' mesh']|message] eqn:Hrun;
    [|vm_compute in Hrun; discriminate].
  exists scratch', mesh'. split; [reflexivity|].
  assert (Hcount : 0 <= g_clipSpaceMeshTriangleCount (mkMesh Examples.zeroScratch 0))
    by (cbn; lia).
  assert (Hcap : g_clipSpaceMeshTriangleCount mesh' <= MAX_CLIPPED_MESH_TRIANGLES).
  { pose proof Hrun as Hresult. vm_compute in Hresult.
    injection Hresult as _ <-. vm_compute. discriminate. }
  destruct (mesh_receives_clip_results_in_order float double_float _ _ _ _ _
              Hcount Hrun Hcap) as (results & Hall & Hmesh & Hgrown).
  inversion Hall as [|t1 r1 ts1 rs1 H1 Hrest]; subst.
  inversion Hrest as [|t2 r2 ts2 rs2 H2 Hnil]; subst.
  inversion Hnil; subst.
  assert (r1 = [Examples.visibleTriangle])
    by (vm_compute in H1; now injection H1 as <-).
  assert (r2 = []) by (vm_compute in H2; now injection H2 as <-).
  subst. split; [exact Hmesh|exact Hgrown].
Defined.
End ClippingCoverage.

(* ------------------------------------------------------------------ *)
(** ** Pixel shaders and the rasterizer: further properties            *)
(* ------------------------------------------------------------------ *)

Section BrightnessMask.
Import swShader.

Lemma brightnessMaskRGB_bits (n : Z) :
  Z.testbit brightnessMaskRGB n
  = (n =? 6) || (n =? 7) || (n =? 14) || (n =? 15) || (n =? 22) || (n =? 23).
Proof.
  destruct (Z.lt_ge_cases n 0) as [Hneg|Hpos].
  - rewrite Z.testbit_neg_r by assumption.
    repeat match goal with
           | |- context [n =? ?k] => replace (n =? k) with false
                 by (symmetry; apply Z.eqb_neq; lia)
           end. reflexivity.
  - destruct (Z.lt_ge_cases n 24) as [Hlow|Hhigh].
    + assert (Hbit : n = Z.of_nat (Z.to_nat n)) by lia.
      assert (Hbound : (Z.to_nat n < 24)%nat) by lia.
      revert Hbit Hbound. generalize (Z.to_nat n) as bit. intros bit -> Hbound.
      do 24 (destruct bit as [|bit]; [reflexivity|]). lia.
    + rewrite Z.bits_above_log2; [|vm_compute; discriminate|].
      * repeat match goal with
               | |- context [n =? ?k] => replace (n =? k) with false
                     by (symmetry; apply Z.eqb_neq; lia)
               end. reflexivity.
      * change (Z.log2 brightnessMaskRGB) with 23. lia.
Qed.

Lemma colorComponent_range (color shift : Z) : 0 <= colorComponent color shift < 256.
Proof.
  unfold colorComponent. change 255 with (Z.ones 8).
  rewrite Z.land_ones by lia. apply Z.mod_pos_bound. reflexivity.
Qed.

Lemma colorComponent_bit (color shift n : Z) :
  0 <= shift -> 0 <= n < 8 ->
  Z.testbit (colorComponent color shift) n = Z.testbit color (n + shift).
Proof.
  intros Hshift Hn. unfold colorComponent.
  rewrite Z.land_spec, Z.shiftr_spec by lia.
  change 255 with (Z.ones 8). rewrite Z.ones_spec_low by lia. apply andb_true_r.
Qed.

Lemma byte_within_limit (b : Z) :
  0 <= b < 256 ->
  b <= 63 <-> Z.testbit b 6 = false /\ Z.testbit b 7 = false.
Proof.
  intros Hb. rewrite !Z.testbit_odd, !Z.shiftr_div_pow2 by lia.
  change (2 ^ 6) with 64. change (2 ^ 7) with 128.
  assert (Hq : b / 64 = 0 \/ b / 64 = 1 \/ b / 64 = 2 \/ b / 64 = 3).
  { pose proof (Z.div_mod b 64). pose proof (Z.mod_pos_bound b 64). lia. }
  assert (Hq' : b / 128 = 0 \/ b / 128 = 1).
  { pose proof (Z.div_mod b 128). pose proof (Z.mod_pos_bound b 128). lia. }
  pose proof (Z.div_mod b 64). pose proof (Z.mod_pos_bound b 64).
  pose proof (Z.div_mod b 128). pose proof (Z.mod_pos_bound b 128).
  split.
  - intros Hle. replace (b / 64) with 0 by lia. replace (b / 128) with 0 by lia.
    now split.
  - intros [H6 H7].
    destruct Hq as [Hq | [Hq | [Hq | Hq]]]; rewrite Hq in H6; try discriminate;
      [lia|].
    destruct Hq' as [Hq' | Hq']; rewrite Hq' in H7; try discriminate. lia.
Qed.

(** The test [(color & brightnessMaskRGB) == 0] holds exactly when the red,
    green and blue components are all at most [brightnessLimit]. *)
Lemma isDarkEnough_components (color : Z) :
  (Z.land color brightnessMaskRGB =? 0) = withinBrightnessLimit color.
Proof.
  apply eq_true_iff_eq. unfold withinBrightnessLimit.
  rewrite !andb_true_iff, Z.eqb_eq, !Z.leb_le. unfold brightnessLimit.
  rewrite (byte_within_limit _ (colorComponent_range color 16)).
  rewrite (byte_within_limit _ (colorComponent_range color 8)).
  rewrite (byte_within_limit _ (colorComponent_range color 0)).
  rewrite !colorComponent_bit by lia. cbn [Z.add Pos.add Pos.succ].
  split.
  - intros Hzero.
    assert (Hbit : forall n, Z.testbit brightnessMaskRGB n = true ->
                             Z.testbit color n = false).
    { intros n Hn. pose proof (f_equal (fun z => Z.testbit z n) Hzero) as Hland.
      cbn beta in Hland. rewrite Z.land_spec, Hn, Z.bits_0 in Hland.
      now rewrite andb_true_r in Hland. }
    repeat split; apply Hbit; reflexivity.
  - intros [[[H22 H23] [H14 H15]] [H6 H7]].
    apply Z.bits_inj'. intros n Hn.
    rewrite Z.land_spec, Z.bits_0, brightnessMaskRGB_bits.
    destruct (Z.eqb_spec n 6) as [->|]; [now rewrite H6|].
    destruct (Z.eqb_spec n 7) as [->|]; [now rewrite H7|].
    destruct (Z.eqb_spec n 14) as [->|]; [now rewrite H14|].
    destruct (Z.eqb_spec n 15) as [->|]; [now rewrite H15|].
    destruct (Z.eqb_spec n 22) as [->|]; [now rewrite H22|].
    destruct (Z.eqb_spec n 23) as [->|]; [now rewrite H23|].
    apply andb_false_r.
Qed.
End BrightnessMask.

Section ShaderFacts.
Import swShader swRender.
Context {D : Type} {ops : DoubleOps D}.
Variable PALETTE_INDEX_TRANSPARENT : Z.
Variable PALETTE_INDEX_LIGHT_LEVEL_LOWEST : Z.
Variable PALETTE_INDEX_LIGHT_LEVEL_SRC1 : Z.
Variable PALETTE_INDEX_LIGHT_LEVEL_SRC2 : Z.
Variable PALETTE_INDEX_LIGHT_LEVEL_DST1 : Z.
Variable PALETTE_INDEX_LIGHT_LEVEL_DST2 : Z.
Variable PALETTE_INDEX_PUDDLE_EVEN_ROW : Z.
Variable isLightLevelTexel : Z -> bool.

(** Every pixel shader either leaves the frame buffer as it is or ends in
    the common tail that stores one palette index (and the depth). *)
Lemma runPixelShader_shape (ds : DrawState D)
    (shaderPerspective : PixelShaderPerspectiveCorrection D)
    (shaderLighting : PixelShaderLighting D)
    (shaderHorizonMirror : PixelShaderHorizonMirror D)
    (shaderFrameBuffer : PixelShaderFrameBuffer D) :
  let result :=
    runPixelShader PALETTE_INDEX_TRANSPARENT PALETTE_INDEX_LIGHT_LEVEL_LOWEST
      PALETTE_INDEX_LIGHT_LEVEL_SRC1 PALETTE_INDEX_LIGHT_LEVEL_SRC2
      PALETTE_INDEX_LIGHT_LEVEL_DST1 PALETTE_INDEX_LIGHT_LEVEL_DST2
      PALETTE_INDEX_PUDDLE_EVEN_ROW isLightLevelTexel
      ds shaderPerspective shaderLighting shaderHorizonMirror shaderFrameBuffer in
  result = shaderFrameBuffer
  \/ exists shadedTexel, result = writePixel shaderPerspective shaderFrameBuffer shadedTexel.
Proof.
  cbv zeta. unfold runPixelShader.
  destruct (pixelShaderType ds);
    unfold PixelShader_Opaque, PixelShader_OpaqueWithAlphaTestLayer,
      PixelShader_AlphaTested, PixelShader_AlphaTestedWithVariableTexCoordUMin,
      PixelShader_AlphaTestedWithVariableTexCoordVMin,
      PixelShader_AlphaTestedWithPaletteIndexLookup,
      PixelShader_AlphaTestedWithLightLevelColor,
      PixelShader_AlphaTestedWithLightLevelOpacity,
      PixelShader_AlphaTestedWithPreviousBrightnessLimit,
      PixelShader_AlphaTestedWithHorizonMirror;
    cbv zeta;
    repeat match goal with
           | |- context [if ?b then shaderFrameBuffer else _] => destruct b
           end;
    first [ now left | right; eexists; reflexivity ].
Qed.

(** The opaque shaders always end in the common tail. *)
Lemma runPixelShader_opaque (ds : DrawState D)
    (shaderPerspective : PixelShaderPerspectiveCorrection D)
    (shaderLighting : PixelShaderLighting D)
    (shaderHorizonMirror : PixelShaderHorizonMirror D)
    (shaderFrameBuffer : PixelShaderFrameBuffer D) :
  isAlphaTestedVariant (pixelShaderType ds) = false ->
  exists shadedTexel,
    runPixelShader PALETTE_INDEX_TRANSPARENT PALETTE_INDEX_LIGHT_LEVEL_LOWEST
      PALETTE_INDEX_LIGHT_LEVEL_SRC1 PALETTE_INDEX_LIGHT_LEVEL_SRC2
      PALETTE_INDEX_LIGHT_LEVEL_DST1 PALETTE_INDEX_LIGHT_LEVEL_DST2
      PALETTE_INDEX_PUDDLE_EVEN_ROW isLightLevelTexel
      ds shaderPerspective shaderLighting shaderHorizonMirror shaderFrameBuffer
    = writePixel shaderPerspective shaderFrameBuffer shadedTexel.
Proof.
  unfold runPixelShader.
  destruct (pixelShaderType ds); cbn [isAlphaTestedVariant]; try discriminate; intros _;
    unfold PixelShader_Opaque, PixelShader_OpaqueWithAlphaTestLayer; cbv zeta;
    eexists; reflexivity.
Qed.

Lemma writePixel_fields (perspective : PixelShaderPerspectiveCorrection D)
    (frameBuffer : PixelShaderFrameBuffer D) (shadedTexel : Z) :
  let result := writePixel perspective frameBuffer shadedTexel in
  pixelIndex result = pixelIndex frameBuffer
  /\ palette result = palette frameBuffer
  /\ colors result = store (colors frameBuffer) (pixelIndex frameBuffer) shadedTexel
  /\ depth result
     = if enableDepthWrite frameBuffer
       then store (depth frameBuffer) (pixelIndex frameBuffer) (ndcZDepth perspective)
       else depth frameBuffer.
Proof.
  cbv zeta. unfold writePixel, setColors, setDepth.
  cbn [enableDepthWrite pixelIndex palette colors depth].
  destruct (enableDepthWrite frameBuffer); cbn; repeat split.
Qed.

(** What shading one pixel does to the three buffers: the entries of the
    other pixels stay, the depth buffer stays when depth writes are off, and
    the colour written is the palette colour of the index now stored. *)
Lemma shadePixel_effects (ds : DrawState D) (x y : Z)
    (shaderPerspective : PixelShaderPerspectiveCorrection D)
    (shaderWorldSpacePointXYZ : Double3 D) (st : FrameState D) :
  let pixelIndex := x + (y * frameBufferWidth ds) in
  let st' :=
    shadePixel PALETTE_INDEX_TRANSPARENT PALETTE_INDEX_LIGHT_LEVEL_LOWEST
      PALETTE_INDEX_LIGHT_LEVEL_SRC1 PALETTE_INDEX_LIGHT_LEVEL_SRC2
      PALETTE_INDEX_LIGHT_LEVEL_DST1 PALETTE_INDEX_LIGHT_LEVEL_DST2
      PALETTE_INDEX_PUDDLE_EVEN_ROW isLightLevelTexel
      ds x y shaderPerspective shaderWorldSpacePointXYZ st in
  (forall i, i <> pixelIndex ->
     paletteIndexBuffer st' i = paletteIndexBuffer st i
     /\ depthBuffer st' i = depthBuffer st i
     /\ colorBuffer st' i = colorBuffer st i)
  /\ (drawEnableDepthWrite ds = false -> depthBuffer st' = depthBuffer st)
  /\ colorBuffer st' pixelIndex
     = paletteTexels32Bit ds (paletteIndexBuffer st' pixelIndex)
  /\ g_totalDepthTests st' = g_totalDepthTests st
  /\ g_totalColorWrites st' = g_totalColorWrites st + 1.
Proof.
  cbv zeta. unfold shadePixel.
  match goal with
  | |- context [runPixelShader ?a ?b ?c ?d ?e ?f ?g ?h ?ds ?p ?l ?m ?fb] =>
      destruct (runPixelShader_shape ds p l m fb) as [Hsame|[shadedTexel Hwrite]];
      cbv zeta in *;
      [ rewrite Hsame | rewrite Hwrite;
        destruct (writePixel_fields p fb shadedTexel) as (Hi & Hp & Hc & Hd);
        cbv zeta in *; rewrite ?Hi, ?Hp, ?Hc, ?Hd ]
  end;
    unfold pixelFrameBuffer;
    cbn [pixelIndex palette colors depth palette_colors enableDepthWrite
         paletteIndexBuffer depthBuffer colorBuffer g_totalDepthTests g_totalColorWrites].
  - split; [|split; [|split; [|split]]]; try reflexivity.
    + intros i Hne. now rewrite store_other.
    + now rewrite store_same.
  - split; [|split; [|split; [|split]]]; try reflexivity.
    + intros i Hne. rewrite !store_other by assumption.
      destruct (drawEnableDepthWrite ds); [now rewrite store_other|easy].
    + now intros ->.
    + now rewrite !store_same.
Qed.
End ShaderFacts.

Section RasterizerCoverage.
Import swShader swRender.
Context {D : Type} {ops : DoubleOps D}.
Variable PALETTE_INDEX_TRANSPARENT : Z.
Variable PALETTE_INDEX_LIGHT_LEVEL_LOWEST : Z.
Variable PALETTE_INDEX_LIGHT_LEVEL_SRC1 : Z.
Variable PALETTE_INDEX_LIGHT_LEVEL_SRC2 : Z.
Variable PALETTE_INDEX_LIGHT_LEVEL_DST1 : Z.
Variable PALETTE_INDEX_LIGHT_LEVEL_DST2 : Z.
Variable PALETTE_INDEX_PUDDLE_EVEN_ROW : Z.
Variable isLightLevelTexel : Z -> bool.

(** The depth test of a pixel: it is counted when depth reads are on, and
    the pixel is shaded when depth reads are off or its depth is less than
    the depth stored. *)
Lemma rasterizePixel_cases (ds : DrawState D) (x y : Z)
    (shaderPerspective : PixelShaderPerspectiveCorrection D)
    (shaderWorldSpacePointXYZ : Double3 D) (st : FrameState D) :
  let counted :=
    mkFrameState (paletteIndexBuffer st) (depthBuffer st) (colorBuffer st)
      (g_totalDepthTests st + (if enableDepthRead ds then 1 else 0))
      (g_totalColorWrites st) in
  let passes :=
    negb (enableDepthRead ds)
    || (ndcZDepth shaderPerspective <? depthBuffer st (x + (y * frameBufferWidth ds)))%D in
  let st' :=
    rasterizePixel PALETTE_INDEX_TRANSPARENT PALETTE_INDEX_LIGHT_LEVEL_LOWEST
      PALETTE_INDEX_LIGHT_LEVEL_SRC1 PALETTE_INDEX_LIGHT_LEVEL_SRC2
      PALETTE_INDEX_LIGHT_LEVEL_DST1 PALETTE_INDEX_LIGHT_LEVEL_DST2
      PALETTE_INDEX_PUDDLE_EVEN_ROW isLightLevelTexel
      ds x y shaderPerspective shaderWorldSpacePointXYZ st in
  (passes = false /\ st' = counted)
  \/ (passes = true
      /\ st' = shadePixel PALETTE_INDEX_TRANSPARENT PALETTE_INDEX_LIGHT_LEVEL_LOWEST
                 PALETTE_INDEX_LIGHT_LEVEL_SRC1 PALETTE_INDEX_LIGHT_LEVEL_SRC2
                 PALETTE_INDEX_LIGHT_LEVEL_DST1 PALETTE_INDEX_LIGHT_LEVEL_DST2
                 PALETTE_INDEX_PUDDLE_EVEN_ROW isLightLevelTexel
                 ds x y shaderPerspective shaderWorldSpacePointXYZ counted).
Proof.
  cbv zeta. unfold rasterizePixel.
  destruct (enableDepthRead ds); cbn [negb orb depthBuffer].
  - destruct (ndcZDepth shaderPerspective <? depthBuffer st (x + y * frameBufferWidth ds))%D.
    + now right.
    + now left.
  - right. split; [reflexivity|]. destruct st. cbn. now rewrite Z.add_0_r.
Qed.

(** X9.  Rasterizing the pixel [(x, y)] leaves the palette index, the depth
    and the colour of every other pixel as they were, whichever shader
    runs. *)
Theorem rasterized_pixel_touches_only_its_own_entries (ds : DrawState D) (x y : Z)
    (shaderPerspective : PixelShaderPerspectiveCorrection D)
    (shaderWorldSpacePointXYZ : Double3 D) (st : FrameState D) (i : Z) :
  i <> x + (y * frameBufferWidth ds) ->
  let st' :=
    rasterizePixel PALETTE_INDEX_TRANSPARENT PALETTE_INDEX_LIGHT_LEVEL_LOWEST
      PALETTE_INDEX_LIGHT_LEVEL_SRC1 PALETTE_INDEX_LIGHT_LEVEL_SRC2
      PALETTE_INDEX_LIGHT_LEVEL_DST1 PALETTE_INDEX_LIGHT_LEVEL_DST2
      PALETTE_INDEX_PUDDLE_EVEN_ROW isLightLevelTexel
      ds x y shaderPerspective shaderWorldSpacePointXYZ st in
  paletteIndexBuffer st' i = paletteIndexBuffer st i
  /\ depthBuffer st' i = depthBuffer st i
  /\ colorBuffer st' i = colorBuffer st i.
Proof.
  intros Hother. cbv zeta.
  destruct (rasterizePixel_cases ds x y shaderPerspective shaderWorldSpacePointXYZ st)
    as [(_ & ->) | (_ & ->)]; cbv zeta.
  - now repeat split.
  - match goal with
    | |- context [shadePixel _ _ _ _ _ _ _ _ ?ds ?x ?y ?p ?w ?s] =>
        destruct (shadePixel_effects PALETTE_INDEX_TRANSPARENT
                    PALETTE_INDEX_LIGHT_LEVEL_LOWEST PALETTE_INDEX_LIGHT_LEVEL_SRC1
                    PALETTE_INDEX_LIGHT_LEVEL_SRC2 PALETTE_INDEX_LIGHT_LEVEL_DST1
                    PALETTE_INDEX_LIGHT_LEVEL_DST2 PALETTE_INDEX_PUDDLE_EVEN_ROW
                    isLightLevelTexel ds x y p w s) as (Hlocal & _)
    end.
    exact (Hlocal i Hother).
Qed.

(** X10.  With depth writes disabled no pixel shader changes the depth
    buffer: rasterizing a pixel leaves every depth as it was. *)
Theorem depth_write_disabled_keeps_depth_buffer (ds : DrawState D) (x y : Z)
    (shaderPerspective : PixelShaderPerspectiveCorrection D)
    (shaderWorldSpacePointXYZ : Double3 D) (st : FrameState D) :
  drawEnableDepthWrite ds = false ->
  depthBuffer
    (rasterizePixel PALETTE_INDEX_TRANSPARENT PALETTE_INDEX_LIGHT_LEVEL_LOWEST
       PALETTE_INDEX_LIGHT_LEVEL_SRC1 PALETTE_INDEX_LIGHT_LEVEL_SRC2
       PALETTE_INDEX_LIGHT_LEVEL_DST1 PALETTE_INDEX_LIGHT_LEVEL_DST2
       PALETTE_INDEX_PUDDLE_EVEN_ROW isLightLevelTexel
       ds x y shaderPerspective shaderWorldSpacePointXYZ st)
  = depthBuffer st.
Proof.
  intros Hoff.
  destruct (rasterizePixel_cases ds x y shaderPerspective shaderWorldSpacePointXYZ st)
    as [(_ & Hsame) | (_ & Hshaded)]; cbv zeta in *.
  - now rewrite Hsame.
  - rewrite Hshaded.
    match goal with
    | |- context [shadePixel _ _ _ _ _ _ _ _ ?ds ?x ?y ?p ?w ?s] =>
        destruct (shadePixel_effects PALETTE_INDEX_TRANSPARENT
                    PALETTE_INDEX_LIGHT_LEVEL_LOWEST PALETTE_INDEX_LIGHT_LEVEL_SRC1
                    PALETTE_INDEX_LIGHT_LEVEL_SRC2 PALETTE_INDEX_LIGHT_LEVEL_DST1
                    PALETTE_INDEX_LIGHT_LEVEL_DST2 PALETTE_INDEX_PUDDLE_EVEN_ROW
                    isLightLevelTexel ds x y p w s) as (_ & Hdepth & _)
    end.
    now rewrite (Hdepth Hoff).
Qed.

(** X11.  The colour buffer follows the palette-index buffer.  A pixel
    whose colour was the palette colour of its palette index still is after
    any pixel has been rasterized.  The rasterized pixel itself is in that
    state, and one colour write is counted, when it passes the depth test,
    also when the shader then writes nothing; when it fails the test, no
    colour write is counted. *)
Theorem color_buffer_follows_palette_index_buffer (ds : DrawState D) (x y : Z)
    (shaderPerspective : PixelShaderPerspectiveCorrection D)
    (shaderWorldSpacePointXYZ : Double3 D) (st : FrameState D) :
  let pixelIndex := x + (y * frameBufferWidth ds) in
  let inPaletteColor (s : FrameState D) (i : Z) :=
    colorBuffer s i = paletteTexels32Bit ds (paletteIndexBuffer s i) in
  let passes :=
    negb (enableDepthRead ds)
    || (ndcZDepth shaderPerspective <? depthBuffer st pixelIndex)%D in
  let st' :=
    rasterizePixel PALETTE_INDEX_TRANSPARENT PALETTE_INDEX_LIGHT_LEVEL_LOWEST
      PALETTE_INDEX_LIGHT_LEVEL_SRC1 PALETTE_INDEX_LIGHT_LEVEL_SRC2
      PALETTE_INDEX_LIGHT_LEVEL_DST1 PALETTE_INDEX_LIGHT_LEVEL_DST2
      PALETTE_INDEX_PUDDLE_EVEN_ROW isLightLevelTexel
      ds x y shaderPerspective shaderWorldSpacePointXYZ st in
  (forall i, inPaletteColor st i -> inPaletteColor st' i)
  /\ (if passes
      then inPaletteColor st' pixelIndex
           /\ g_totalColorWrites st' = g_totalColorWrites st + 1
      else g_totalColorWrites st' = g_totalColorWrites st).
Proof.
  cbv zeta.
  destruct (rasterizePixel_cases ds x y shaderPerspective shaderWorldSpacePointXYZ st)
    as [(-> & ->) | (-> & ->)]; cbv zeta.
  - split; [trivial|reflexivity].
  - match goal with
    | |- context [shadePixel _ _ _ _ _ _ _ _ ?ds ?x ?y ?p ?w ?s] =>
        destruct (shadePixel_effects PALETTE_INDEX_TRANSPARENT
                    PALETTE_INDEX_LIGHT_LEVEL_LOWEST PALETTE_INDEX_LIGHT_LEVEL_SRC1
                    PALETTE_INDEX_LIGHT_LEVEL_SRC2 PALETTE_INDEX_LIGHT_LEVEL_DST1
                    PALETTE_INDEX_LIGHT_LEVEL_DST2 PALETTE_INDEX_PUDDLE_EVEN_ROW
                    isLightLevelTexel ds x y p w s)
          as (Hlocal & _ & Hcolor & _ & Hwrites)
    end.
    cbn [paletteIndexBuffer depthBuffer colorBuffer g_totalColorWrites] in *.
    split.
    + intros i Hi. destruct (Z.eq_dec i (x + y * frameBufferWidth ds)) as [->|Hne].
      * exact Hcolor.
      * destruct (Hlocal i Hne) as (Hp & _ & Hc). now rewrite Hp, Hc.
    + split; assumption.
Qed.
End RasterizerCoverage.

Section RasterizerWitnesses.
Import swShader swRender Examples.

(** X9, witness: pixel (1, 2) of [overlayDraw] is shaded on cleared buffers;
    pixel 0 keeps its entries. *)
Lemma rasterized_pixel_touches_only_its_own_entries_witness :
  let st := ClearFrameBuffers in
  let st' := exampleRasterizePixel overlayDraw 1 2 centrePerspective (vec3 0 0 0) st in
  0 <> 1 + (2 * frameBufferWidth overlayDraw)
  /\ paletteIndexBuffer st' 9 = 8
  /\ paletteIndexBuffer st' 0 = paletteIndexBuffer st 0
  /\ depthBuffer st' 0 = depthBuffer st 0
  /\ colorBuffer st' 0 = colorBuffer st 0.
Proof.
  cbv zeta.
  assert (Hother : 0 <> 1 + (2 * frameBufferWidth overlayDraw)) by (cbn; lia).
  split; [exact Hother|]. split; [reflexivity|].
  exact (rasterized_pixel_touches_only_its_own_entries transparentIndex 1 14 15 158 159 30
           (fun _ => false) overlayDraw 1 2 centrePerspective (vec3 0 0 0)
           ClearFrameBuffers 0 Hother).
Defined.

(** X10, witness: [overlayDraw] has depth writes disabled. *)
Lemma depth_write_disabled_keeps_depth_buffer_witness :
  drawEnableDepthWrite overlayDraw = false
  /\ depthBuffer
       (exampleRasterizePixel overlayDraw 1 2 centrePerspective (vec3 0 0 0)
          ClearFrameBuffers)
     = depthBuffer ClearFrameBuffers.
Proof.
  assert (Hoff : drawEnableDepthWrite overlayDraw = false) by reflexivity.
  split; [exact Hoff|].
  exact (depth_write_disabled_keeps_depth_buffer transparentIndex 1 14 15 158 159 30
           (fun _ => false) overlayDraw 1 2 centrePerspective (vec3 0 0 0)
           ClearFrameBuffers Hoff).
Defined.
End RasterizerWitnesses.

Section ShaderCoverage.
Import swShader swRender.

Lemma SFcompare_refl (f : spec_float) :
  SFcompare f f = Some Eq \/ SFcompare f f = None.
Proof.
  destruct f as [s|s| |s m e]; cbn.
  - now left.
  - left. now destruct s.
  - now right.
  - left. destruct s; rewrite Z.compare_refl, Pos.compare_cont_refl; reflexivity.
Qed.

(** No binary64 value is less than itself. *)
Lemma float_ltb_irrefl (z : float) : (z <? z)%float = false.
Proof.
  rewrite ltb_spec. unfold SFltb.
  destruct (SFcompare_refl (Prim2SF z)) as [-> | ->]; reflexivity.
Qed.

Variable PALETTE_INDEX_TRANSPARENT : Z.
Variable PALETTE_INDEX_LIGHT_LEVEL_LOWEST : Z.
Variable PALETTE_INDEX_LIGHT_LEVEL_SRC1 : Z.
Variable PALETTE_INDEX_LIGHT_LEVEL_SRC2 : Z.
Variable PALETTE_INDEX_LIGHT_LEVEL_DST1 : Z.
Variable PALETTE_INDEX_LIGHT_LEVEL_DST2 : Z.
Variable PALETTE_INDEX_PUDDLE_EVEN_ROW : Z.
Variable isLightLevelTexel : Z -> bool.

(** X12.  The depth test is strict.  Once a pixel has been shaded by an
    opaque shader with depth reads and writes on, its depth is the depth of
    that fragment, and a second fragment at the same pixel with the same
    depth fails the test: it is counted as a depth test, and the three
    buffers and the number of colour writes stay as the first fragment left
    them. *)
Theorem equal_depth_fragment_is_rejected (ds : DrawState float) (x y : Z)
    (first second : PixelShaderPerspectiveCorrection float)
    (firstPoint secondPoint : Double3 float) (st : FrameState float) :
  isAlphaTestedVariant (pixelShaderType ds) = false ->
  enableDepthRead ds = true ->
  drawEnableDepthWrite ds = true ->
  (ndcZDepth first <? depthBuffer st (x + (y * frameBufferWidth ds)))%float = true ->
  ndcZDepth second = ndcZDepth first ->
  let rasterize :=
    rasterizePixel PALETTE_INDEX_TRANSPARENT PALETTE_INDEX_LIGHT_LEVEL_LOWEST
      PALETTE_INDEX_LIGHT_LEVEL_SRC1 PALETTE_INDEX_LIGHT_LEVEL_SRC2
      PALETTE_INDEX_LIGHT_LEVEL_DST1 PALETTE_INDEX_LIGHT_LEVEL_DST2
      PALETTE_INDEX_PUDDLE_EVEN_ROW isLightLevelTexel ds x y in
  let st1 := rasterize first firstPoint st in
  let st2 := rasterize second secondPoint st1 in
  depthBuffer st1 (x + (y * frameBufferWidth ds)) = ndcZDepth first
  /\ paletteIndexBuffer st2 = paletteIndexBuffer st1
  /\ depthBuffer st2 = depthBuffer st1
  /\ colorBuffer st2 = colorBuffer st1
  /\ g_totalDepthTests st2 = g_totalDepthTests st + 2
  /\ g_totalColorWrites st2 = g_totalColorWrites st + 1.
Proof.
  intros Hopaque Hread Hwrite Hless Hsame. cbv zeta.
  set (pixel := x + y * frameBufferWidth ds) in *.
  assert (Hfirst :
            let st1 :=
              rasterizePixel PALETTE_INDEX_TRANSPARENT PALETTE_INDEX_LIGHT_LEVEL_LOWEST
                PALETTE_INDEX_LIGHT_LEVEL_SRC1 PALETTE_INDEX_LIGHT_LEVEL_SRC2
                PALETTE_INDEX_LIGHT_LEVEL_DST1 PALETTE_INDEX_LIGHT_LEVEL_DST2
                PALETTE_INDEX_PUDDLE_EVEN_ROW isLightLevelTexel ds x y first firstPoint st in
            depthBuffer st1 pixel = ndcZDepth first
            /\ g_totalDepthTests st1 = g_totalDepthTests st + 1
            /\ g_totalColorWrites st1 = g_totalColorWrites st + 1).
  { cbv zeta. unfold rasterizePixel. rewrite Hread. cbn [negb orb depthBuffer].
    fold pixel. change (@dltb float double_float) with PrimFloat.ltb. rewrite Hless.
    unfold shadePixel.
    match goal with
    | |- context [runPixelShader ?a ?b ?c ?d ?e ?f ?g ?h ?ds ?p ?l ?m ?fb] =>
        destruct (runPixelShader_opaque a b c d e f g h ds p l m fb Hopaque)
          as [shadedTexel ->];
        destruct (writePixel_fields p fb shadedTexel) as (Hi & Hp & Hc & Hd)
    end.
    cbv zeta in *. rewrite Hd. unfold pixelFrameBuffer.
    cbn [enableDepthWrite pixelIndex depth depthBuffer g_totalDepthTests
         g_totalColorWrites]. rewrite Hwrite. fold pixel.
    now rewrite store_same. }
  cbv zeta in Hfirst. destruct Hfirst as (Hdepth & Htests & Hwrites).
  split; [exact Hdepth|].
  match goal with
  | |- context [rasterizePixel _ _ _ _ _ _ _ _ ds x y second secondPoint ?s] =>
      set (st1 := s) in *
  end.
  unfold rasterizePixel at 1 2 3 4 5. rewrite Hread. cbn [negb orb depthBuffer].
  fold pixel. rewrite Hdepth, Hsame.
  change (@dltb float double_float) with PrimFloat.ltb. rewrite float_ltb_irrefl.
  cbn [paletteIndexBuffer depthBuffer colorBuffer g_totalDepthTests g_totalColorWrites].
  repeat split; lia.
Qed.

(** X13.  A texel fetched by texture coordinates never lies outside the
    texture, whatever the coordinates are (out of range, infinite or not a
    number): with a width and height of at least 1, each of the four ways
    the shaders turn coordinates into a texel index reads a texel below
    [width * height], so texels from there on have no influence.  The fetch
    of [PixelShader_AlphaTestedWithPaletteIndexLookup] from its lookup
    texture is of another kind: its index is the texel just sampled, it is
    not compared with the size of the lookup texture, and the entry at that
    index is all the shader reads of the lookup texture. *)
Theorem coordinate_texture_fetch_stays_inside_texture (D : Type) (ops : DoubleOps D)
    (texels texels' : Z -> Z) (width height : Z) (samplingType : TextureSamplingType)
    (perspective : PixelShaderPerspectiveCorrection D)
    (frameBuffer : PixelShaderFrameBuffer D) (uvMin : D) :
  1 <= width -> 1 <= height ->
  (forall texelIndex, 0 <= texelIndex < width * height ->
     texels' texelIndex = texels texelIndex) ->
  let texture := PixelShaderTexture_init texels width height samplingType in
  let texture' := PixelShaderTexture_init texels' width height samplingType in
  let texel :=
    sampleTexel texture (x2 (texelPercent perspective)) (y2 (texelPercent perspective)) in
  sampleTexel texture' (x2 (texelPercent perspective)) (y2 (texelPercent perspective))
  = texel
  /\ sampleTexelScreenSpaceRepeatY texture' frameBuffer
     = sampleTexelScreenSpaceRepeatY texture frameBuffer
  /\ sampleTexelVariableTexCoordUMin texture' perspective uvMin
     = sampleTexelVariableTexCoordUMin texture perspective uvMin
  /\ sampleTexelVariableTexCoordVMin texture' perspective uvMin
     = sampleTexelVariableTexCoordVMin texture perspective uvMin
  /\ forall (lookupTexels lookupTexels' : Z -> Z) (lookupWidth lookupHeight : Z)
            (lighting : PixelShaderLighting D),
       lookupTexels' texel = lookupTexels texel ->
       PixelShader_AlphaTestedWithPaletteIndexLookup PALETTE_INDEX_TRANSPARENT perspective
         texture' (PixelShaderTexture_init lookupTexels' lookupWidth lookupHeight Default)
         lighting frameBuffer
       = PixelShader_AlphaTestedWithPaletteIndexLookup PALETTE_INDEX_TRANSPARENT perspective
           texture (PixelShaderTexture_init lookupTexels lookupWidth lookupHeight Default)
           lighting frameBuffer.
Proof.
  intros Hwidth Hheight Hsame. cbv zeta.
  assert (Hfetch : forall texelX texelY,
             0 <= texelX <= width - 1 -> 0 <= texelY <= height - 1 ->
             texels' (texelX + texelY * width) = texels (texelX + texelY * width)).
  { intros texelX texelY HX HY. apply Hsame. nia. }
  assert (Hsample : sampleTexel (PixelShaderTexture_init texels' width height samplingType)
                      (x2 (texelPercent perspective)) (y2 (texelPercent perspective))
                    = sampleTexel (PixelShaderTexture_init texels width height samplingType)
                        (x2 (texelPercent perspective)) (y2 (texelPercent perspective))).
  { unfold sampleTexel, texelCoord, PixelShaderTexture_init.
    cbn [swShader.texels swShader.width swShader.height widthMinusOne heightMinusOne
         widthReal heightReal].
    apply Hfetch; apply clamp_int_range; lia. }
  split; [exact Hsample|].
  split; [|split; [|split]].
  - unfold sampleTexelScreenSpaceRepeatY, texelCoord, PixelShaderTexture_init.
    cbn [swShader.texels swShader.width swShader.height widthMinusOne heightMinusOne
         widthReal heightReal].
    apply Hfetch; apply clamp_int_range; lia.
  - unfold sampleTexelVariableTexCoordUMin, texelCoord, PixelShaderTexture_init.
    cbn [swShader.texels swShader.width swShader.height widthMinusOne heightMinusOne
         widthReal heightReal].
    apply Hfetch; apply clamp_int_range; lia.
  - unfold sampleTexelVariableTexCoordVMin, texelCoord, PixelShaderTexture_init.
    cbn [swShader.texels swShader.width swShader.height widthMinusOne heightMinusOne
         widthReal heightReal].
    apply Hfetch; apply clamp_int_range; lia.
  - intros lookupTexels lookupTexels' lookupWidth lookupHeight lighting Hlookup.
    unfold PixelShader_AlphaTestedWithPaletteIndexLookup. cbv zeta. rewrite Hsample.
    change (swShader.texels (PixelShaderTexture_init lookupTexels' lookupWidth
                               lookupHeight Default))
      with lookupTexels'.
    change (swShader.texels (PixelShaderTexture_init lookupTexels lookupWidth
                               lookupHeight Default))
      with lookupTexels.
    now rewrite Hlookup.
Qed.

(** X14.  [PixelShader_AlphaTestedWithPreviousBrightnessLimit] draws its
    texel, unshaded, exactly when the red, green and blue components of the
    colour already at the pixel are all at most [brightnessLimit] (0x3F) and
    the texel is not transparent; otherwise it leaves the frame buffer as it
    is. *)
Theorem previous_brightness_limit_shader (D : Type) (ops : DoubleOps D)
    (perspective : PixelShaderPerspectiveCorrection D) (texture : PixelShaderTexture D)
    (frameBuffer : PixelShaderFrameBuffer D) :
  let prevFrameBufferPixel := colors frameBuffer (pixelIndex frameBuffer) in
  let prevFrameBufferColor := palette_colors (palette frameBuffer) prevFrameBufferPixel in
  let texel :=
    sampleTexel texture (x2 (texelPercent perspective)) (y2 (texelPercent perspective)) in
  PixelShader_AlphaTestedWithPreviousBrightnessLimit PALETTE_INDEX_TRANSPARENT
    perspective texture frameBuffer
  = if withinBrightnessLimit prevFrameBufferColor
       && negb (texel =? PALETTE_INDEX_TRANSPARENT)
    then writePixel perspective frameBuffer texel
    else frameBuffer.
Proof.
  cbv zeta. unfold PixelShader_AlphaTestedWithPreviousBrightnessLimit.
  rewrite isDarkEnough_components.
  destruct (withinBrightnessLimit _); cbn [negb andb]; [|reflexivity].
  now destruct (_ =? PALETTE_INDEX_TRANSPARENT).
Qed.

(** X15.  The horizon-mirror shader reads the reflected pixel only inside
    the frame buffer: when [isReflectedPixelInFrameBuffer] is set, the
    reflected pixel index is below [width * height]. *)
Theorem horizon_mirror_reads_inside_frame_buffer (D : Type) (ops : DoubleOps D)
    (ds : DrawState D) (pixelCenter : Double2 D) :
  let horizon := pixelHorizonMirror ds pixelCenter in
  isReflectedPixelInFrameBuffer horizon = true ->
  0 <= reflectedPixelIndex horizon < frameBufferWidth ds * frameBufferHeight ds.
Proof.
  cbv zeta. unfold pixelHorizonMirror.
  cbn [isReflectedPixelInFrameBuffer reflectedPixelIndex].
  rewrite !andb_true_iff, !Z.leb_le, !Z.ltb_lt. nia.
Qed.
End ShaderCoverage.

Section ShaderWitnesses.
Import swShader swRender Examples.

(** X12, witness: the one pixel of [opaqueDraw], shaded twice at depth 0.5
    on cleared buffers. *)
Lemma equal_depth_fragment_is_rejected_witness :
  let st := ClearFrameBuffers in
  let st1 := exampleRasterizePixel opaqueDraw 0 0 centrePerspective (vec3 0 0 0) st in
  let st2 := exampleRasterizePixel opaqueDraw 0 0 centrePerspective (vec3 0 0 0) st1 in
  (ndcZDepth centrePerspective <? depthBuffer st (0 + (0 * frameBufferWidth opaqueDraw)))%float
  = true
  /\ depthBuffer st1 0 = 0.5%float
  /\ g_totalDepthTests st2 = 2
  /\ g_totalColorWrites st2 = 1.
Proof.
  cbv zeta.
  assert (Hless : (ndcZDepth centrePerspective
                   <? depthBuffer ClearFrameBuffers
                        (0 + (0 * frameBufferWidth opaqueDraw)))%float = true)
    by reflexivity.
  split; [exact Hless|].
  destruct (equal_depth_fragment_is_rejected transparentIndex 1 14 15 158 159 30
              (fun _ => false) opaqueDraw 0 0 centrePerspective centrePerspective
              (vec3 0 0 0) (vec3 0 0 0) ClearFrameBuffers
              eq_refl eq_refl eq_refl Hless eq_refl)
    as (Hdepth & _ & _ & _ & Htests & Hwrites).
  split; [exact Hdepth|]. split; [exact Htests|exact Hwrites].
Defined.

(** X13, witness: a 2x2 texture and a copy that differs from index 4 on;
    and two 1x1 lookup textures that differ in their only texel and agree
    at index 8, the texel sampled from [checkerTexture]. *)
Lemma coordinate_texture_fetch_stays_inside_texture_witness :
  let texels := fun index => 5 + index in
  let texels' := fun index => if index <? 4 then 5 + index else 0 in
  let lookup (first : Z) :=
    PixelShaderTexture_init (fun index => if index =? 0 then first else 3) 1 1 Default in
  let lighting := mkLighting plainLightTable 13 13%float 256 0 in
  let frameBuffer := pixelFrameBuffer opaqueDraw 0 0 ClearFrameBuffers in
  sampleTexel (PixelShaderTexture_init texels' 2 2 Default) 0.5%float 7.5%float
  = sampleTexel (PixelShaderTexture_init texels 2 2 Default) 0.5%float 7.5%float
  /\ PixelShader_AlphaTestedWithPaletteIndexLookup transparentIndex centrePerspective
       checkerTexture (lookup 1) lighting frameBuffer
     = PixelShader_AlphaTestedWithPaletteIndexLookup transparentIndex centrePerspective
         checkerTexture (lookup 2) lighting frameBuffer.
Proof.
  cbv zeta.
  assert (Hsame : forall texelIndex, 0 <= texelIndex < 2 * 2 ->
                    (fun index => if index <? 4 then 5 + index else 0) texelIndex
                    = (fun index => 5 + index) texelIndex).
  { intros texelIndex Hrange. cbv beta.
    destruct (Z.ltb_spec texelIndex 4); [reflexivity|lia]. }
  split.
  - exact (proj1 (coordinate_texture_fetch_stays_inside_texture transparentIndex
                    float double_float
                    (fun index => 5 + index)
                    (fun index => if index <? 4 then 5 + index else 0)
                    2 2 Default (mkPerspective 0%float (vec2 0.5 7.5))
                    (pixelFrameBuffer opaqueDraw 0 0 ClearFrameBuffers) 0.25%float
                    ltac:(lia) ltac:(lia) Hsame)).
  - exact (proj2 (proj2 (proj2 (proj2
             (coordinate_texture_fetch_stays_inside_texture transparentIndex
                float double_float (fun index => 5 + index) (fun index => 5 + index)
                2 2 Default centrePerspective
                (pixelFrameBuffer opaqueDraw 0 0 ClearFrameBuffers) 0.25%float
                ltac:(lia) ltac:(lia) (fun texelIndex _ => eq_refl)))))
             (fun index => if index =? 0 then 2 else 3)
             (fun index => if index =? 0 then 1 else 3)
             1 1 (mkLighting plainLightTable 13 13%float 256 0) eq_refl).
Defined.

(** X15, witness: on the 4x4 frame buffer of [ditheredDraw], whose horizon
    is at y = 0, the pixel centre (1.5, -1.5) is mirrored to pixel (1, 1). *)
Lemma horizon_mirror_reads_inside_frame_buffer_witness :
  let horizon := pixelHorizonMirror ditheredDraw (vec2 1.5 (-1.5)) in
  isReflectedPixelInFrameBuffer horizon = true
  /\ reflectedPixelIndex horizon = 5
  /\ 0 <= reflectedPixelIndex horizon
        < frameBufferWidth ditheredDraw * frameBufferHeight ditheredDraw.
Proof.
  cbv zeta.
  assert (Hinside : isReflectedPixelInFrameBuffer
                      (pixelHorizonMirror ditheredDraw (vec2 1.5 (-1.5))) = true)
    by reflexivity.
  split; [exact Hinside|]. split; [reflexivity|].
  exact (horizon_mirror_reads_inside_frame_buffer float double_float ditheredDraw
           (vec2 1.5 (-1.5)) Hinside).
Defined.
End ShaderWitnesses.

(* ------------------------------------------------------------------ *)
(** ** The dither buffer                                               *)
(* ------------------------------------------------------------------ *)

Section Loops.
Import swRender.
Context {S : Type}.

Lemma forLoop_inv (Inv : Z -> S -> Prop) (body : Z -> S -> S) (count : nat)
    (first : Z) (s : S) :
  Inv first s ->
  (forall i s', first <= i < first + Z.of_nat count -> Inv i s' -> Inv (i + 1) (body i s')) ->
  Inv (first + Z.of_nat count) (forLoop count first body s).
Proof.
  revert first s. induction count as [|count IH]; intros first s Hfirst Hstep.
  - cbn. now rewrite Z.add_0_r.
  - cbn [forLoop].
    replace (first + Z.of_nat (Datatypes.S count)) with (first + 1 + Z.of_nat count) by lia.
    apply IH.
    + apply Hstep; [lia|assumption].
    + intros i s' Hi. apply Hstep. lia.
Qed.

Lemma forRange_inv (Inv : Z -> S -> Prop) (body : Z -> S -> S) (first last : Z) (s : S) :
  first <= last ->
  Inv first s ->
  (forall i s', first <= i < last -> Inv i s' -> Inv (i + 1) (body i s')) ->
  Inv last (forRange first last body s).
Proof.
  intros Hle Hfirst Hstep. unfold forRange.
  replace last with (first + Z.of_nat (Z.to_nat (last - first))) at 1 by lia.
  apply forLoop_inv; [assumption|].
  intros i s' Hi. apply Hstep. lia.
Qed.
End Loops.

Section Fill.
Import swRender.
Variables width height depth : Z.
Variable mask : Z -> Z -> Z -> bool.
Variable body : Z -> Z -> (Z -> bool) -> (Z -> bool).

Hypothesis body_hit :
  forall x y pixels k,
    0 <= x < width -> 0 <= y < height -> 0 <= k < depth ->
    body y x pixels (ditherBufferIndex width height k x y) = mask k x y.
Hypothesis body_miss :
  forall x y pixels j,
    (forall k, 0 <= k < depth -> j <> ditherBufferIndex width height k x y) ->
    body y x pixels j = pixels j.

Lemma maskIndex_inj (k x y k' x' y' : Z) :
  0 <= x < width -> 0 <= y < height -> 0 <= x' < width -> 0 <= y' < height ->
  ditherBufferIndex width height k x y = ditherBufferIndex width height k' x' y' -> k = k' /\ x = x' /\ y = y'.
Proof.
  unfold ditherBufferIndex. intros Hx Hy Hx' Hy' Heq.
  assert (Ha : 0 <= x + y * width < width * height) by nia.
  assert (Ha' : 0 <= x' + y' * width < width * height) by nia.
  assert (Hk : k = k') by nia. subst k'.
  assert (Hy0 : y = y') by nia. subst y'.
  repeat split. lia.
Qed.

(** Two nested loops over the rows and the columns whose body stores, for
    each mask, the value of the mask at the pixel: afterwards every entry of
    every mask holds its value. *)
Lemma fill_masks (pixels : Z -> bool) (k x y : Z) :
  0 <= x < width -> 0 <= y < height -> 0 <= k < depth ->
  forRange 0 height
    (fun y pixels => forRange 0 width (fun x pixels => body y x pixels) pixels) pixels
    (ditherBufferIndex width height k x y)
  = mask k x y.
Proof.
  intros Hx Hy Hk.
  pose (filled := fun (row column : Z) (s : Z -> bool) =>
          forall k' x' y',
            0 <= x' < width -> 0 <= y' < height -> 0 <= k' < depth ->
            y' < row \/ (y' = row /\ x' < column) ->
            s (ditherBufferIndex width height k' x' y') = mask k' x' y').
  assert (Hrows : filled height 0
                    (forRange 0 height
                       (fun y pixels =>
                          forRange 0 width (fun x pixels => body y x pixels) pixels)
                       pixels)).
  { apply (forRange_inv (fun row s => filled row 0 s)); [lia| |].
    - intros k' x' y' Hx' Hy' Hk' Hdone. lia.
    - intros row s Hrow Hfilled.
      assert (Hcolumns : filled row width
                           (forRange 0 width (fun x pixels => body row x pixels) s)).
      { apply (forRange_inv (fun column s' => filled row column s')); [lia| |].
        - intros k' x' y' Hx' Hy' Hk' Hdone. apply Hfilled; assumption.
        - intros column s' Hcolumn Hfilled' k' x' y' Hx' Hy' Hk' Hdone.
          destruct (Z.eq_dec y' row) as [->|Hrow'].
          + destruct (Z.eq_dec x' column) as [->|Hcolumn'].
            * now apply body_hit.
            * rewrite body_miss.
              -- apply Hfilled'; try assumption. lia.
              -- intros k'' Hk'' Heq.
                 apply maskIndex_inj in Heq; try assumption; lia.
          + rewrite body_miss.
            * apply Hfilled'; try assumption. lia.
            * intros k'' Hk'' Heq.
              apply maskIndex_inj in Heq; try assumption; lia. }
      intros k' x' y' Hx' Hy' Hk' Hdone. apply Hcolumns; try assumption. lia. }
  apply Hrows; try assumption. lia.
Qed.
End Fill.

Section DitherCoverage.
Import swRender.

Lemma land_1_even (a : Z) : (Z.land a 1 =? 0) = Z.even a.
Proof.
  change 1 with (Z.ones 1) at 1. rewrite Z.land_ones by lia.
  change (2 ^ 1) with 2. rewrite Zmod_even. now destruct (Z.even a).
Qed.

Lemma rem_2_odd (a : Z) : 0 <= a -> (Z.rem a 2 =? 1) = Z.odd a.
Proof.
  intros Ha. rewrite Z.rem_mod_nonneg by lia. rewrite Zmod_odd.
  now destruct (Z.odd a).
Qed.

Lemma rem_2_even (a : Z) : 0 <= a -> (Z.rem a 2 =? 0) = Z.even a.
Proof.
  intros Ha. rewrite Z.rem_mod_nonneg by lia. rewrite Zmod_even.
  now destruct (Z.even a).
Qed.

Lemma classic_mask (width height x y : Z) :
  0 <= x < width -> 0 <= y < height ->
  ditherPixels (CreateDitherBuffer width height DITHERING_MODE_CLASSIC)
    (ditherBufferIndex width height 0 x y)
  = Z.even (x + y).
Proof.
  intros Hx Hy. unfold CreateDitherBuffer. cbn [Z.eqb DITHERING_MODE_CLASSIC Pos.eqb].
  cbv zeta. cbn [ditherPixels].
  rewrite (fill_masks width height 1 (fun _ x y => Z.even (x + y))
             (fun y x pixels =>
                store pixels (x + y * width) (Z.land (x + y) 1 =? 0)));
    try assumption; try lia; [reflexivity| |].
  - intros x' y' pixels k Hx' Hy' Hk. replace k with 0 by lia.
    unfold ditherBufferIndex. rewrite Z.add_0_r, store_same. apply land_1_even.
  - intros x' y' pixels j Hmiss. apply store_other.
    specialize (Hmiss 0). unfold ditherBufferIndex in Hmiss. lia.
Qed.

Lemma modern_mask (width height k x y : Z) :
  0 <= x < width -> 0 <= y < height -> 0 <= k < DITHERING_MODE_MODERN_MASK_COUNT ->
  ditherPixels (CreateDitherBuffer width height DITHERING_MODE_MODERN)
    (ditherBufferIndex width height k x y)
  = modernDitherMask k x y.
Proof.
  intros Hx Hy Hk. unfold CreateDitherBuffer.
  cbn [Z.eqb DITHERING_MODE_CLASSIC DITHERING_MODE_MODERN Pos.eqb].
  cbv zeta. cbn [ditherPixels].
  rewrite (fill_masks width height 4 modernDitherMask
             (fun y x pixels =>
                store
                  (store
                     (store
                        (store pixels (x + y * width)
                           ((Z.land (x + y) 1 =? 0)
                            || (Z.rem x 2 =? 1) && (Z.rem y 2 =? 0)))
                        (x + y * width + 1 * width * height) (Z.land (x + y) 1 =? 0))
                     (x + y * width + 2 * width * height)
                     ((Z.rem x 2 =? 0) && (Z.rem y 2 =? 0)))
                  (x + y * width + 3 * width * height) false));
    try assumption; [reflexivity| |].
  - clear x y k Hx Hy Hk. intros x y pixels k Hx Hy Hk.
    assert (Harea : 0 < width * height) by nia.
    assert (Hcases : k = 0 \/ k = 1 \/ k = 2 \/ k = 3) by lia.
    unfold ditherBufferIndex, modernDitherMask, store.
    rewrite land_1_even, rem_2_odd, !rem_2_even by lia.
    destruct Hcases as [-> | [-> | [-> | ->]]]; cbn [Z.eqb Pos.eqb];
      repeat match goal with
             | |- context [?a =? ?b] =>
                 destruct (Z.eqb_spec a b); try nia
             end; reflexivity.
  - intros x' y' pixels j Hmiss.
    pose proof (Hmiss 0 ltac:(lia)) as H0. pose proof (Hmiss 1 ltac:(lia)) as H1.
    pose proof (Hmiss 2 ltac:(lia)) as H2. pose proof (Hmiss 3 ltac:(lia)) as H3.
    unfold ditherBufferIndex in *.
    rewrite !store_other by lia. reflexivity.
Qed.

(** X16.  [CreateDitherBuffer] gives every pixel of every mask its own
    entry.  In the classic mode pixel [(x, y)] is marked exactly when
    [x + y] is even.  In the modern mode the four masks mark the pixel by
    the parity of [x] and [y] as [modernDitherMask] says, and the masks are
    nested: a pixel marked in a mask is marked in every mask before it. *)
Theorem dither_buffer_patterns (width height x y : Z) :
  0 <= x < width -> 0 <= y < height ->
  let classic := ditherPixels (CreateDitherBuffer width height DITHERING_MODE_CLASSIC) in
  let modern := ditherPixels (CreateDitherBuffer width height DITHERING_MODE_MODERN) in
  classic (x + (y * width)) = Z.even (x + y)
  /\ (forall maskIndex, 0 <= maskIndex < DITHERING_MODE_MODERN_MASK_COUNT ->
      modern (ditherBufferIndex width height maskIndex x y)
      = modernDitherMask maskIndex x y)
  /\ (forall maskIndex, 0 <= maskIndex < DITHERING_MODE_MODERN_MASK_COUNT - 1 ->
      modern (ditherBufferIndex width height (maskIndex + 1) x y) = true ->
      modern (ditherBufferIndex width height maskIndex x y) = true).
Proof.
  intros Hx Hy. cbv zeta. split; [|split].
  - rewrite <- (classic_mask width height x y Hx Hy). f_equal.
    unfold ditherBufferIndex. lia.
  - intros maskIndex Hmask. now apply modern_mask.
  - unfold DITHERING_MODE_MODERN_MASK_COUNT. intros maskIndex Hmask.
    rewrite !modern_mask by (unfold DITHERING_MODE_MODERN_MASK_COUNT; lia).
    assert (Hcases : maskIndex = 0 \/ maskIndex = 1 \/ maskIndex = 2) by lia.
    unfold modernDitherMask.
    destruct Hcases as [-> | [-> | ->]]; cbn [Z.add Z.eqb Pos.eqb Pos.add Pos.succ].
    + intros ->. reflexivity.
    + rewrite Z.even_add. intros Hboth. apply andb_true_iff in Hboth as [-> ->].
      reflexivity.
    + discriminate.
Qed.

(** X16, witness: pixel (1, 2) of a 4x4 dither buffer. *)
Lemma dither_buffer_patterns_witness :
  let modern := ditherPixels (CreateDitherBuffer 4 4 DITHERING_MODE_MODERN) in
  (0 <= 1 < 4 /\ 0 <= 2 < 4)
  /\ ditherPixels (CreateDitherBuffer 4 4 DITHERING_MODE_CLASSIC) (1 + (2 * 4)) = false
  /\ modern (ditherBufferIndex 4 4 0 1 2) = true
  /\ modern (ditherBufferIndex 4 4 1 1 2) = false.
Proof.
  cbv zeta.
  assert (Hx : 0 <= 1 < 4) by lia. assert (Hy : 0 <= 2 < 4) by lia.
  destruct (dither_buffer_patterns 4 4 1 2 Hx Hy) as (Hclassic & Hmodern & _).
  split; [split; assumption|]. split; [exact Hclassic|]. split.
  - apply (Hmodern 0). unfold DITHERING_MODE_MODERN_MASK_COUNT. lia.
  - apply (Hmodern 1). unfold DITHERING_MODE_MODERN_MASK_COUNT. lia.
Defined.

(** X17.  The rasterizer reads the dither buffer the way
    [CreateDitherBuffer] lays it out.  With a buffer made for the frame
    buffer size and the dithering mode in use, per-pixel lighting makes
    pixel [(x, y)] one light level darker (capped at the last level) in the
    classic mode exactly when [x + y] is even, and in the modern mode
    exactly when the intensity is below 1.0 and the mask selected by the
    fraction of the scaled intensity marks the pixel. *)
Theorem dithering_follows_dither_buffer (D : Type) (ops : DoubleOps D)
    (frameBufferWidth frameBufferHeight x y lightLevelCount lightLevel : Z)
    (lightLevelCountReal lightIntensitySum : D) :
  0 <= x < frameBufferWidth -> 0 <= y < frameBufferHeight ->
  let dither mode :=
    ditherLightLevel PerPixel mode
      (ditherPixels (CreateDitherBuffer frameBufferWidth frameBufferHeight mode))
      x y frameBufferWidth frameBufferHeight lightLevelCount lightLevelCountReal
      lightIntensitySum lightLevel in
  let darker := min_int (lightLevel + 1) (lightLevelCount - 1) in
  let lightLevelReal := (lightIntensitySum * lightLevelCountReal)%D in
  let lightLevelFraction := (lightLevelReal - dfloor lightLevelReal)%D in
  let maskIndex :=
    clamp_int
      (int_of_double
         (double_of_int DITHERING_MODE_MODERN_MASK_COUNT * lightLevelFraction)%D)
      0 (DITHERING_MODE_MODERN_MASK_COUNT - 1) in
  dither DITHERING_MODE_NONE = lightLevel
  /\ dither DITHERING_MODE_CLASSIC = (if Z.even (x + y) then darker else lightLevel)
  /\ dither DITHERING_MODE_MODERN
     = (if (lightIntensitySum <? d_one)%D && modernDitherMask maskIndex x y
        then darker else lightLevel).
Proof.
  intros Hx Hy. cbv zeta. unfold ditherLightLevel, shouldDither.
  cbn [Z.eqb Pos.eqb DITHERING_MODE_NONE DITHERING_MODE_CLASSIC DITHERING_MODE_MODERN].
  split; [reflexivity|]. split.
  - replace (x + y * frameBufferWidth)
      with (ditherBufferIndex frameBufferWidth frameBufferHeight 0 x y)
      by (unfold ditherBufferIndex; lia).
    now rewrite classic_mask.
  - destruct (lightIntensitySum <? d_one)%D; [|reflexivity]. cbn [andb].
    fold (ditherBufferIndex frameBufferWidth frameBufferHeight
            (clamp_int
               (int_of_double
                  (double_of_int DITHERING_MODE_MODERN_MASK_COUNT
                   * (lightIntensitySum * lightLevelCountReal
                      - dfloor (lightIntensitySum * lightLevelCountReal)))%D)
               0 (DITHERING_MODE_MODERN_MASK_COUNT - 1)) x y).
    rewrite modern_mask; try assumption; [reflexivity|].
    pose proof (clamp_int_range
                  (int_of_double
                     (double_of_int DITHERING_MODE_MODERN_MASK_COUNT
                      * (lightIntensitySum * lightLevelCountReal
                         - dfloor (lightIntensitySum * lightLevelCountReal)))%D)
                  0 (DITHERING_MODE_MODERN_MASK_COUNT - 1)) as Hrange.
    unfold DITHERING_MODE_MODERN_MASK_COUNT in *. lia.
Qed.

(** X17, witness: pixel (1, 2) of a 4x4 frame buffer at intensity 0.3125
    of 13 light levels, which is level 8: the classic mode leaves the level
    ([x + y] is odd), the modern mode (fraction 0.0625, mask 0) makes it
    level 9. *)
Lemma dithering_follows_dither_buffer_witness :
  let dither mode :=
    ditherLightLevel PerPixel mode (ditherPixels (CreateDitherBuffer 4 4 mode))
      1 2 4 4 13 13%float 0.3125%float 8 in
  (0 <= 1 < 4 /\ 0 <= 2 < 4)
  /\ dither DITHERING_MODE_NONE = 8
  /\ dither DITHERING_MODE_CLASSIC = 8
  /\ dither DITHERING_MODE_MODERN = 9.
Proof.
  cbv zeta.
  assert (Hx : 0 <= 1 < 4) by lia. assert (Hy : 0 <= 2 < 4) by lia.
  destruct (dithering_follows_dither_buffer float double_float 4 4 1 2 13 8
              13%float 0.3125%float Hx Hy) as (Hnone & Hclassic & Hmodern).
  split; [split; assumption|].
  split; [exact Hnone|]. split; [exact Hclassic|exact Hmodern].
Defined.
End DitherCoverage.

(* ------------------------------------------------------------------ *)
(** ** Interpolation across a triangle, in exact arithmetic            *)
(* ------------------------------------------------------------------ *)

Section InterpolationCoverage.
Import swRender swRenderSetup RendererUtils.
#[local] Open Scope R_scope.

(** The cross sum of the front-face test is three times the cross product
    of two edges, and the denominator of the barycentric weights is the
    square of that cross product. *)
Lemma barycentricDenominator_cross (s0 s1 s2 : Double2 R) :
  let screenSpace01 := sub2 s1 s0 in
  let screenSpace12 := sub2 s2 s1 in
  let screenSpace20 := sub2 s0 s2 in
  let crossSum :=
    cross2 screenSpace12 screenSpace01 + cross2 screenSpace20 screenSpace12
    + cross2 screenSpace01 screenSpace20 in
  barycentricDenominator s0 s1 s2 = (crossSum / 3) * (crossSum / 3).
Proof.
  destruct s0 as [x0 y0], s1 as [x1 y1], s2 as [x2 y2].
  unfold barycentricDenominator, dot2, cross2, sub2. cbn. field.
Qed.

Lemma barycentricWeights_spec (s0 s1 s2 p : Double2 R) :
  barycentricDenominator s0 s1 s2 <> 0 ->
  let weights := barycentricWeights s0 s1 s2 p in
  weightU weights + weightV weights + weightW weights = 1
  /\ weightU weights * x2 s0 + weightV weights * x2 s1 + weightW weights * x2 s2 = x2 p
  /\ weightU weights * y2 s0 + weightV weights * y2 s1 + weightW weights * y2 s2 = y2 p.
Proof.
  destruct s0 as [x0 y0], s1 as [x1 y1], s2 as [x2 y2], p as [px py].
  unfold barycentricDenominator, barycentricWeights, dot2, sub2. cbn.
  intros Hden. repeat split; field; exact Hden.
Qed.

(** X18.  For a triangle that passes the front-face test, in exact
    arithmetic, the denominator of the barycentric weights is positive (it
    is the square of a third of the cross sum the test compares with zero),
    the three weights of any pixel centre sum to 1, and the screen-space
    vertices weighted by them give back the pixel centre. *)
Theorem barycentric_weights_locate_pixel_center (flipY : bool)
    (frameBufferWidthReal frameBufferHeightReal : R) (clip0 clip1 clip2 : Double4 R)
    (pixelCenter : Double2 R) :
  isFrontFacing flipY frameBufferWidthReal frameBufferHeightReal clip0 clip1 clip2 = true ->
  let screenSpace clip :=
    ndcToScreenSpace flipY (clipSpaceToNDC clip) frameBufferWidthReal
      frameBufferHeightReal in
  let screenSpace0 := screenSpace clip0 in
  let screenSpace1 := screenSpace clip1 in
  let screenSpace2 := screenSpace clip2 in
  let weights := barycentricWeights screenSpace0 screenSpace1 screenSpace2 pixelCenter in
  0 < barycentricDenominator screenSpace0 screenSpace1 screenSpace2
  /\ weightU weights + weightV weights + weightW weights = 1
  /\ weightU weights * x2 screenSpace0 + weightV weights * x2 screenSpace1
     + weightW weights * x2 screenSpace2 = x2 pixelCenter
  /\ weightU weights * y2 screenSpace0 + weightV weights * y2 screenSpace1
     + weightW weights * y2 screenSpace2 = y2 pixelCenter.
Proof.
  unfold isFrontFacing, screenSpaceCrossSum. cbv zeta.
  set (s0 := ndcToScreenSpace flipY (clipSpaceToNDC clip0) _ _).
  set (s1 := ndcToScreenSpace flipY (clipSpaceToNDC clip1) _ _).
  set (s2 := ndcToScreenSpace flipY (clipSpaceToNDC clip2) _ _).
  clearbody s0 s1 s2.
  change (@dltb R double_real) with R_ltb. change (@d_zero R double_real) with 0.
  change (@dadd R double_real) with Rplus.
  rewrite R_ltb_true. intros Hfront.
  pose proof (barycentricDenominator_cross s0 s1 s2) as Hden. cbv zeta in Hden.
  assert (Hpos : 0 < barycentricDenominator s0 s1 s2) by (rewrite Hden; nra).
  split; [exact Hpos|].
  apply barycentricWeights_spec. lra.
Qed.

Lemma exactTriangle_front_facing :
  isFrontFacing true 320 200 (swGeometry.tv0 Examples.exactTriangle)
    (swGeometry.tv1 Examples.exactTriangle) (swGeometry.tv2 Examples.exactTriangle)
  = true.
Proof.
  unfold isFrontFacing.
  change (@dltb R double_real) with R_ltb. change (@d_zero R double_real) with 0.
  apply R_ltb_true. rewrite screenSpaceCrossSum_det by (cbn; lra).
  unfold crossSumFactor, det3. cbn. lra.
Qed.

(** X18, witness: [exactTriangle] on a 320x200 frame buffer, and the pixel
    centre (100.5, 50.5). *)
Lemma barycentric_weights_locate_pixel_center_witness :
  let t := Examples.exactTriangle in
  let screenSpace clip := ndcToScreenSpace true (clipSpaceToNDC clip) 320 200 in
  let weights :=
    barycentricWeights (screenSpace (swGeometry.tv0 t)) (screenSpace (swGeometry.tv1 t))
      (screenSpace (swGeometry.tv2 t)) (mkDouble2 100.5 50.5) in
  isFrontFacing true 320 200 (swGeometry.tv0 t) (swGeometry.tv1 t) (swGeometry.tv2 t) = true
  /\ weightU weights + weightV weights + weightW weights = 1.
Proof.
  cbv zeta. split; [exact exactTriangle_front_facing|].
  exact (proj1 (proj2 (barycentric_weights_locate_pixel_center true 320 200
                         (swGeometry.tv0 Examples.exactTriangle)
                         (swGeometry.tv1 Examples.exactTriangle)
                         (swGeometry.tv2 Examples.exactTriangle)
                         (mkDouble2 100.5 50.5) exactTriangle_front_facing))).
Defined.

Lemma weighted_sum_pos (a0 a1 a2 u v w : R) :
  0 < a0 -> 0 < a1 -> 0 < a2 -> 0 <= u -> 0 <= v -> 0 <= w -> u + v + w = 1 ->
  0 < a0 * u + a1 * v + a2 * w.
Proof.
  intros H0 H1 H2 Hu Hv Hw Hsum.
  destruct (Rle_lt_dec u 0) as [Hu0|Hupos]; [|nra].
  destruct (Rle_lt_dec v 0) as [Hv0|Hvpos]; [|nra].
  assert (w = 1) by lra. subst w. nra.
Qed.

Lemma weighted_mean_range (a0 a1 a2 c0 c1 c2 low high : R) :
  0 <= a0 -> 0 <= a1 -> 0 <= a2 -> 0 < a0 + a1 + a2 ->
  low <= c0 <= high -> low <= c1 <= high -> low <= c2 <= high ->
  low <= (c0 * a0 + c1 * a1 + c2 * a2) / (a0 + a1 + a2) <= high.
Proof.
  intros H0 H1 H2 Hsum Hc0 Hc1 Hc2.
  assert (Hmean : (c0 * a0 + c1 * a1 + c2 * a2) / (a0 + a1 + a2) * (a0 + a1 + a2)
                  = c0 * a0 + c1 * a1 + c2 * a2) by (field; lra).
  split; apply (Rmult_le_reg_r (a0 + a1 + a2)); try assumption; rewrite Hmean; nra.
Qed.

(** X19.  Perspective-correct texture coordinates stay within the range
    of the coordinates of the vertices (exact arithmetic): for a triangle in
    front of the camera ([w > 0] at the three vertices) and weights that are
    non-negative and sum to 1, each coordinate of [texelPercent] lies between
    any bounds that hold for that coordinate at the three vertices. *)
Theorem perspective_texel_percent_in_vertex_range (clip0 clip1 clip2 : Double4 R)
    (uv0 uv1 uv2 : Double2 R) (weights : BarycentricWeights R) (low high : Double2 R) :
  0 < w4 clip0 -> 0 < w4 clip1 -> 0 < w4 clip2 ->
  0 <= weightU weights -> 0 <= weightV weights -> 0 <= weightW weights ->
  weightU weights + weightV weights + weightW weights = 1 ->
  x2 low <= x2 uv0 <= x2 high -> x2 low <= x2 uv1 <= x2 high ->
  x2 low <= x2 uv2 <= x2 high ->
  y2 low <= y2 uv0 <= y2 high -> y2 low <= y2 uv1 <= y2 high ->
  y2 low <= y2 uv2 <= y2 high ->
  let texelPercent := perspectiveTexelPercent clip0 clip1 clip2 uv0 uv1 uv2 weights in
  x2 low <= x2 texelPercent <= x2 high /\ y2 low <= y2 texelPercent <= y2 high.
Proof.
  destruct weights as [u v w]. cbn [weightU weightV weightW].
  intros H0 H1 H2 Hu Hv Hw Hsum Hx0 Hx1 Hx2 Hy0 Hy1 Hy2. cbv zeta.
  unfold perspectiveTexelPercent, shaderClipSpacePoint.
  cbn [x2 y2 w4 weightU weightV weightW].
  change (@ddiv R double_real) with Rdiv. change (@dmul R double_real) with Rmult.
  change (@dadd R double_real) with Rplus. change (@d_one R double_real) with 1.
  pose proof (Rinv_0_lt_compat _ H0) as Hi0.
  pose proof (Rinv_0_lt_compat _ H1) as Hi1.
  pose proof (Rinv_0_lt_compat _ H2) as Hi2.
  pose proof (weighted_sum_pos _ _ _ u v w Hi0 Hi1 Hi2 Hu Hv Hw Hsum) as Hpos.
  split.
  - match goal with
    | |- _ <= ?N / ?S <= _ =>
        replace N with (x2 uv0 * (/ w4 clip0 * u) + x2 uv1 * (/ w4 clip1 * v)
                        + x2 uv2 * (/ w4 clip2 * w)) by (unfold Rdiv; ring);
        replace S with (/ w4 clip0 * u + / w4 clip1 * v + / w4 clip2 * w)
          by (unfold Rdiv; ring)
    end.
    apply weighted_mean_range; try assumption; nra.
  - match goal with
    | |- _ <= ?N / ?S <= _ =>
        replace N with (y2 uv0 * (/ w4 clip0 * u) + y2 uv1 * (/ w4 clip1 * v)
                        + y2 uv2 * (/ w4 clip2 * w)) by (unfold Rdiv; ring);
        replace S with (/ w4 clip0 * u + / w4 clip1 * v + / w4 clip2 * w)
          by (unfold Rdiv; ring)
    end.
    apply weighted_mean_range; try assumption; nra.
Qed.

(** X19, witness: vertices at depths 1, 2 and 4 with the texture
    coordinates (0, 0), (1, 0) and (0, 1), and the weights 1/2, 1/4, 1/4. *)
Lemma perspective_texel_percent_in_vertex_range_witness :
  let texelPercent :=
    perspectiveTexelPercent (mkDouble4 0 0 0 1) (mkDouble4 1 0 0 2) (mkDouble4 0 1 0 4)
      (mkDouble2 0 0) (mkDouble2 1 0) (mkDouble2 0 1) (mkWeights (/ 2) (/ 4) (/ 4)) in
  0 <= x2 texelPercent <= 1 /\ 0 <= y2 texelPercent <= 1.
Proof.
  cbv zeta.
  apply (perspective_texel_percent_in_vertex_range
           (mkDouble4 0 0 0 1) (mkDouble4 1 0 0 2) (mkDouble4 0 1 0 4)
           (mkDouble2 0 0) (mkDouble2 1 0) (mkDouble2 0 1) (mkWeights (/ 2) (/ 4) (/ 4))
           (mkDouble2 0 0) (mkDouble2 1 1)); cbn; lra.
Defined.

(** X20.  Perspective-correct interpolation in exact arithmetic, for
    vertices with [w] different from 0: at a vertex (weight 1 for it, 0 for
    the others) the texture coordinates are those of the vertex, and when
    the three vertices have the same [w] the coordinates are the affine
    combination of the vertices' coordinates by the weights. *)
Theorem perspective_texel_percent_at_vertices (clip0 clip1 clip2 : Double4 R)
    (uv0 uv1 uv2 : Double2 R) :
  w4 clip0 <> 0 -> w4 clip1 <> 0 -> w4 clip2 <> 0 ->
  let texelPercent u v w :=
    perspectiveTexelPercent clip0 clip1 clip2 uv0 uv1 uv2 (mkWeights u v w) in
  texelPercent 1 0 0 = uv0
  /\ texelPercent 0 1 0 = uv1
  /\ texelPercent 0 0 1 = uv2
  /\ (w4 clip0 = w4 clip1 -> w4 clip1 = w4 clip2 ->
      forall u v w, u + v + w = 1 ->
        texelPercent u v w
        = mkDouble2 (x2 uv0 * u + x2 uv1 * v + x2 uv2 * w)
                    (y2 uv0 * u + y2 uv1 * v + y2 uv2 * w)).
Proof.
  intros H0 H1 H2. cbv zeta.
  destruct uv0 as [x0 y0], uv1 as [x1 y1], uv2 as [x2' y2'].
  unfold perspectiveTexelPercent, shaderClipSpacePoint.
  cbn [x2 y2 w4 weightU weightV weightW].
  change (@ddiv R double_real) with Rdiv. change (@dmul R double_real) with Rmult.
  change (@dadd R double_real) with Rplus. change (@d_one R double_real) with 1.
  split; [|split; [|split]]; try (f_equal; field; repeat split; assumption).
  intros E01 E12 u v w Hsum. rewrite <- E12, <- E01.
  replace w with (1 - u - v) by lra.
  f_equal; field; (split; [assumption|lra]).
Qed.

(** X20, witness: the vertices of the witness of X19. *)
Lemma perspective_texel_percent_at_vertices_witness :
  perspectiveTexelPercent (mkDouble4 0 0 0 1) (mkDouble4 1 0 0 2) (mkDouble4 0 1 0 4)
    (mkDouble2 0 0) (mkDouble2 1 0) (mkDouble2 0 1) (mkWeights 0 1 0)
  = mkDouble2 1 0.
Proof.
  apply (perspective_texel_percent_at_vertices
           (mkDouble4 0 0 0 1) (mkDouble4 1 0 0 2) (mkDouble4 0 1 0 4)
           (mkDouble2 0 0) (mkDouble2 1 0) (mkDouble2 0 1)); cbn; lra.
Defined.

(** X21.  The interpolated depth stays within the range of the depths of
    the vertices (exact arithmetic): the weights [barycentricWeights]
    computes sum to 1 by construction, so for a pixel centre whose three
    weights are non-negative [ndcZDepth] lies between any bounds that hold
    for the depth at the three vertices. *)
Theorem interpolated_depth_in_vertex_range (screenSpace0 screenSpace1 screenSpace2
    pixelCenter : Double2 R) (ndc0 ndc1 ndc2 : Double3 R) (low high : R) :
  let weights := barycentricWeights screenSpace0 screenSpace1 screenSpace2 pixelCenter in
  0 <= weightU weights -> 0 <= weightV weights -> 0 <= weightW weights ->
  low <= z3 ndc0 <= high -> low <= z3 ndc1 <= high -> low <= z3 ndc2 <= high ->
  low <= interpolateNdcZDepth ndc0 ndc1 ndc2 weights <= high.
Proof.
  intros weights.
  assert (Hsum : weightU weights + weightV weights + weightW weights = 1).
  { unfold weights, barycentricWeights. cbn [weightU weightV weightW].
    change (@dsub R double_real) with Rminus. change (@d_one R double_real) with 1.
    ring. }
  clearbody weights. destruct weights as [u v w].
  unfold interpolateNdcZDepth. cbn [weightU weightV weightW] in *.
  change (@dmul R double_real) with Rmult. change (@dadd R double_real) with Rplus.
  intros Hu Hv Hw H0 H1 H2. split; nra.
Qed.

(** X21, witness: the pixel centre (1/4, 1/4) in the triangle (0, 0),
    (1, 0), (0, 1), whose vertices lie at the depths 0, 1/2 and 1. *)
Lemma interpolated_depth_in_vertex_range_witness :
  0 <= interpolateNdcZDepth (mkDouble3 0 0 0) (mkDouble3 1 0 (/ 2)) (mkDouble3 0 1 1)
         (barycentricWeights (mkDouble2 0 0) (mkDouble2 1 0) (mkDouble2 0 1)
            (mkDouble2 (/ 4) (/ 4))) <= 1.
Proof.
  apply (interpolated_depth_in_vertex_range (mkDouble2 0 0) (mkDouble2 1 0) (mkDouble2 0 1)
           (mkDouble2 (/ 4) (/ 4)) (mkDouble3 0 0 0) (mkDouble3 1 0 (/ 2)) (mkDouble3 0 1 1) 0 1);
    unfold barycentricWeights, dot2, sub2; cbn; lra.
Defined.
End InterpolationCoverage.

(* ------------------------------------------------------------------ *)
(** ** Resources: further properties                                   *)
(* ------------------------------------------------------------------ *)

Section PoolAllocation.
Context {A : Type}.

Lemma firstFree_spec (p : Pool.t A) (i : nat) :
  Pool.firstFree p = Some i -> nth_error p i = Some None.
Proof.
  revert i. induction p as [|slot rest IH]; intros i; cbn; [discriminate|].
  destruct slot as [a|].
  - destruct (Pool.firstFree rest) as [j|]; cbn; [|discriminate].
    intros [= <-]. now apply IH.
  - now intros [= <-].
Qed.

Lemma tryAlloc_fresh (fresh : A) (p p' : Pool.t A) (id : Z) :
  Pool.tryAlloc fresh p = Some (id, p') ->
  SoftwareRenderer.allocatedFresh p p' id fresh.
Proof.
  unfold Pool.tryAlloc. destruct (Pool.firstFree p) as [i|] eqn:Efree; [|discriminate].
  intros [= <- <-]. apply firstFree_spec in Efree.
  assert (Hlt : (i < List.length p)%nat) by (apply nth_error_Some; congruence).
  unfold SoftwareRenderer.allocatedFresh, Pool.tryGet.
  replace (Z.of_nat i <? 0) with false by (symmetry; apply Z.ltb_ge; lia).
  rewrite Nat2Z.id. split; [now rewrite Efree|]. split.
  - now rewrite nth_error_setSlot_same.
  - intros other Hother. destruct (Z.ltb_spec other 0); [reflexivity|].
    rewrite nth_error_setSlot_other; [reflexivity|]. lia.
Qed.

Lemma allocatedFresh_set (p p' : Pool.t A) (id : Z) (fresh element : A) :
  SoftwareRenderer.allocatedFresh p p' id fresh ->
  SoftwareRenderer.allocatedFresh p (Pool.set p' id element) id element.
Proof.
  intros (Hfree & Hnew & Hother). split; [exact Hfree|]. split.
  - now apply (tryGet_set_same p' id fresh).
  - intros other Hne. rewrite tryGet_set_other by assumption. now apply Hother.
Qed.
End PoolAllocation.

Lemma std_copy_at_spec {A : Type} (src dst : list A) (offset : nat) :
  (offset + List.length src <= List.length dst)%nat ->
  std_copy_at src offset dst
  = firstn offset dst ++ src ++ skipn (offset + List.length src) dst
  /\ List.length (std_copy_at src offset dst) = List.length dst.
Proof.
  intros Hfit. unfold std_copy_at, std_copy. rewrite skipn_skipn.
  replace (List.length src + offset)%nat with (offset + List.length src)%nat by lia.
  split; [reflexivity|].
  rewrite !length_app, length_firstn, length_skipn. lia.
Qed.

Lemma int_wrap_range (z : Z) : INT_MIN <= int_wrap z <= INT_MAX.
Proof.
  unfold int_wrap, INT_MIN, INT_MAX. change (2 ^ 32) with 4294967296.
  pose proof (Z.mod_pos_bound (z - -2147483648) 4294967296). lia.
Qed.

Lemma int_wrap_fits (z : Z) : INT_MIN <= z <= INT_MAX -> int_wrap z = z.
Proof.
  unfold int_wrap, INT_MIN, INT_MAX. change (2 ^ 32) with 4294967296.
  intros Hfits. rewrite Z.mod_small by lia. lia.
Qed.

Lemma int_mul_fits (a b : Z) : 0 <= a -> 0 <= b -> a * b <= INT_MAX -> int_mul a b = a * b.
Proof.
  intros Ha Hb Hfits. apply int_wrap_fits. unfold INT_MIN. nia.
Qed.

Section ResourceCoverage.
Import SoftwareRenderer.
Context {D : Type} {ops : DoubleOps D}.

Ltac pass_asserts :=
  unfold DebugAssert;
  repeat match goal with
         | |- context [if ?c then Done tt else Halted _] =>
             let E := fresh "Hassert" in
             destruct c eqn:E; cbn [bind]; [|discriminate]
         end.

Ltac allocate fresh pool :=
  let id := fresh "id" in
  let pool' := fresh "pool'" in
  let Ealloc := fresh "Ealloc" in
  destruct (Pool.tryAlloc fresh pool) as [[id pool']|] eqn:Ealloc;
  [ apply tryAlloc_fresh in Ealloc
  | intros [= <-]; cbn [returned]; discriminate ].

Lemma ObjectTexture_init_done (width height bytesPerTexel : Z) (texture : ObjectTexture D) :
  ObjectTexture_init width height bytesPerTexel = Done texture ->
  0 < width /\ 0 < height /\ (bytesPerTexel = 1 \/ bytesPerTexel = 4)
  /\ texture
     = mkObjectTexture
         (repeat 0 (Z.to_nat (int_mul (int_mul width height) bytesPerTexel)))
         (bytesPerTexel =? 1) (bytesPerTexel =? 4) width height
         (double_of_int width) (double_of_int height) (int_mul width height)
         bytesPerTexel.
Proof.
  unfold ObjectTexture_init. pass_asserts.
  apply Z.ltb_lt in Hassert, Hassert0, Hassert1.
  destruct (Z.eqb_spec bytesPerTexel 1) as [->|Hone]; cbn [bind fst snd].
  - intros [= <-]. repeat split; auto.
  - destruct (Z.eqb_spec bytesPerTexel 4) as [->|Hfour]; cbn [bind fst snd];
      [|discriminate].
    intros [= <-]. repeat split; auto.
Qed.

(** X22.  A buffer that [tryCreate...] has just created takes exactly the
    number of values [init] gave it, which is the [int] product
    [vertexCount * componentsPerVertex] for a vertex or an attribute buffer
    (the product itself when it fits an [int]) and [indexCount] for an index
    buffer: populating it with that many values succeeds, logs nothing, and
    the buffer then holds the values in order. *)
Theorem create_then_populate_round_trip (r : Renderer D) :
  (forall vertexCount componentsPerVertex res vertices,
      tryCreateVertexBuffer r vertexCount componentsPerVertex = Done res ->
      returned res = true ->
      Z.of_nat (List.length vertices) = int_mul vertexCount componentsPerVertex ->
      exists id r',
        outID res = Some id
        /\ populateVertexBuffer (rendererAfter res) id vertices = Some r'
        /\ Pool.tryGet (vertexBuffers r') id = Some (mkVertexBuffer vertices)
        /\ debugLog r' = debugLog r)
  /\ (forall vertexCount componentsPerVertex res attributes,
         tryCreateAttributeBuffer r vertexCount componentsPerVertex = Done res ->
         returned res = true ->
         Z.of_nat (List.length attributes) = int_mul vertexCount componentsPerVertex ->
         exists id r',
           outID res = Some id
           /\ populateAttributeBuffer (rendererAfter res) id attributes = Some r'
           /\ Pool.tryGet (attributeBuffers r') id = Some (mkAttributeBuffer attributes)
           /\ debugLog r' = debugLog r)
  /\ (forall indexCount res indices,
         tryCreateIndexBuffer r indexCount = Done res ->
         returned res = true ->
         Z.of_nat (List.length indices) = indexCount ->
         exists id r',
           outID res = Some id
           /\ populateIndexBuffer (rendererAfter res) id indices = Some r'
           /\ Pool.tryGet (indexBuffers r') id = Some (mkIndexBuffer indices)
           /\ debugLog r' = debugLog r)
  /\ (forall vertexCount componentsPerVertex,
         0 < vertexCount -> 2 <= componentsPerVertex ->
         vertexCount * componentsPerVertex <= INT_MAX ->
         int_mul vertexCount componentsPerVertex = vertexCount * componentsPerVertex).
Proof.
  split; [|split; [|split]]; [| | |intros; apply int_mul_fits; lia].
  - intros vertexCount componentsPerVertex res vertices.
    unfold tryCreateVertexBuffer. pass_asserts.
    allocate (@emptyVertexBuffer D) (vertexBuffers r).
    intros [= <-] _ Hcount. cbn [outID rendererAfter].
    apply (allocatedFresh_set _ _ _ _
             (VertexBuffer_init vertexCount componentsPerVertex)) in Ealloc.
    destruct Ealloc as (_ & Hget & _).
    exists id. eexists. split; [reflexivity|].
    unfold populateVertexBuffer. cbn [vertexBuffers setVertexBuffers]. rewrite Hget.
    unfold VertexBuffer_init at 1. cbn [SoftwareRenderer.vertices]. rewrite repeat_length.
    apply Z.ltb_lt in Hassert. apply Z.leb_le in Hassert0.
    replace (Z.of_nat (List.length vertices)
             =? Z.of_nat (Z.to_nat (int_mul vertexCount componentsPerVertex))) with true
      by (symmetry; apply Z.eqb_eq; lia).
    cbn [negb]. split; [reflexivity|]. cbn [vertexBuffers setVertexBuffers debugLog].
    split; [|reflexivity].
    rewrite (tryGet_set_same _ _ _ _ Hget). f_equal. f_equal.
    apply std_copy_same_count. unfold VertexBuffer_init. cbn [SoftwareRenderer.vertices].
    rewrite repeat_length. lia.
  - intros vertexCount componentsPerVertex res attributes.
    unfold tryCreateAttributeBuffer. pass_asserts.
    allocate (@emptyAttributeBuffer D) (attributeBuffers r).
    intros [= <-] _ Hcount. cbn [outID rendererAfter].
    apply (allocatedFresh_set _ _ _ _
             (AttributeBuffer_init vertexCount componentsPerVertex)) in Ealloc.
    destruct Ealloc as (_ & Hget & _).
    exists id. eexists. split; [reflexivity|].
    unfold populateAttributeBuffer. cbn [attributeBuffers setAttributeBuffers].
    rewrite Hget.
    unfold AttributeBuffer_init at 1. cbn [SoftwareRenderer.attributes].
    rewrite repeat_length.
    apply Z.ltb_lt in Hassert. apply Z.leb_le in Hassert0.
    replace (Z.of_nat (List.length attributes)
             =? Z.of_nat (Z.to_nat (int_mul vertexCount componentsPerVertex))) with true
      by (symmetry; apply Z.eqb_eq; lia).
    cbn [negb]. split; [reflexivity|].
    cbn [attributeBuffers setAttributeBuffers debugLog].
    split; [|reflexivity].
    rewrite (tryGet_set_same _ _ _ _ Hget). f_equal. f_equal.
    apply std_copy_same_count. unfold AttributeBuffer_init.
    cbn [SoftwareRenderer.attributes]. rewrite repeat_length. lia.
  - intros indexCount res indices.
    unfold tryCreateIndexBuffer. pass_asserts.
    allocate (emptyIndexBuffer) (indexBuffers r).
    intros [= <-] _ Hcount. cbn [outID rendererAfter].
    apply (allocatedFresh_set _ _ _ _ (IndexBuffer_init indexCount)) in Ealloc.
    destruct Ealloc as (_ & Hget & _).
    exists id. eexists. split; [reflexivity|].
    unfold populateIndexBuffer. cbn [indexBuffers setIndexBuffers]. rewrite Hget.
    unfold IndexBuffer_init at 1. cbn [SoftwareRenderer.indices]. rewrite repeat_length.
    apply Z.ltb_lt in Hassert.
    replace (Z.of_nat (List.length indices) =? Z.of_nat (Z.to_nat indexCount)) with true
      by (symmetry; apply Z.eqb_eq; lia).
    cbn [negb]. split; [reflexivity|]. cbn [indexBuffers setIndexBuffers debugLog].
    split; [|reflexivity].
    rewrite (tryGet_set_same _ _ _ _ Hget). f_equal. f_equal.
    apply std_copy_same_count. unfold IndexBuffer_init. cbn [SoftwareRenderer.indices].
    rewrite repeat_length. lia.
Qed.

Ltac same_renderer r := destruct r; reflexivity.

(** X23.  A successful [tryCreate...] hands out a handle that was free,
    stores there the element initialised from the arguments (a
    default-constructed light for [tryCreateLight]), leaves every other
    handle of the pool as it was, and changes nothing else in the renderer:
    putting the old pool back gives the old renderer. *)
Theorem create_allocates_fresh_handle (r : Renderer D) :
  (forall vertexCount componentsPerVertex res,
      tryCreateVertexBuffer r vertexCount componentsPerVertex = Done res ->
      returned res = true ->
      exists id,
        outID res = Some id
        /\ allocatedFresh (vertexBuffers r) (vertexBuffers (rendererAfter res)) id
             (VertexBuffer_init vertexCount componentsPerVertex)
        /\ setVertexBuffers (rendererAfter res) (vertexBuffers r) = r)
  /\ (forall vertexCount componentsPerVertex res,
         tryCreateAttributeBuffer r vertexCount componentsPerVertex = Done res ->
         returned res = true ->
         exists id,
           outID res = Some id
           /\ allocatedFresh (attributeBuffers r) (attributeBuffers (rendererAfter res)) id
                (AttributeBuffer_init vertexCount componentsPerVertex)
           /\ setAttributeBuffers (rendererAfter res) (attributeBuffers r) = r)
  /\ (forall indexCount res,
         tryCreateIndexBuffer r indexCount = Done res ->
         returned res = true ->
         exists id,
           outID res = Some id
           /\ allocatedFresh (indexBuffers r) (indexBuffers (rendererAfter res)) id
                (IndexBuffer_init indexCount)
           /\ setIndexBuffers (rendererAfter res) (indexBuffers r) = r)
  /\ (forall elementCount sizeOfElement alignmentOfElement res,
         tryCreateUniformBuffer r elementCount sizeOfElement alignmentOfElement = Done res ->
         returned res = true ->
         exists id,
           outID res = Some id
           /\ allocatedFresh (uniformBuffers r) (uniformBuffers (rendererAfter res)) id
                (UniformBuffer_init elementCount sizeOfElement alignmentOfElement)
           /\ setUniformBuffers (rendererAfter res) (uniformBuffers r) = r)
  /\ (forall width height bytesPerTexel res,
         tryCreateObjectTexture r width height bytesPerTexel = Done res ->
         returned res = true ->
         exists id texture,
           outID res = Some id
           /\ ObjectTexture_init width height bytesPerTexel = Done texture
           /\ allocatedFresh (objectTextures r) (objectTextures (rendererAfter res)) id
                texture
           /\ setObjectTextures (rendererAfter res) (objectTextures r) = r)
  /\ (forall res,
         tryCreateLight r = Done res ->
         returned res = true ->
         exists id,
           outID res = Some id
           /\ allocatedFresh (lights r) (lights (rendererAfter res)) id defaultLight
           /\ setLights (rendererAfter res) (lights r) = r).
Proof.
  split; [|split; [|split; [|split; [|split]]]].
  - intros vertexCount componentsPerVertex res.
    unfold tryCreateVertexBuffer. pass_asserts.
    allocate (@emptyVertexBuffer D) (vertexBuffers r).
    intros [= <-] _. cbn [outID rendererAfter]. exists id.
    split; [reflexivity|]. split; [|same_renderer r].
    cbn [vertexBuffers setVertexBuffers]. now apply (allocatedFresh_set _ _ _ emptyVertexBuffer).
  - intros vertexCount componentsPerVertex res.
    unfold tryCreateAttributeBuffer. pass_asserts.
    allocate (@emptyAttributeBuffer D) (attributeBuffers r).
    intros [= <-] _. cbn [outID rendererAfter]. exists id.
    split; [reflexivity|]. split; [|same_renderer r].
    cbn [attributeBuffers setAttributeBuffers].
    now apply (allocatedFresh_set _ _ _ emptyAttributeBuffer).
  - intros indexCount res.
    unfold tryCreateIndexBuffer. pass_asserts.
    allocate emptyIndexBuffer (indexBuffers r).
    intros [= <-] _. cbn [outID rendererAfter]. exists id.
    split; [reflexivity|]. split; [|same_renderer r].
    cbn [indexBuffers setIndexBuffers]. now apply (allocatedFresh_set _ _ _ emptyIndexBuffer).
  - intros elementCount sizeOfElement alignmentOfElement res.
    unfold tryCreateUniformBuffer. pass_asserts.
    allocate emptyUniformBuffer (uniformBuffers r).
    intros [= <-] _. cbn [outID rendererAfter]. exists id.
    split; [reflexivity|]. split; [|same_renderer r].
    cbn [uniformBuffers setUniformBuffers].
    now apply (allocatedFresh_set _ _ _ emptyUniformBuffer).
  - intros width height bytesPerTexel res.
    unfold tryCreateObjectTexture.
    allocate (@emptyObjectTexture D ops) (objectTextures r).
    destruct (ObjectTexture_init width height bytesPerTexel) as [texture|message];
      cbn [bind]; [|discriminate].
    intros [= <-] _. cbn [outID rendererAfter]. exists id, texture.
    split; [reflexivity|]. split; [reflexivity|]. split; [|same_renderer r].
    cbn [objectTextures setObjectTextures].
    now apply (allocatedFresh_set _ _ _ emptyObjectTexture).
  - intros res. unfold tryCreateLight.
    allocate (@defaultLight D ops) (lights r).
    intros [= <-] _. cbn [outID rendererAfter]. exists id.
    split; [reflexivity|]. split; [|same_renderer r].
    cbn [lights setLights]. exact Ealloc.
Qed.

(** X24.  [ObjectTexture::init] accepts a texture exactly when the width
    and the height are positive and there are 1 or 4 bytes per texel (any
    other positive number of bytes is not implemented).  The texture then
    records the width, the height and the bytes per texel, counts
    [width * height] texels as an [int] product and holds that count times
    [bytesPerTexel], again as an [int] product, zero bytes, seen as 8-bit
    texels for 1 byte per texel and as 32-bit texels for 4.  When
    [width * height * bytesPerTexel] fits an [int], the two products are the
    exact ones. *)
Theorem object_texture_init_accepts (width height bytesPerTexel : Z) :
  ((exists texture : ObjectTexture D,
       ObjectTexture_init width height bytesPerTexel = Done texture)
   <-> 0 < width /\ 0 < height /\ (bytesPerTexel = 1 \/ bytesPerTexel = 4))
  /\ (forall texture : ObjectTexture D,
         ObjectTexture_init width height bytesPerTexel = Done texture ->
         let texelCount := int_mul width height in
         let byteCount := int_mul texelCount bytesPerTexel in
         texture
         = mkObjectTexture (repeat 0 (Z.to_nat byteCount))
             (bytesPerTexel =? 1) (bytesPerTexel =? 4) width height
             (double_of_int width) (double_of_int height) texelCount bytesPerTexel
         /\ (width * height * bytesPerTexel <= INT_MAX ->
             texelCount = width * height
             /\ byteCount = width * height * bytesPerTexel)).
Proof.
  split; [split|].
  - intros [texture Hdone]. apply ObjectTexture_init_done in Hdone. tauto.
  - apply ObjectTexture_init_valid.
  - intros texture Hdone. cbv zeta.
    apply ObjectTexture_init_done in Hdone as (Hwidth & Hheight & Hbytes & ->).
    split; [reflexivity|]. intros Hfits.
    assert (Htexels : int_mul width height = width * height)
      by (apply int_mul_fits; nia).
    rewrite Htexels. split; [reflexivity|]. apply int_mul_fits; nia.
Qed.

(** X25.  A texture that [tryCreateObjectTexture] has just created answers
    [tryGetObjectTextureDims] with the width and height it was created
    with, and [lockObjectTexture] gives its zero bytes with the bytes per
    texel: as many as the [int] products of [ObjectTexture::init] make, which
    is [width * height * bytesPerTexel] when that fits an [int]. *)
Theorem created_texture_reports_its_dimensions (r : Renderer D)
    (width height bytesPerTexel : Z) (res : CreateResult D) :
  tryCreateObjectTexture r width height bytesPerTexel = Done res ->
  returned res = true ->
  exists id,
    outID res = Some id
    /\ tryGetObjectTextureDims (rendererAfter res) id = Some (width, height)
    /\ lockObjectTexture (rendererAfter res) id
       = Some (repeat 0 (Z.to_nat (int_mul (int_mul width height) bytesPerTexel)),
               bytesPerTexel)
    /\ (width * height * bytesPerTexel <= INT_MAX ->
        lockObjectTexture (rendererAfter res) id
        = Some (repeat 0 (Z.to_nat (width * height * bytesPerTexel)), bytesPerTexel)).
Proof.
  unfold tryCreateObjectTexture.
  allocate (@emptyObjectTexture D ops) (objectTextures r).
  destruct (ObjectTexture_init width height bytesPerTexel) as [texture|message] eqn:Hinit;
    cbn [bind]; [|discriminate].
  intros [= <-] _. cbn [outID rendererAfter]. exists id. split; [reflexivity|].
  apply (allocatedFresh_set _ _ _ _ texture) in Ealloc. destruct Ealloc as (_ & Hget & _).
  unfold tryGetObjectTextureDims, lockObjectTexture.
  cbn [objectTextures setObjectTextures]. rewrite Hget.
  apply ObjectTexture_init_done in Hinit as (Hwidth & Hheight & Hbytes & ->).
  cbn [textureWidth textureHeight textureTexels SoftwareRenderer.bytesPerTexel].
  split; [reflexivity|]. split; [reflexivity|]. intros Hfits.
  assert (Htexels : int_mul width height = width * height)
    by (apply int_mul_fits; nia).
  rewrite Htexels, int_mul_fits by nia. reflexivity.
Qed.

(** X26.  [populateUniformAtIndex] on a valid handle compares the number of
    bytes offered with the element size as [static_cast<int>] gives it,
    [dstByteCount].  For an element inside a buffer of at most [INT_MAX]
    bytes: when the number of bytes offered is not [dstByteCount], an error
    is logged and nothing changes; when it is, exactly the bytes of element
    [uniformIndex] are replaced, the bytes before and after it and the size
    of the buffer stay, and nothing is logged.  [dstByteCount] is the
    element size itself when that fits an [int]. *)
Theorem populate_uniform_at_index_contract (r : Renderer D) (id uniformIndex : Z)
    (uniformData : list Z) (buffer : UniformBuffer) :
  Pool.tryGet (uniformBuffers r) id = Some buffer ->
  0 <= uniformIndex -> 0 <= int_wrap (sizeOfElement buffer) ->
  int_wrap (sizeOfElement buffer) * (uniformIndex + 1)
  <= Z.of_nat (List.length (uniformBytes buffer)) ->
  Z.of_nat (List.length (uniformBytes buffer)) <= INT_MAX ->
  let dstByteCount := int_wrap (sizeOfElement buffer) in
  (Z.of_nat (List.length uniformData) <> dstByteCount ->
   exists r',
     populateUniformAtIndex r id uniformIndex uniformData = Some r'
     /\ refusedWithError r r')
  /\ (Z.of_nat (List.length uniformData) = dstByteCount ->
      exists r' bytes,
        populateUniformAtIndex r id uniformIndex uniformData = Some r'
        /\ bytes
           = firstn (Z.to_nat (dstByteCount * uniformIndex)) (uniformBytes buffer)
             ++ uniformData
             ++ skipn (Z.to_nat (dstByteCount * (uniformIndex + 1)))
                  (uniformBytes buffer)
        /\ List.length bytes = List.length (uniformBytes buffer)
        /\ slotReplaced (uniformBuffers r) (uniformBuffers r') id
             (mkUniformBuffer bytes (elementCount buffer) (sizeOfElement buffer)
                (alignmentOfElement buffer)) r r')
  /\ (0 <= sizeOfElement buffer <= INT_MAX -> dstByteCount = sizeOfElement buffer).
Proof.
  intros Hget Hindex Hsize Hinside Hfits dstByteCount. fold dstByteCount in Hsize, Hinside.
  assert (Hbegin : int_mul dstByteCount uniformIndex = dstByteCount * uniformIndex)
    by (apply int_mul_fits; nia).
  unfold populateUniformAtIndex. rewrite Hget. cbv zeta. fold dstByteCount.
  rewrite Hbegin. split; [|split].
  - intros Hmismatch.
    replace (Z.of_nat (List.length uniformData) =? dstByteCount) with false
      by (symmetry; apply Z.eqb_neq; assumption).
    cbn [negb]. eexists. split; [reflexivity|]. split.
    + apply samePools_DebugLogError.
    + do 2 eexists. reflexivity.
  - intros Hmatch. rewrite Hmatch, Z.eqb_refl. cbn [negb].
    replace ((0 <=? dstByteCount * uniformIndex)
             && (dstByteCount * uniformIndex + dstByteCount
                 <=? Z.of_nat (List.length (uniformBytes buffer)))) with true
      by (symmetry; apply andb_true_iff; split; apply Z.leb_le; nia).
    destruct (std_copy_at_spec uniformData (uniformBytes buffer)
                (Z.to_nat (dstByteCount * uniformIndex))) as [Hcopy Hlength];
      [nia|].
    eexists.
    exists (std_copy_at uniformData (Z.to_nat (dstByteCount * uniformIndex))
              (uniformBytes buffer)).
    split; [reflexivity|]. split; [|split].
    + rewrite Hcopy. do 3 f_equal. nia.
    + exact Hlength.
    + cbn [uniformBuffers setUniformBuffers debugLog]. split; [|split].
      * now apply (tryGet_set_same _ _ buffer).
      * intros other Hother. now apply tryGet_set_other.
      * reflexivity.
  - intros Hint. apply int_wrap_fits. unfold INT_MIN. lia.
Qed.

Lemma tryGet_free (A : Type) (p : Pool.t A) (id other : Z) (a : A) :
  Pool.tryGet (Pool.free p id) other = Some a -> Pool.tryGet p other = Some a.
Proof.
  unfold Pool.tryGet, Pool.free. destruct (Z.ltb_spec other 0); [discriminate|].
  destruct (Z.ltb_spec id 0); [trivial|].
  destruct (Nat.eq_dec (Z.to_nat id) (Z.to_nat other)) as [Hsame|Hother].
  - rewrite <- Hsame.
    destruct (Nat.lt_ge_cases (Z.to_nat id) (List.length p)) as [Hlt|Hge].
    + rewrite nth_error_setSlot_same by assumption. discriminate.
    + assert (Hnone : nth_error (Pool.setSlot p (Z.to_nat id) None) (Z.to_nat id) = None).
      { apply nth_error_None.
        assert (Hlen : forall (q : Pool.t A) i v,
                   List.length (Pool.setSlot q i v) = List.length q).
        { induction q as [|s rest IH]; intros [|i] v; cbn; auto. }
        rewrite Hlen. assumption. }
      rewrite Hnone. discriminate.
  - now rewrite nth_error_setSlot_other.
Qed.

(** X27.  The radii of the lights stay ordered.  If every light of the
    renderer has [0 <= startRadius <= endRadius], then so has every light
    after [tryCreateLight], [setLightPosition], a [setLightRadius] that
    passes its assertions, and [freeLight]; a new light starts with both
    radii 0, which is ordered as soon as [0 <= 0] holds for the scalars. *)
Theorem light_radii_stay_ordered (r : Renderer D) :
  (d_zero >=? d_zero)%D = true ->
  lightRadiiOrdered r ->
  (forall res, tryCreateLight r = Done res -> lightRadiiOrdered (rendererAfter res))
  /\ (forall id worldPoint r',
         setLightPosition r id worldPoint = Some r' -> lightRadiiOrdered r')
  /\ (forall id startRadius endRadius r',
         setLightRadius r id startRadius endRadius = Done (Some r') ->
         lightRadiiOrdered r')
  /\ (forall id, lightRadiiOrdered (freeLight r id)).
Proof.
  intros Hzero Hordered. split; [|split; [|split]].
  - intros res. unfold tryCreateLight.
    destruct (Pool.tryAlloc defaultLight (lights r)) as [[id pool']|] eqn:Ealloc.
    + apply tryAlloc_fresh in Ealloc as (_ & Hnew & Hold).
      intros [= <-]. cbn [rendererAfter]. intros other light. cbn [lights setLights].
      destruct (Z.eq_dec other id) as [->|Hne].
      * rewrite Hnew. intros [= <-]. cbn. now split.
      * rewrite Hold by assumption. apply Hordered.
    + intros [= <-]. cbn [rendererAfter]. exact Hordered.
  - intros id worldPoint r'. unfold setLightPosition.
    destruct (Pool.tryGet (lights r) id) as [light|] eqn:Hget; [|discriminate].
    intros [= <-] other light'. cbn [lights setLights].
    destruct (Z.eq_dec other id) as [->|Hne].
    + rewrite (tryGet_set_same _ _ _ _ Hget). intros [= <-]. cbn.
      exact (Hordered id light Hget).
    + rewrite tryGet_set_other by assumption. apply Hordered.
  - intros id startRadius endRadius r'. unfold setLightRadius. pass_asserts.
    destruct (Pool.tryGet (lights r) id) as [light|] eqn:Hget; [|discriminate].
    intros [= <-] other light'. cbn [lights setLights].
    destruct (Z.eq_dec other id) as [->|Hne].
    + rewrite (tryGet_set_same _ _ _ _ Hget). intros [= <-]. cbn. now split.
    + rewrite tryGet_set_other by assumption. apply Hordered.
  - intros id other light. unfold freeLight. cbn [lights setLights].
    intros Hget. apply tryGet_free in Hget. exact (Hordered other light Hget).
Qed.
End ResourceCoverage.

Section ResourceWitnesses.
Import SoftwareRenderer Examples.

(** X22, witness: a vertex buffer of one vertex with three components,
    created in [freshRenderer] and populated with three values. *)
Lemma create_then_populate_round_trip_witness :
  exists res r',
    tryCreateVertexBuffer freshRenderer 1 3 = Done res
    /\ populateVertexBuffer (rendererAfter res) 0 [1; 2; 3]%float = Some r'
    /\ Pool.tryGet (vertexBuffers r') 0 = Some (mkVertexBuffer [1; 2; 3]%float).
Proof.
  assert (Hrun : exists res, tryCreateVertexBuffer freshRenderer 1 3 = Done res
                             /\ returned res = true /\ outID res = Some 0).
  { eexists. split; [reflexivity|]. split; reflexivity. }
  destruct Hrun as (res & Hrun & Hreturned & Hid).
  destruct (proj1 (create_then_populate_round_trip freshRenderer) 1 3 res
              [1; 2; 3]%float Hrun Hreturned eq_refl)
    as (id & r' & Hid' & Hpopulate & Hget & _).
  assert (id = 0) by congruence. subst id.
  exists res, r'. now repeat split.
Defined.

(** X25, witness: a 2x3 texture of one byte per texel created in
    [freshRenderer]. *)
Lemma created_texture_reports_its_dimensions_witness :
  exists res,
    tryCreateObjectTexture freshRenderer 2 3 1 = Done res
    /\ returned res = true
    /\ tryGetObjectTextureDims (rendererAfter res) 0 = Some (2, 3)
    /\ lockObjectTexture (rendererAfter res) 0 = Some ([0; 0; 0; 0; 0; 0], 1).
Proof.
  assert (Hrun : exists res, tryCreateObjectTexture freshRenderer 2 3 1 = Done res
                             /\ returned res = true /\ outID res = Some 0).
  { eexists. split; [reflexivity|]. split; reflexivity. }
  destruct Hrun as (res & Hrun & Hreturned & Hid).
  destruct (created_texture_reports_its_dimensions freshRenderer 2 3 1 res Hrun Hreturned)
    as (id & Hid' & Hdims & _ & Hlock).
  assert (id = 0) by congruence. subst id.
  exists res. split; [exact Hrun|]. split; [exact Hreturned|].
  split; [exact Hdims|]. apply Hlock. unfold INT_MAX. lia.
Defined.

(** X26, witness: the second element of the uniform buffer of
    [uniformRenderer], offered two bytes and then three; and the second
    element of the buffer of [wideElementRenderer], whose element size
    2^32 + 2 is compared as 2. *)
Lemma populate_uniform_at_index_contract_witness :
  (exists r',
      populateUniformAtIndex uniformRenderer 0 1 [7; 8] = Some r'
      /\ Pool.tryGet (uniformBuffers r') 0
         = Some (mkUniformBuffer [0; 0; 7; 8; 0; 0] 3 2 1))
  /\ (exists r',
         populateUniformAtIndex uniformRenderer 0 1 [7; 8; 9] = Some r'
         /\ refusedWithError uniformRenderer r')
  /\ (exists r',
         populateUniformAtIndex wideElementRenderer 0 1 [7; 8] = Some r'
         /\ Pool.tryGet (uniformBuffers r') 0
            = Some (mkUniformBuffer [0; 0; 7; 8] 2 4294967298 1)).
Proof.
  assert (Hget : Pool.tryGet (uniformBuffers uniformRenderer) 0
                 = Some (mkUniformBuffer [0; 0; 0; 0; 0; 0] 3 2 1)) by reflexivity.
  assert (Hwide : Pool.tryGet (uniformBuffers wideElementRenderer) 0
                  = Some (mkUniformBuffer [0; 0; 0; 0] 2 4294967298 1)) by reflexivity.
  assert (Htwo : int_wrap 2 = 2) by reflexivity.
  assert (Htruncated : int_wrap 4294967298 = 2) by reflexivity.
  split; [|split].
  - destruct (proj1 (proj2 (populate_uniform_at_index_contract uniformRenderer 0 1 [7; 8] _
                              Hget ltac:(lia)
                              ltac:(cbn [sizeOfElement]; rewrite Htwo; lia)
                              ltac:(cbn [sizeOfElement uniformBytes List.length];
                                    rewrite Htwo; lia)
                              ltac:(cbn; unfold INT_MAX; lia)))
                ltac:(cbn [sizeOfElement List.length]; rewrite Htwo; reflexivity))
      as (r' & bytes & Hrun & Hbytes & _ & Hslot & _).
    exists r'. split; [exact Hrun|]. rewrite Hslot, Hbytes.
    cbn [sizeOfElement]. rewrite Htwo. reflexivity.
  - apply (proj1 (populate_uniform_at_index_contract uniformRenderer 0 1 [7; 8; 9] _
                    Hget ltac:(lia)
                    ltac:(cbn [sizeOfElement]; rewrite Htwo; lia)
                    ltac:(cbn [sizeOfElement uniformBytes List.length];
                          rewrite Htwo; lia)
                    ltac:(cbn; unfold INT_MAX; lia))).
    cbn [sizeOfElement List.length]. rewrite Htwo. lia.
  - destruct (proj1 (proj2 (populate_uniform_at_index_contract wideElementRenderer 0 1
                              [7; 8] _ Hwide ltac:(lia)
                              ltac:(cbn [sizeOfElement]; rewrite Htruncated; lia)
                              ltac:(cbn [sizeOfElement uniformBytes List.length];
                                    rewrite Htruncated; lia)
                              ltac:(cbn; unfold INT_MAX; lia)))
                ltac:(cbn [sizeOfElement List.length]; rewrite Htruncated; reflexivity))
      as (r' & bytes & Hrun & Hbytes & _ & Hslot & _).
    exists r'. split; [exact Hrun|]. rewrite Hslot, Hbytes.
    cbn [sizeOfElement]. rewrite Htruncated. reflexivity.
Defined.

(** X27, witness: [litRenderer], whose light has the radii 2 and 6; a new
    position for the light, and freeing it, keep the radii ordered. *)
Lemma light_radii_stay_ordered_witness :
  lightRadiiOrdered litRenderer
  /\ (exists r',
         setLightPosition litRenderer 0 (vec3 1 2 3) = Some r' /\ lightRadiiOrdered r')
  /\ lightRadiiOrdered (freeLight litRenderer 0).
Proof.
  assert (Hordered : lightRadiiOrdered litRenderer).
  { intros id light. unfold Pool.tryGet. destruct (Z.ltb_spec id 0); [discriminate|].
    cbn [lights litRenderer].
    destruct (Z.to_nat id) as [|[|n]]; cbn; try discriminate.
    - intros [= <-]. split; reflexivity.
    - destruct n; discriminate. }
  destruct (@light_radii_stay_ordered float double_float litRenderer eq_refl Hordered)
    as (_ & Hposition & _ & Hfree).
  split; [exact Hordered|]. split.
  - assert (Hrun : exists r', setLightPosition litRenderer 0 (vec3 1 2 3) = Some r')
      by (eexists; reflexivity).
    destruct Hrun as (r' & Hrun). exists r'.
    split; [exact Hrun|exact (Hposition _ _ _ Hrun)].
  - apply Hfree.
Defined.
End ResourceWitnesses.
